(** * CSV-to-SQL converter: type inference, name sanitising, row extraction
      and merge planning, embedded from [csv_converter_pro.py] and
      [convert_to_sql.py].

    Text is a [string] holding the UTF-8 bytes of a Python [str]: a file
    that decodes as UTF-8 keeps its bytes as its text, and a character
    above U+007F takes two to four bytes.  [len] counts characters, not
    bytes.  The character classes ([isdigit], [isalpha], [lower], [\d],
    [\s]) are those of ASCII: they are Python's on a text that holds ASCII
    characters only ([ascii_text]), and the statements about the fields of
    [csv_data] and [create_table], about DB_PORT and about the table name
    carry that hypothesis.  The sanitiser, which turns every character
    outside [[A-Za-z0-9_]] into an underscore and collapses the
    underscores, gives the same name on any text; so does the comparison
    with the boolean tokens, since no character above U+007F has a lower
    case made of their letters.

    Integers are Python's unbounded [int], hence [Z].  [int] on a text
    refuses more than 4300 digits unless the interpreter's limit is lifted;
    the statements about [int] are for texts of at most 4300 characters
    ([plain_field]).

    The pandas entry points that the inferrer calls ([to_numeric],
    [to_datetime], [read_csv]) and [csv.reader] are library code: they are
    parameters of the functions that call them, and stand for calls that
    return.  Module [Plain] and module [PlainCsv] give readers of plain
    decimal literals, of ISO dates and of unquoted CSV text for the closed
    examples.

    In [infer_sql_type] the [try] around the integer ranges has no model:
    [to_numeric] with [errors='coerce'], [max] and [min] do not raise. *)

From Stdlib Require Import ZArith QArith Bool List Ascii String Lia.
From Stdlib Require Import Qround SpecFloat.
Import ListNotations.

Local Open Scope string_scope.
Local Open Scope Z_scope.

(* ================================================================== *)
(** ** Python [str] primitives *)

Module PyStr.

Definition in_range (lo hi c : ascii) : bool :=
  (Ascii.leb lo c && Ascii.leb c hi)%bool.

Definition is_digit_char (c : ascii) : bool := in_range "0" "9" c.
Definition is_lower_char (c : ascii) : bool := in_range "a" "z" c.
Definition is_upper_char (c : ascii) : bool := in_range "A" "Z" c.
Definition is_alpha_char (c : ascii) : bool :=
  (is_lower_char c || is_upper_char c)%bool.

Definition underscore : ascii := "_"%char.

Fixpoint all_chars (p : ascii -> bool) (s : string) : bool :=
  match s with
  | EmptyString => true
  | String c r => (p c && all_chars p r)%bool
  end.

Definition is_empty (s : string) : bool :=
  match s with EmptyString => true | String _ _ => false end.

(** [s.isdigit()], [s.isalpha()]: every character in the class and at
    least one character. *)
Definition isdigit (s : string) : bool :=
  (negb (is_empty s) && all_chars is_digit_char s)%bool.
Definition isalpha (s : string) : bool :=
  (negb (is_empty s) && all_chars is_alpha_char s)%bool.

(** [c in s] for a one-character needle. *)
Fixpoint contains_char (c : ascii) (s : string) : bool :=
  match s with
  | EmptyString => false
  | String d r => (Ascii.eqb c d || contains_char c r)%bool
  end.

Definition lower_char (c : ascii) : ascii :=
  if is_upper_char c then ascii_of_nat (nat_of_ascii c + 32) else c.

(** [s.lower()] *)
Fixpoint lower (s : string) : string :=
  match s with
  | EmptyString => EmptyString
  | String c r => String (lower_char c) (lower r)
  end.

(** [s.lstrip(c)], [s.rstrip(c)], [s.strip(c)] for a one-character set. *)
Fixpoint lstrip (c0 : ascii) (s : string) : string :=
  match s with
  | EmptyString => EmptyString
  | String c r => if Ascii.eqb c c0 then lstrip c0 r else s
  end.

Fixpoint rstrip (c0 : ascii) (s : string) : string :=
  match s with
  | EmptyString => EmptyString
  | String c r =>
      let r' := rstrip c0 r in
      if (is_empty r' && Ascii.eqb c c0)%bool then EmptyString
      else String c r'
  end.

Definition strip (c0 : ascii) (s : string) : string :=
  rstrip c0 (lstrip c0 s).

(** [int(s)] on a string of decimal digits. *)
Definition digit_value (c : ascii) : Z := Z.of_nat (nat_of_ascii c) - 48.

Fixpoint int_acc (acc : Z) (s : string) : Z :=
  match s with
  | EmptyString => acc
  | String c r => int_acc (10 * acc + digit_value c) r
  end.

Definition int (s : string) : Z := int_acc 0 s.

(** A continuation byte of UTF-8: of a character of several bytes, every
    byte but the first. *)
Definition is_continuation_byte (c : ascii) : bool :=
  ((128 <=? nat_of_ascii c) && (nat_of_ascii c <=? 191))%nat%bool.

(** The number of characters of a text: its bytes that start a character. *)
Fixpoint char_count (s : string) : nat :=
  match s with
  | EmptyString => O
  | String c r =>
      if is_continuation_byte c then char_count r else S (char_count r)
  end.

(** [len(s)] *)
Definition len (s : string) : Z := Z.of_nat (char_count s).

End PyStr.

(* ================================================================== *)
(** ** The fragment of [re] the converter uses *)

Module Re.
Import PyStr.

(** [re.sub(cls, repl, s)] for a pattern that is one character class. *)
Fixpoint sub_class (cls : ascii -> bool) (repl s : string) : string :=
  match s with
  | EmptyString => EmptyString
  | String c r =>
      if cls c then repl ++ sub_class cls repl r
      else String c (sub_class cls repl r)
  end.

(** [re.sub(cls+, repl, s)]: the scanner is either inside a greedy match
    of [cls+] (the replacement was already emitted) or outside one. *)
Fixpoint sub_class_plus_from (cls : ascii -> bool) (repl : string)
         (in_match : bool) (s : string) : string :=
  match s with
  | EmptyString => EmptyString
  | String c r =>
      if cls c then
        if in_match then sub_class_plus_from cls repl true r
        else repl ++ sub_class_plus_from cls repl true r
      else String c (sub_class_plus_from cls repl false r)
  end.

Definition sub_class_plus (cls : ascii -> bool) (repl s : string) : string :=
  sub_class_plus_from cls repl false s.

(** Patterns built from [\d{n}], [\s+] and literal characters. *)
Inductive item : Type :=
| Digits (n : nat)
| Spaces1
| Lit (c : ascii).

Definition pattern : Type := list item.

Definition is_space_char (c : ascii) : bool :=
  let n := nat_of_ascii c in
  ((Nat.leb 9 n && Nat.leb n 13) || Nat.leb 28 n && Nat.leb n 32)%bool.

Fixpoint eat_digits (n : nat) (s : string) : option string :=
  match n with
  | O => Some s
  | S k =>
      match s with
      | String c r => if is_digit_char c then eat_digits k r else None
      | EmptyString => None
      end
  end.

Fixpoint eat_spaces (s : string) : string :=
  match s with
  | String c r => if is_space_char c then eat_spaces r else s
  | EmptyString => EmptyString
  end.

(** [re.match(p, s)]: the pattern must match at the start of [s]; what
    follows the match is not looked at. *)
Fixpoint re_match (p : pattern) (s : string) : bool :=
  match p with
  | [] => true
  | Digits n :: p' =>
      match eat_digits n s with
      | Some r => re_match p' r
      | None => false
      end
  | Spaces1 :: p' =>
      match s with
      | String c r =>
          if is_space_char c then re_match p' (eat_spaces r) else false
      | EmptyString => false
      end
  | Lit c :: p' =>
      match s with
      | String d r => if Ascii.eqb c d then re_match p' r else false
      | EmptyString => false
      end
  end.

End Re.

(* ================================================================== *)
(** ** Name sanitiser: [CSVConverter._clean_column_name] *)

Module Sanitizer.
Import PyStr.

(** The class [[a-zA-Z0-9_]] and its complement [[^a-zA-Z0-9_]]. *)
Definition is_word_char (c : ascii) : bool :=
  (is_lower_char c || is_upper_char c || is_digit_char c
   || Ascii.eqb c underscore)%bool.

Definition not_word_char (c : ascii) : bool := negb (is_word_char c).
Definition is_underscore (c : ascii) : bool := Ascii.eqb c underscore.

Definition starts_with_digit (s : string) : bool :=
  match s with
  | String c _ => is_digit_char c
  | EmptyString => false
  end.

Definition _clean_column_name (col_name : string) : string :=
  let clean_name := Re.sub_class not_word_char "_" col_name in
  let clean_name := Re.sub_class_plus is_underscore "_" clean_name in
  let clean_name := strip underscore clean_name in
  let clean_name :=
    if (negb (is_empty clean_name) && starts_with_digit clean_name)%bool
    then "col_" ++ clean_name else clean_name in
  if is_empty clean_name then "unnamed_column" else clean_name.

(** The three rewriting stages of [_clean_column_name]. *)
Definition clean_core (s : string) : string :=
  strip underscore
        (Re.sub_class_plus is_underscore "_"
                           (Re.sub_class not_word_char "_" s)).

Definition finish (clean_name : string) : string :=
  let clean_name :=
    if (negb (is_empty clean_name) && starts_with_digit clean_name)%bool
    then "col_" ++ clean_name else clean_name in
  if is_empty clean_name then "unnamed_column" else clean_name.

(** *** The sanitiser as the specification words it, on character lists *)

Definition spec_replace (l : list ascii) : list ascii :=
  map (fun c => if is_word_char c then c else underscore) l.

(** Of two consecutive underscores the first is dropped. *)
Fixpoint spec_collapse (l : list ascii) : list ascii :=
  match l with
  | [] => []
  | c :: r =>
      match r with
      | d :: _ =>
          if (is_underscore c && is_underscore d)%bool then spec_collapse r
          else c :: spec_collapse r
      | [] => [c]
      end
  end.

Fixpoint drop_leading (l : list ascii) : list ascii :=
  match l with
  | c :: r => if is_underscore c then drop_leading r else l
  | [] => []
  end.

Definition spec_trim (l : list ascii) : list ascii :=
  rev (drop_leading (rev (drop_leading l))).

Definition spec_prefix (l : list ascii) : list ascii :=
  match l with
  | c :: _ => if is_digit_char c then list_ascii_of_string "col_" ++ l else l
  | [] => []
  end.

Definition spec_fallback (l : list ascii) : list ascii :=
  match l with
  | [] => list_ascii_of_string "unnamed_column"
  | _ => l
  end.

Definition sanitize_spec (name : string) : string :=
  string_of_list_ascii
    (spec_fallback
       (spec_prefix
          (spec_trim (spec_collapse (spec_replace (list_ascii_of_string name)))))).

(** *** The shape of a cleaned name *)

(** No two underscores in a row; [prev_us] tells whether the character
    before [s] was an underscore. *)
Fixpoint no_double_us (prev_us : bool) (s : string) : bool :=
  match s with
  | EmptyString => true
  | String c r =>
      if is_underscore c then (negb prev_us && no_double_us true r)%bool
      else no_double_us false r
  end.

Definition starts_clean (s : string) : bool :=
  match s with
  | String c _ => negb (is_underscore c)
  | EmptyString => true
  end.

(** A cleaned name: word characters only, no run of underscores, and no
    underscore at either end. *)
Definition tidy (s : string) : Prop :=
  all_chars is_word_char s = true
  /\ no_double_us false s = true
  /\ starts_clean s = true
  /\ rstrip underscore s = s.

End Sanitizer.

(* ================================================================== *)
(** ** IEEE binary64 arithmetic used by the VARCHAR sizing *)

Module Float64.

Definition prec : Z := 53.
Definition emax : Z := 1024.

(** Conversion of an integer to the nearest double. *)
Definition of_Z (n : Z) : spec_float := binary_normalize prec emax n 0 false.

(** The literal [1.2]: 0x3FF3333333333333. *)
Definition lit_1_2 : spec_float := S754_finite false 5404319552844595 (-52).

Definition mul (x y : spec_float) : spec_float := SFmul prec emax x y.

(** [int(x)]: truncation toward zero; [OverflowError] on an infinity and
    [ValueError] on a NaN are [None]. *)
Definition to_int (x : spec_float) : option Z :=
  match x with
  | S754_zero _ => Some 0
  | S754_finite s m e =>
      let mag := if 0 <=? e then Z.pos m * 2 ^ e else Z.pos m / 2 ^ (- e) in
      Some (if s then - mag else mag)
  | S754_infinity _ => None
  | S754_nan => None
  end.

End Float64.

(* ================================================================== *)
(** ** Type inferrer: [DataTypeInferrer] *)

Inductive sql_type : Type :=
| TEXT
| BOOLEAN
| TINYINT
| SMALLINT
| INT
| BIGINT
| DECIMAL_10_2
| DATE
| DATETIME
| VARCHAR (n : Z).

Definition sql_type_eqb (a b : sql_type) : bool :=
  match a, b with
  | TEXT, TEXT | BOOLEAN, BOOLEAN | TINYINT, TINYINT | SMALLINT, SMALLINT
  | INT, INT | BIGINT, BIGINT | DECIMAL_10_2, DECIMAL_10_2 | DATE, DATE
  | DATETIME, DATETIME => true
  | VARCHAR n, VARCHAR m => n =? m
  | _, _ => false
  end.

(** The numeric types of the inferrer. *)
Definition is_numeric_type (t : sql_type) : bool :=
  match t with
  | TINYINT | SMALLINT | INT | BIGINT | DECIMAL_10_2 => true
  | _ => false
  end.

Definition is_integer_type (t : sql_type) : bool :=
  match t with
  | TINYINT | SMALLINT | INT | BIGINT => true
  | _ => false
  end.

(** A pandas Series of object dtype: text cells, [None] for a null. *)
Definition Series : Type := list (option string).

(** [series.dropna()] *)
Fixpoint dropna {A : Type} (l : list (option A)) : list A :=
  match l with
  | [] => []
  | Some x :: r => x :: dropna r
  | None :: r => dropna r
  end.

(** [float(x).is_integer()] *)
Definition float_is_integer (q : Q) : bool :=
  Qnum q mod Z.pos (Qden q) =? 0.

(** [s.max()], [s.min()] skip nulls; the result on no value at all is NaN. *)
Definition Qmax_opt (acc : option Q) (q : Q) : option Q :=
  match acc with
  | None => Some q
  | Some a => if Qle_bool a q then Some q else Some a
  end.

Definition Qmin_opt (acc : option Q) (q : Q) : option Q :=
  match acc with
  | None => Some q
  | Some a => if Qle_bool q a then Some q else Some a
  end.

Definition series_max (l : list (option Q)) : option Q :=
  fold_left Qmax_opt (dropna l) None.

Definition series_min (l : list (option Q)) : option Q :=
  fold_left Qmin_opt (dropna l) None.

(** Comparisons of a possibly-NaN value with an integer literal: a
    comparison with NaN is false. *)
Definition ge_lit (v : option Q) (k : Z) : bool :=
  match v with Some q => Qle_bool (inject_Z k) q | None => false end.

Definition le_lit (v : option Q) (k : Z) : bool :=
  match v with Some q => Qle_bool q (inject_Z k) | None => false end.

(** [self.date_patterns] and the [datetime_patterns] of [_is_datetime]. *)
Definition date_patterns : list Re.pattern :=
  [ [Re.Digits 4; Re.Lit "-"; Re.Digits 2; Re.Lit "-"; Re.Digits 2];
    [Re.Digits 2; Re.Lit "/"; Re.Digits 2; Re.Lit "/"; Re.Digits 4];
    [Re.Digits 2; Re.Lit "-"; Re.Digits 2; Re.Lit "-"; Re.Digits 4];
    [Re.Digits 4; Re.Lit "/"; Re.Digits 2; Re.Lit "/"; Re.Digits 2] ].

Definition datetime_patterns : list Re.pattern :=
  [ [Re.Digits 4; Re.Lit "-"; Re.Digits 2; Re.Lit "-"; Re.Digits 2; Re.Spaces1;
     Re.Digits 2; Re.Lit ":"; Re.Digits 2; Re.Lit ":"; Re.Digits 2];
    [Re.Digits 2; Re.Lit "/"; Re.Digits 2; Re.Lit "/"; Re.Digits 4; Re.Spaces1;
     Re.Digits 2; Re.Lit ":"; Re.Digits 2; Re.Lit ":"; Re.Digits 2] ].

Definition boolean_vals : list string :=
  ["true"; "false"; "1"; "0"; "yes"; "no"; "y"; "n"].

Definition mem_string (s : string) (l : list string) : bool :=
  existsb (String.eqb s) l.

(** [for pattern in patterns: if re.match(pattern, sample): return k] and
    [return False] after the loop. *)
Fixpoint first_match (patterns : list Re.pattern) (sample : string)
         (k : bool) : bool :=
  match patterns with
  | [] => false
  | p :: rest => if Re.re_match p sample then k else first_match rest sample k
  end.

Definition all_none {A : Type} (l : list (option A)) : bool :=
  forallb (fun v => match v with None => true | Some _ => false end) l.

Definition max_len (values : list string) : option Z :=
  fold_left (fun acc s =>
               match acc with
               | None => Some (PyStr.len s)
               | Some a => Some (Z.max a (PyStr.len s))
               end) values None.

Section Inferrer.

(** [pd.to_numeric(_, errors='coerce')] on one cell: the number read, or
    [None] (NaN) when the text is not a number. *)
Variable to_numeric : string -> option Q.

(** [pd.to_datetime(_, errors='coerce')] on a series: one entry per input,
    [None] (NaT) where the text is not read as a date. *)
Variable Timestamp : Type.
Variable to_datetime : list string -> list (option Timestamp).

Definition _is_boolean (series : list string) : bool :=
  forallb (fun v => mem_string (PyStr.lower v) boolean_vals) series.

Definition _is_integer (series : list string) : bool :=
  let numeric_series := map to_numeric series in
  match dropna numeric_series with
  | [] => false
  | present => forallb float_is_integer present
  end.

Definition _is_float (series : list string) : bool :=
  let numeric_series := map to_numeric series in
  match dropna numeric_series with
  | [] => false
  | present => negb (forallb float_is_integer present)
  end.

Definition _is_date (series : list string) : bool :=
  match series with
  | [] => false
  | sample_str :: _ =>
      first_match date_patterns sample_str
        (negb (all_none (to_datetime (firstn 10 series))))
  end.

Definition _is_datetime (series : list string) : bool :=
  match series with
  | [] => false
  | sample_str :: _ =>
      first_match datetime_patterns sample_str
        (negb (all_none (to_datetime (firstn 10 series))))
  end.

Definition varchar_or_text (non_null_series : list string)
           (max_varchar_length : Z) : sql_type :=
  match max_len non_null_series with
  | None => TEXT
  | Some max_length =>
      if max_varchar_length <? max_length then TEXT
      else
        match Float64.to_int
                (Float64.mul (Float64.of_Z max_length) Float64.lit_1_2) with
        | Some n => VARCHAR (Z.min n max_varchar_length)
        | None => TEXT
        end
  end.

Definition infer_sql_type (series : Series) (max_varchar_length : Z)
  : sql_type :=
  let non_null_series := dropna series in
  match non_null_series with
  | [] => TEXT
  | _ =>
      if _is_boolean non_null_series then BOOLEAN
      else if _is_integer non_null_series then
        let numeric_series := map to_numeric non_null_series in
        let max_val := series_max numeric_series in
        let min_val := series_min numeric_series in
        if (ge_lit min_val (-128) && le_lit max_val 127)%bool then TINYINT
        else if (ge_lit min_val (-32768) && le_lit max_val 32767)%bool
             then SMALLINT
        else if (ge_lit min_val (-2147483648)
                 && le_lit max_val 2147483647)%bool then INT
        else BIGINT
      else if _is_float non_null_series then DECIMAL_10_2
      else if _is_date non_null_series then DATE
      else if _is_datetime non_null_series then DATETIME
      else varchar_or_text non_null_series max_varchar_length
  end.

End Inferrer.

(** Some value of the series is read as a number. *)
Definition some_number (to_numeric : string -> option Q)
           (values : list string) : Prop :=
  exists v, In v values /\ to_numeric v <> None.

(** Every value of the series is read as an integral number. *)
Definition all_integers (to_numeric : string -> option Q)
           (values : list string) : Prop :=
  Forall (fun v => exists q, to_numeric v = Some q
                             /\ float_is_integer q = true) values.


(** [max_length] is the greatest length among the values. *)
Definition is_max_length (values : list string) (max_length : Z) : Prop :=
  (exists v, In v values /\ PyStr.len v = max_length)
  /\ forall v, In v values -> PyStr.len v <= max_length.

(** The default of [max_varchar_length]. *)
Definition default_max_varchar_length : Z := 255.

(* ------------------------------------------------------------------ *)
(** *** The integer ranges and the VARCHAR size as the specification words
        them *)

Definition within (lo hi : Z) (q : Q) : bool :=
  (Qle_bool (inject_Z lo) q && Qle_bool q (inject_Z hi))%bool.

(** The narrowest integer type holding every value, INT being the signed
    32-bit range. *)
Definition narrowest_integer_type (values : list Q) : sql_type :=
  if forallb (within (-128) 127) values then TINYINT
  else if forallb (within (-32768) 32767) values then SMALLINT
  else if forallb (within (- 2 ^ 31) (2 ^ 31 - 1)) values then INT
  else BIGINT.

(** The same with INT read as "within plus or minus 2^31 - 1". *)
Definition spec_integer_type (values : list Q) : sql_type :=
  if forallb (within (-128) 127) values then TINYINT
  else if forallb (within (-32768) 32767) values then SMALLINT
  else if forallb (within (- (2 ^ 31 - 1)) (2 ^ 31 - 1)) values then INT
  else BIGINT.

(** Python's [round]: to the nearest integer, ties to the even one. *)
Definition py_round (q : Q) : Z :=
  let f := Qfloor q in
  match Qcompare (q - inject_Z f) (1 # 2) with
  | Lt => f
  | Gt => f + 1
  | Eq => if Z.even f then f else f + 1
  end.

(** [VARCHAR(min(round(max_length * 1.2), max_varchar_length))] *)
Definition spec_varchar (max_length max_varchar_length : Z) : sql_type :=
  VARCHAR (Z.min (py_round (inject_Z max_length * (12 # 10))) max_varchar_length).

(** Whether [int(n * 1.2)] in binary64 is the integer part of six fifths of
    [n]. *)
Definition scale_is_floor (n : Z) : bool :=
  match Float64.to_int (Float64.mul (Float64.of_Z n) Float64.lit_1_2) with
  | Some m => m =? 6 * n / 5
  | None => false
  end.

(** [p] on every integer of the block [lo .. lo + 2^k - 1]. *)
Fixpoint all_in_block (p : Z -> bool) (k : nat) (lo : Z) : bool :=
  match k with
  | O => p lo
  | S k' =>
      (all_in_block p k' lo && all_in_block p k' (lo + 2 ^ Z.of_nat k'))%bool
  end.

(** [VARCHAR(min(floor(max_length * 1.2), max_varchar_length))] *)
Definition truncated_varchar (max_length max_varchar_length : Z) : sql_type :=
  VARCHAR (Z.min (6 * max_length / 5) max_varchar_length).

(* ------------------------------------------------------------------ *)
(** *** A reader of plain decimal literals and of ISO dates

    These agree with pandas on the texts used in the closed examples below:
    an optional sign, digits, and an optional fractional part; and a
    year-month-day date. *)

Module Plain.
Import PyStr.

Fixpoint split_at_dot (s : string) : string * option string :=
  match s with
  | EmptyString => (EmptyString, None)
  | String c r =>
      if Ascii.eqb c "." then (EmptyString, Some r)
      else let '(a, b) := split_at_dot r in (String c a, b)
  end.

Definition unsigned_literal (s : string) : option Q :=
  match split_at_dot s with
  | (ip, None) => if isdigit ip then Some (inject_Z (int ip)) else None
  | (ip, Some fp) =>
      if (isdigit ip && isdigit fp)%bool then
        Some (Qred (Qmake (int (ip ++ fp))
                          (Pos.pow 10 (Pos.of_nat (String.length fp)))))
      else None
  end.

Definition to_numeric (s : string) : option Q :=
  match s with
  | String "-" r => option_map Qopp (unsigned_literal r)
  | String "+" r => unsigned_literal r
  | _ => unsigned_literal s
  end.

Definition Timestamp : Type := (Z * Z * Z)%type.

Definition iso_date (s : string) : option Timestamp :=
  if (Re.re_match [Re.Digits 4; Re.Lit "-"; Re.Digits 2; Re.Lit "-"; Re.Digits 2] s
      && (String.length s =? 10)%nat)%bool then
    let y := int (substring 0 4 s) in
    let m := int (substring 5 2 s) in
    let d := int (substring 8 2 s) in
    if ((1 <=? m) && (m <=? 12) && (1 <=? d) && (d <=? 31))%bool
    then Some (y, m, d) else None
  else None.

Definition to_datetime (l : list string) : list (option Timestamp) :=
  map iso_date l.

Definition infer (series : Series) : sql_type :=
  infer_sql_type to_numeric Timestamp to_datetime series
                 default_max_varchar_length.

End Plain.

(* ================================================================== *)
(** ** Files, exceptions and the database cursor *)

Inductive exn : Type :=
| FileNotFoundError
| UnicodeDecodeError
| StopIteration
| IndexError
| EmptyDataError
| ParserError.

Definition result (A : Type) : Type := (exn + A)%type.

(** A file system: the bytes of the file at a path, [None] when the path
    does not exist. *)
Definition filesystem : Type := string -> option (list Byte.byte).

Module Utf8.

Definition between (lo hi : N) (b : Byte.byte) : bool :=
  (N.leb lo (Byte.to_N b) && N.leb (Byte.to_N b) hi)%bool.

Definition cont (b : Byte.byte) : bool := between 128 191 b.

(** Well-formed UTF-8 byte sequences (Unicode table 3-7). [fuel] bounds the
    number of characters; the length of the input always suffices. *)
Fixpoint valid_from (fuel : nat) (l : list Byte.byte) : bool :=
  match fuel with
  | O => match l with [] => true | _ => false end
  | S k =>
      match l with
      | [] => true
      | b0 :: r0 =>
          if between 0 127 b0 then valid_from k r0
          else
            match r0 with
            | [] => false
            | b1 :: r1 =>
                if between 194 223 b0 then (cont b1 && valid_from k r1)%bool
                else
                  match r1 with
                  | [] => false
                  | b2 :: r2 =>
                      if between 224 239 b0 then
                        ((if between 224 224 b0 then between 160 191 b1
                          else if between 237 237 b0 then between 128 159 b1
                          else cont b1)
                         && cont b2 && valid_from k r2)%bool
                      else
                        match r2 with
                        | [] => false
                        | b3 :: r3 =>
                            if between 240 244 b0 then
                              ((if between 240 240 b0 then between 144 191 b1
                                else if between 244 244 b0
                                     then between 128 143 b1
                                else cont b1)
                               && cont b2 && cont b3 && valid_from k r3)%bool
                            else false
                        end
                  end
            end
      end
  end.

Definition valid (l : list Byte.byte) : bool := valid_from (List.length l) l.

(** Decoding keeps the text as its UTF-8 bytes. *)
Definition decode (l : list Byte.byte) : option string :=
  if valid l then Some (string_of_list_byte l) else None.

End Utf8.

(** [open(path, "r", encoding="utf-8")] followed by reading the whole file. *)
Definition open_read (fs : filesystem) (path : string) : result string :=
  match fs path with
  | None => inl FileNotFoundError
  | Some bytes =>
      match Utf8.decode bytes with
      | None => inl UnicodeDecodeError
      | Some text => inr text
      end
  end.

(** Python values that a CSV field or a fetched database cell holds. *)
Inductive pyval : Type :=
| PInt (n : Z)
| PStr (s : string)
| PNone
| PDecimal (q : Q)
| PDate (y m d : Z).

(** [a == b] *)
Definition py_eq (a b : pyval) : bool :=
  match a, b with
  | PInt x, PInt y => x =? y
  | PStr s, PStr t => String.eqb s t
  | PNone, PNone => true
  | PInt x, PDecimal q | PDecimal q, PInt x => Qeq_bool (inject_Z x) q
  | PDecimal p, PDecimal q => Qeq_bool p q
  | PDate y m d, PDate y' m' d' => ((y =? y') && (m =? m') && (d =? d'))%bool
  | _, _ => false
  end.

(** [r1 == r2] on lists: same length and equal element by element. *)
Fixpoint row_eq (r1 r2 : list pyval) : bool :=
  match r1, r2 with
  | [], [] => true
  | a :: r1', b :: r2' => (py_eq a b && row_eq r1' r2')%bool
  | _, _ => false
  end.

(** [row in rows] *)
Definition row_in (row : list pyval) (rows : list (list pyval)) : bool :=
  existsb (fun r => row_eq row r) rows.

Inductive stmt : Type :=
| Use (db : string)
| ShowTables
| CreateTable (table col ty : string)
| AlterTableAdd (table col ty : string)
| SelectAll (table : string)
| InsertValues (table : string) (row : list pyval)
| Commit.

(** Computations that execute statements on the cursor and may raise. *)
Definition M (A : Type) : Type := list stmt -> list stmt * result A.

Definition ret {A : Type} (a : A) : M A := fun log => (log, inr a).
Definition raise {A : Type} (e : exn) : M A := fun log => (log, inl e).
Definition bind {A B : Type} (m : M A) (f : A -> M B) : M B :=
  fun log =>
    match m log with
    | (log', inr a) => f a log'
    | (log', inl e) => (log', inl e)
    end.
Definition execute (s : stmt) : M unit := fun log => ((log ++ [s])%list, inr tt).
Definition lift {A : Type} (r : result A) : M A := fun log => (log, r).

Notation "x <- m ;; k" := (bind m (fun x => k))
  (at level 61, m at next level, right associativity).
Notation "m ;;; k" := (bind m (fun _ => k))
  (at level 61, right associativity).

Fixpoint for_each {A : Type} (l : list A) (body : A -> M unit) : M unit :=
  match l with
  | [] => ret tt
  | a :: r => body a ;;; for_each r body
  end.

(** [l[i]] *)
Definition index {A : Type} (l : list A) (i : nat) : M A :=
  match nth_error l i with
  | Some a => ret a
  | None => raise IndexError
  end.

(** [next(reader)] *)
Definition next {A : Type} (l : list A) : M (A * list A) :=
  match l with
  | a :: r => ret (a, r)
  | [] => raise StopIteration
  end.

(** The statements a computation ran from a fresh cursor, and its result. *)
Definition run {A : Type} (m : M A) : list stmt * result A := m [].

(* ================================================================== *)
(** ** The minimal implementation: [convert_to_sql.py] *)

Section Minimal.

(** [csv.reader] on the decoded text of a file: the rows it yields, each a
    list of fields. *)
Variable csv_reader : string -> list (list string).

(** The body of the inner loop of [csv_data], on a field of ASCII text of
    at most 4300 characters; on other fields [isdigit] may hold of
    characters that are no ASCII digits, and [int] may raise ValueError. *)
Definition format_value (value : string) : pyval :=
  if PyStr.isdigit value then PInt (PyStr.int value) else PStr value.

Definition csv_data (fs : filesystem) (file_path : string)
  : result (list (list pyval)) :=
  match open_read fs file_path with
  | inl e => inl e
  | inr text => inr (map (map format_value) (csv_reader text))
  end.

(** [i.isnumeric] without a call: a bound method, which is true. *)
Definition bound_method_truth : bool := true.

Definition date_pattern : Re.pattern :=
  [Re.Digits 4; Re.Lit "-"; Re.Digits 2; Re.Lit "-"; Re.Digits 2].

(** One turn of the loop over [second_row_data] in [create_table]. *)
Definition data_types_step (data_types : list string) (i : string)
  : list string :=
  if PyStr.isalpha i then (data_types ++ ["varchar(255)"])%list
  else if PyStr.isdigit i then (data_types ++ ["int(11)"])%list
  else if bound_method_truth then
    if PyStr.contains_char "." i then (data_types ++ ["float"])%list
    else data_types
  else if Re.re_match date_pattern i then (data_types ++ ["date"])%list
  else (data_types ++ ["str"])%list.

Definition infer_data_types (second_row_data : list string) : list string :=
  fold_left data_types_step second_row_data [].

(** [newchanges_existingtable_table]: [existing_table] is the name typed by
    the user, [fetched] what [cursor.fetchall()] returns for it. *)
Definition new_data_to_insert (existing_data csv_data_list : list (list pyval))
  : list (list pyval) :=
  filter (fun row => negb (row_in row existing_data)) (tl csv_data_list).

Definition newchanges_existingtable_table (fs : filesystem)
           (file_path existing_table : string)
           (fetched : list (list pyval)) : M unit :=
  execute (SelectAll existing_table) ;;;
  let existing_data := fetched in
  csv_data_list <- lift (csv_data fs file_path) ;;
  let new_rows := new_data_to_insert existing_data csv_data_list in
  match new_rows with
  | [] => ret tt
  | _ =>
      for_each new_rows
               (fun row => execute (InsertValues existing_table row)) ;;;
      execute Commit
  end.

(** [create_table]: [table_name] is the user's answer, stripped and
    lower-cased.  The file is one that does not exist or that decodes as a
    whole: the source decodes it as it reads, so that bytes that are not
    UTF-8 after the second row would stop it later than here. *)
Definition create_table (fs : filesystem) (current_db file_path : string)
           (table_name existing_table : string)
           (fetched : list (list pyval)) : M unit :=
  text <- lift (open_read fs file_path) ;;
  let reader_obj := csv_reader text in
  r1 <- next reader_obj ;;
  let '(first_row_data, reader_obj) := r1 in
  r2 <- next reader_obj ;;
  let '(second_row_data, _) := r2 in
  let data_types := infer_data_types second_row_data in
  execute (Use current_db) ;;;
  execute ShowTables ;;;
  if negb (String.eqb table_name "no") then
    c0 <- index first_row_data 0 ;;
    t0 <- index data_types 0 ;;
    execute (CreateTable table_name c0 t0) ;;;
    let no_of_cols := List.length first_row_data in
    for_each (seq 1 (no_of_cols - 1))
             (fun i =>
                c <- index first_row_data i ;;
                t <- index data_types i ;;
                execute (AlterTableAdd table_name c t)) ;;;
    receive_csv_data <- lift (csv_data fs file_path) ;;
    for_each (tl receive_csv_data)
             (fun i => execute (InsertValues table_name i)) ;;;
    execute Commit
  else
    newchanges_existingtable_table fs file_path existing_table fetched.

End Minimal.

(* ================================================================== *)
(** ** The structured implementation: [CSVConverter.analyze_csv] *)

(** A DataFrame: the columns in order, each a label and a Series. *)
Definition DataFrame : Type := list (string * Series).

Record col_analysis : Type := {
  original_name : string;
  clean_name : string;
  sql_type_of : sql_type;
  non_null_count : nat;
  null_count : nat;
  unique_values : nat;
  sample_values : list string
}.

(** The dictionary that [analyze_csv] returns; [EmptyAnalysis] is [{}]. *)
Inductive analysis : Type :=
| EmptyAnalysis
| Analysis (file_path : string) (file_size total_rows total_columns : nat)
           (columns : list (string * col_analysis)).

(** [d[k] = v] on a dictionary kept in insertion order. *)
Fixpoint dict_set {V : Type} (k : string) (v : V) (d : list (string * V))
  : list (string * V) :=
  match d with
  | [] => [(k, v)]
  | (k', v') :: r =>
      if String.eqb k k' then (k, v) :: r else (k', v') :: dict_set k v r
  end.

(** A line of the logger. *)
Inductive log_line : Type :=
| LogError (file_path : string) (e : exn).

Section Analyze.

Variable to_numeric : string -> option Q.
Variable Timestamp : Type.
Variable to_datetime : list string -> list (option Timestamp).

(** [pd.read_csv] on the decoded text: the frame, or the parser's error. *)
Variable read_frame : string -> result DataFrame.

Definition read_csv (fs : filesystem) (file_path : string)
  : result DataFrame :=
  match open_read fs file_path with
  | inl e => inl e
  | inr text => read_frame text
  end.

Definition analyze_column (col : string) (values : Series) : col_analysis :=
  {| original_name := col;
     clean_name := Sanitizer._clean_column_name col;
     sql_type_of := infer_sql_type to_numeric Timestamp to_datetime values
                                   default_max_varchar_length;
     non_null_count := List.length (dropna values);
     null_count := List.length values - List.length (dropna values);
     unique_values := List.length (nodup string_dec (dropna values));
     sample_values := firstn 3 (dropna values) |}.

Definition frame_len (df : DataFrame) : nat :=
  match df with
  | [] => O
  | (_, values) :: _ => List.length values
  end.

Definition file_size (fs : filesystem) (file_path : string) : result nat :=
  match fs file_path with
  | None => inl FileNotFoundError
  | Some bytes => inr (List.length bytes)
  end.

(** The [try] block of [analyze_csv]. *)
Definition analyze_csv_body (fs : filesystem) (file_path : string)
  : result analysis :=
  match read_csv fs file_path with
  | inl e => inl e
  | inr df =>
      match file_size fs file_path with
      | inl e => inl e
      | inr size =>
          inr (Analysis file_path size (frame_len df) (List.length df)
                 (fold_left
                    (fun columns '(col, values) =>
                       dict_set col (analyze_column col values) columns)
                    df []))
      end
  end.

(** [try: body / except Exception as e: handler e] *)
Definition try_except {A : Type} (body : result A)
           (handler : exn -> list log_line * result A)
  : list log_line * result A :=
  match body with
  | inr a => ([], inr a)
  | inl e => handler e
  end.

(** [analyze_csv]: an exception of the body is logged and the empty
    dictionary is returned. *)
Definition analyze_csv (fs : filesystem) (file_path : string)
  : list log_line * result analysis :=
  try_except (analyze_csv_body fs file_path)
             (fun e => ([LogError file_path e], inr EmptyAnalysis)).

End Analyze.


(** The column descriptors of an analysis. *)
Definition descriptors (a : analysis) : list (string * col_analysis) :=
  match a with
  | EmptyAnalysis => []
  | Analysis _ _ _ _ columns => columns
  end.

(** The rows of the INSERT statements a computation ran, in order. *)
Definition inserted_rows (log : list stmt) : list (list pyval) :=
  flat_map (fun s => match s with
                     | InsertValues _ row => [row]
                     | _ => []
                     end) log.

(** A field that consists only of digit characters. *)
Definition only_digits (value : string) : Prop :=
  value <> EmptyString
  /\ Forall (fun c => PyStr.is_digit_char c = true) (list_ascii_of_string value).

(** A text of ASCII characters only. *)
Definition is_ascii_char (c : ascii) : bool := (nat_of_ascii c <? 128)%nat.

Definition is_ascii_text (s : string) : bool :=
  PyStr.all_chars is_ascii_char s.

Definition ascii_text (s : string) : Prop := is_ascii_text s = true.

(** The default of [sys.get_int_max_str_digits()]. *)
Definition int_max_str_digits : nat := 4300.

(** A field on which [isdigit], [isalpha] and [int] are those of the model:
    ASCII text of at most 4300 characters. *)
Definition is_plain_field (value : string) : bool :=
  (is_ascii_text value
   && (String.length value <=? int_max_str_digits)%nat)%bool.

Definition plain_field (value : string) : Prop := is_plain_field value = true.

Definition plain_rows (rows : list (list string)) : Prop :=
  forallb (forallb is_plain_field) rows = true.

(** A cell that is not text: an integer, a decimal, a date or NULL. *)
Definition typed_cell (v : pyval) : Prop := forall s, v <> PStr s.


(* ------------------------------------------------------------------ *)
(** *** A reader of CSV text without quoting

    It agrees with [csv.reader] on text whose fields hold no quote, comma,
    or line break: lines end with a line feed, fields are separated by
    commas, and an empty line is a row without fields. *)

Module PlainCsv.

Fixpoint split (sep : ascii) (s : string) : list string :=
  match s with
  | EmptyString => [EmptyString]
  | String c r =>
      if Ascii.eqb c sep then EmptyString :: split sep r
      else
        match split sep r with
        | h :: t => String c h :: t
        | [] => [String c EmptyString]
        end
  end.

Definition line_feed : ascii := ascii_of_nat 10.

Definition lines (text : string) : list string :=
  match rev (split line_feed text) with
  | EmptyString :: r => rev r
  | _ => split line_feed text
  end.

Definition reader (text : string) : list (list string) :=
  map (fun line => if PyStr.is_empty line then [] else split "," line)
      (lines text).

(** The bytes of an ASCII text. *)
Definition bytes_of (text : string) : list Byte.byte :=
  list_byte_of_string text.

(** A file system with one file. *)
Definition one_file (path text : string) : filesystem :=
  fun p => if String.eqb p path then Some (bytes_of text) else None.

Definition nl : string := String line_feed EmptyString.

(** A frame whose cells stay the text read; an empty or missing cell is a
    null.  The first row gives the labels. *)
Definition cell (j : nat) (row : list string) : option string :=
  match nth_error row j with
  | Some EmptyString => None
  | Some s => Some s
  | None => None
  end.

Definition read_frame (text : string) : result DataFrame :=
  match reader text with
  | [] => inl EmptyDataError
  | header :: data =>
      inr (map (fun '(j, label) => (label, map (cell j) data))
               (combine (seq 0 (List.length header)) header))
  end.

(** The CSV of the failing input of the minimal [create_table]. *)
Definition people_csv : string :=
  "name,joined" ++ nl ++ "Alice,2023-01-15" ++ nl.

(** The CSV of the merge example. *)
Definition merge_csv : string :=
  "id,name" ++ nl ++ "2,b" ++ nl ++ "3,c" ++ nl.

(** A CSV with a negative number. *)
Definition negative_csv : string :=
  "n" ++ nl ++ "-5" ++ nl.


End PlainCsv.

(** The table of the merge example. *)
Definition merge_snapshot : list (list pyval) :=
  [[PInt 1; PStr "a"]; [PInt 2; PStr "b"]].

(** The values of [second_row_data] for which the loop of [create_table]
    appends a type. *)
Definition gets_data_type (i : string) : bool :=
  (PyStr.isalpha i || PyStr.isdigit i || PyStr.contains_char "." i)%bool.

(** The labels of a dictionary, in order. *)
Definition keys {V : Type} (d : list (string * V)) : list string := map fst d.

(* ================================================================== *)
(** * Further definitions *)

(** A database identifier: word characters only, a letter first, no run of
    underscores and no underscore at the end. *)
Definition starts_with_letter (s : string) : bool :=
  match s with
  | String c _ => PyStr.is_alpha_char c
  | EmptyString => false
  end.

Definition is_identifier (s : string) : Prop :=
  starts_with_letter s = true /\ Sanitizer.tidy s.

(** The range that an integer type of the inferrer stands for; BIGINT is
    the answer without a range test. *)
Definition integer_range (t : sql_type) : option (Z * Z) :=
  match t with
  | TINYINT => Some (-128, 127)
  | SMALLINT => Some (-32768, 32767)
  | INT => Some (-2147483648, 2147483647)
  | _ => None
  end.

(** A value of the column is read as a number that is not integral. *)
Definition some_fraction (to_numeric : string -> option Q)
           (values : list string) : Prop :=
  exists v q, In v values /\ to_numeric v = Some q
              /\ float_is_integer q = false.

(** Every value is one of the boolean tokens, whatever its case. *)
Definition all_boolean_tokens (values : list string) : Prop :=
  Forall (fun v => In (PyStr.lower v) boolean_vals) values.

(** The type that the loop of [create_table] appends for a value that gets
    one. *)
Definition data_type_of (i : string) : string :=
  if PyStr.isalpha i then "varchar(255)"
  else if PyStr.isdigit i then "int(11)"
  else "float".

(** The ALTER TABLE statements that add the columns after the first. *)
Definition alter_statements (table : string) (cols types : list string)
  : list stmt :=
  map (fun ct => AlterTableAdd table (fst ct) (snd ct)) (combine cols types).

(* ================================================================== *)
(** ** Configuration: [ConfigManager] *)

Set Warnings "-register-all".

(** A value loaded from a YAML or JSON file; dictionaries keep the order of
    insertion. *)
Inductive cfg : Type :=
| CStr (s : string)
| CInt (n : Z)
| CFloat (q : Q)
| CBool (b : bool)
| CNone
| CList (l : list cfg)
| CDict (d : list (string * cfg)).

Inductive cfg_error : Type :=
| TypeError
| ValueError
| KeyError
| AttributeError.

(** [d.get(k)] *)
Fixpoint dict_get {V : Type} (k : string) (d : list (string * V)) : option V :=
  match d with
  | [] => None
  | (k', v) :: r => if String.eqb k k' then Some v else dict_get k r
  end.

Module ConfigManager.

Definition _load_default_config : list (string * cfg) :=
  [ ("database",
     CDict [ ("type", CStr "mysql");
             ("host", CStr "localhost");
             ("port", CInt 3306);
             ("username", CStr "root");
             ("password", CStr "");
             ("database", CStr "csv_converter") ]);
    ("csv",
     CDict [ ("encoding", CStr "utf-8");
             ("chunk_size", CInt 10000);
             ("max_varchar_length", CInt 255) ]);
    ("logging",
     CDict [ ("level", CStr "INFO");
             ("file", CStr "csv_converter.log") ]) ].

(** The loop of [_merge_config] over the items of a dictionary [override],
    threading the dictionary [base] that the source updates in place. *)
Fixpoint merge_dict (override : cfg) : list (string * cfg) -> list (string * cfg) :=
  match override with
  | CDict items =>
      (fix loop (items : list (string * cfg)) (base : list (string * cfg))
         : list (string * cfg) :=
         match items with
         | [] => base
         | (key, value) :: rest =>
             loop rest
                  (match dict_get key base, value with
                   | Some (CDict sub), CDict _ =>
                       dict_set key (CDict (merge_dict value sub)) base
                   | _, _ => dict_set key value base
                   end)
         end) items
  | _ => fun base => base
  end.

(** [_merge_config(base, override)]: [override.items()] raises
    AttributeError when [override] is not a dictionary. *)
Definition _merge_config (base : list (string * cfg)) (override : cfg)
  : cfg_error + list (string * cfg) :=
  match override with
  | CDict _ => inr (merge_dict override base)
  | _ => inl AttributeError
  end.

(** [int(value)] on an ASCII text of at most 4300 characters: surrounding
    white space, an optional sign, and decimal digits that single
    underscores may separate. *)
Fixpoint digits_value (acc : Z) (after_digit : bool) (s : string) : option Z :=
  match s with
  | EmptyString => if after_digit then Some acc else None
  | String c r =>
      if PyStr.is_digit_char c
      then digits_value (10 * acc + PyStr.digit_value c) true r
      else if (Ascii.eqb c "_" && after_digit)%bool
           then match r with
                | String d _ =>
                    if PyStr.is_digit_char d then digits_value acc false r
                    else None
                | EmptyString => None
                end
           else None
  end.

(** The white space that [int] strips from an ASCII text: tab, line feed,
    vertical tab, form feed, carriage return and space. *)
Definition is_int_space (c : ascii) : bool :=
  let n := nat_of_ascii c in
  (((9 <=? n) && (n <=? 13)) || (n =? 32))%nat%bool.

Fixpoint lstrip_space (s : string) : string :=
  match s with
  | String c r => if is_int_space c then lstrip_space r else s
  | EmptyString => EmptyString
  end.

Fixpoint rstrip_space (s : string) : string :=
  match s with
  | EmptyString => EmptyString
  | String c r =>
      let r' := rstrip_space r in
      if (PyStr.is_empty r' && is_int_space c)%bool then EmptyString
      else String c r'
  end.

Definition py_int (value : string) : option Z :=
  match rstrip_space (lstrip_space value) with
  | String "-" r => option_map Z.opp (digits_value 0 false r)
  | String "+" r => digits_value 0 false r
  | s => digits_value 0 false s
  end.

(** The value stored by [_set_nested_value]: the port is converted. *)
Definition stored_value (last value : string) : cfg_error + cfg :=
  if String.eqb last "port" then
    match py_int value with
    | Some n => inr (CInt n)
    | None => inl ValueError
    end
  else inr (CStr value).

(** The walk of [_set_nested_value] along [keys[:-1]] and the assignment at
    [keys[-1]], returning the updated [current]. *)
Fixpoint set_nested (keys : list string) (last value : string) (current : cfg)
  : cfg_error + cfg :=
  match keys with
  | [] =>
      match stored_value last value with
      | inl e => inl e
      | inr v =>
          match current with
          | CDict d => inr (CDict (dict_set last v d))
          | _ => inl TypeError
          end
      end
  | key :: rest =>
      match current with
      | CDict d =>
          let d := match dict_get key d with
                   | None => dict_set key (CDict []) d
                   | Some _ => d
                   end in
          match dict_get key d with
          | Some sub =>
              match set_nested rest last value sub with
              | inl e => inl e
              | inr sub' => inr (CDict (dict_set key sub' d))
              end
          | None => inl KeyError
          end
      | _ => inl TypeError
      end
  end.

(** [path.split('.')] is never empty: its last element and the others. *)
Definition split_path (path : string) : list string * string :=
  let keys := PlainCsv.split "." path in
  (removelast keys, last keys EmptyString).

Definition _set_nested_value (config : list (string * cfg))
           (path value : string) : cfg_error + list (string * cfg) :=
  let '(keys, last) := split_path path in
  match set_nested keys last value (CDict config) with
  | inl e => inl e
  | inr (CDict d) => inr d
  | inr _ => inl TypeError
  end.

Definition env_mappings : list (string * string) :=
  [ ("DB_TYPE", "database.type");
    ("DB_HOST", "database.host");
    ("DB_PORT", "database.port");
    ("DB_USER", "database.username");
    ("DB_PASSWORD", "database.password");
    ("DB_NAME", "database.database") ].

(** The loop of [_load_env_variables] over some mappings; [getenv] is
    [os.getenv]. *)
Fixpoint load_env (getenv : string -> option string)
         (mappings : list (string * string)) (config : list (string * cfg))
  : cfg_error + list (string * cfg) :=
  match mappings with
  | [] => inr config
  | (env_var, config_path) :: rest =>
      match getenv env_var with
      | Some (String c r) =>
          match _set_nested_value config config_path (String c r) with
          | inl e => inl e
          | inr config' => load_env getenv rest config'
          end
      | _ => load_env getenv rest config
      end
  end.

Definition _load_env_variables (getenv : string -> option string)
           (config : list (string * cfg)) : cfg_error + list (string * cfg) :=
  load_env getenv env_mappings config.

(** [s.endswith(suffix)] *)
Fixpoint endswith (suffix s : string) : bool :=
  (String.eqb s suffix
   || match s with
      | String _ r => endswith suffix r
      | EmptyString => false
      end)%bool.

(** [DatabaseConfig], with the values as the configuration holds them. *)
Record DatabaseConfig : Type := {
  db_type : cfg;
  host : cfg;
  port : cfg;
  username : cfg;
  password : cfg;
  database : cfg
}.

(** [d[k]] on a value: KeyError for a dictionary without the key, TypeError
    for a value that is not a dictionary. *)
Definition subscript (v : cfg) (k : string) : cfg_error + cfg :=
  match v with
  | CDict d =>
      match dict_get k d with
      | Some x => inr x
      | None => inl KeyError
      end
  | _ => inl TypeError
  end.

Definition get_database_config (config : list (string * cfg))
  : cfg_error + DatabaseConfig :=
  match subscript (CDict config) "database" with
  | inl e => inl e
  | inr db_config =>
      match subscript db_config "type", subscript db_config "host",
            subscript db_config "port", subscript db_config "username",
            subscript db_config "password", subscript db_config "database"
      with
      | inr t, inr h, inr p, inr u, inr w, inr d =>
          inr {| db_type := t; host := h; port := p; username := u;
                 password := w; database := d |}
      | inl e, _, _, _, _, _ => inl e
      | _, inl e, _, _, _, _ => inl e
      | _, _, inl e, _, _, _ => inl e
      | _, _, _, inl e, _, _ => inl e
      | _, _, _, _, inl e, _ => inl e
      | _, _, _, _, _, inl e => inl e
      end
  end.

Section Loading.

(** [yaml.safe_load] and [json.load] on the text of a file: the value, or
    [None] when the parser raises. *)
Variable yaml_safe_load : string -> option cfg.
Variable json_load : string -> option cfg.

(** [_load_config_file]: the new configuration and whether the warning was
    printed.  The text of the file is read as UTF-8. *)
Definition _load_config_file (fs : filesystem) (config : list (string * cfg))
           (config_file : string) : list (string * cfg) * bool :=
  match open_read fs config_file with
  | inl _ => (config, true)
  | inr text =>
      let file_config :=
        if (endswith ".yaml" config_file || endswith ".yml" config_file)%bool
        then yaml_safe_load text else json_load text in
      match file_config with
      | None => (config, true)
      | Some loaded =>
          match _merge_config config loaded with
          | inl _ => (config, true)
          | inr merged => (merged, false)
          end
      end
  end.

(** [ConfigManager.__init__]: [self.config], or the exception that leaves
    the constructor. *)
Definition init (fs : filesystem) (getenv : string -> option string)
           (config_file : option string)
  : cfg_error + list (string * cfg) :=
  let config := _load_default_config in
  let config :=
    match config_file with
    | Some (String c r) =>
        match fs (String c r) with
        | Some _ => fst (_load_config_file fs config (String c r))
        | None => config
        end
    | _ => config
    end in
  _load_env_variables getenv config.

(** What the configuration file gives: the value parsed, when a file is
    named, exists, can be read and parses. *)
Definition loaded_config (fs : filesystem) (config_file : option string)
  : option cfg :=
  match config_file with
  | Some (String c r) =>
      match fs (String c r) with
      | Some _ =>
          match open_read fs (String c r) with
          | inl _ => None
          | inr text =>
              if (endswith ".yaml" (String c r)
                  || endswith ".yml" (String c r))%bool
              then yaml_safe_load text else json_load text
          end
      | None => None
      end
  | _ => None
  end.

(** [self.config] after the file stage of the constructor. *)
Definition after_file (loaded : option cfg) : list (string * cfg) :=
  match loaded with
  | Some (CDict items) => merge_dict (CDict items) _load_default_config
  | _ => _load_default_config
  end.

(** The two lines of [cli] that build the database configuration. *)
Definition load_database_config (fs : filesystem)
           (getenv : string -> option string) (config_file : option string)
  : cfg_error + DatabaseConfig :=
  match init fs getenv config_file with
  | inl e => inl e
  | inr config => get_database_config config
  end.

End Loading.

(** [_merge_config] on the items of a dictionary. *)
Definition merge_items (override base : list (string * cfg))
  : list (string * cfg) :=
  merge_dict (CDict override) base.

(** What [_merge_config] stores at a key of [override]. *)
Definition merged_entry (old : option cfg) (value : cfg) : cfg :=
  match old, value with
  | Some (CDict sub), CDict osub => CDict (merge_items osub sub)
  | _, _ => value
  end.

(** The value at a path of keys. *)
Fixpoint lookup_path (keys : list string) (v : cfg) : option cfg :=
  match keys with
  | [] => Some v
  | k :: rest =>
      match v with
      | CDict d =>
          match dict_get k d with
          | Some sub => lookup_path rest sub
          | None => None
          end
      | _ => None
      end
  end.

(** The walk along [keys] meets dictionaries only, as far as the keys
    exist, and ends on a dictionary. *)
Fixpoint walkable (keys : list string) (v : cfg) : Prop :=
  match v with
  | CDict d =>
      match keys with
      | [] => True
      | k :: rest =>
          match dict_get k d with
          | Some sub => walkable rest sub
          | None => True
          end
      end
  | _ => False
  end.

(** The loop of [_load_env_variables] seen from the "database" dictionary:
    [fields] pairs each environment variable with the key it sets. *)
Fixpoint env_fields (getenv : string -> option string)
         (fields : list (string * string)) (d : list (string * cfg))
  : cfg_error + list (string * cfg) :=
  match fields with
  | [] => inr d
  | (env_var, field) :: rest =>
      match getenv env_var with
      | Some (String c r) =>
          match stored_value field (String c r) with
          | inl e => inl e
          | inr v => env_fields getenv rest (dict_set field v d)
          end
      | _ => env_fields getenv rest d
      end
  end.

Definition database_fields : list (string * string) :=
  [ ("DB_TYPE", "type"); ("DB_HOST", "host"); ("DB_PORT", "port");
    ("DB_USER", "username"); ("DB_PASSWORD", "password");
    ("DB_NAME", "database") ].

Definition database_path (m : string * string) : string * string :=
  (fst m, "database." ++ snd m).

(** The environment variable, the key and the built-in default of each
    database setting. *)
Definition database_defaults : list (string * string * cfg) :=
  [ ("DB_TYPE", "type", CStr "mysql");
    ("DB_HOST", "host", CStr "localhost");
    ("DB_PORT", "port", CInt 3306);
    ("DB_USER", "username", CStr "root");
    ("DB_PASSWORD", "password", CStr "");
    ("DB_NAME", "database", CStr "csv_converter") ].

(** A setting by precedence: the environment variable when it is set and
    not empty, else the value of the file, else the default. *)
Definition resolve (getenv : string -> option string)
           (file_db : list (string * cfg)) (env_var field : string)
           (default : cfg) : cfg_error + cfg :=
  match getenv env_var with
  | Some (String c r) => stored_value field (String c r)
  | _ => inr (match dict_get field file_db with
              | Some v => v
              | None => default
              end)
  end.

(** The "database" dictionary of what a configuration file holds; empty
    when the file has none. *)
Definition file_database (items : list (string * cfg))
  : option (list (string * cfg)) :=
  match dict_get "database" items with
  | None => Some []
  | Some (CDict file_db) => Some file_db
  | Some _ => None
  end.

(** What the file stage needs for the database settings to be read:
    nothing loaded, or something that is not a dictionary (it is ignored), or
    a dictionary, with distinct keys, whose "database" entry is missing or is
    a dictionary [file_db] with distinct keys. *)
Definition file_gives (loaded : option cfg) (file_db : list (string * cfg))
  : Prop :=
  match loaded with
  | Some (CDict items) =>
      NoDup (keys items) /\ file_database items = Some file_db
      /\ NoDup (keys file_db)
  | _ => file_db = []
  end.

(** DB_PORT is unset, empty, or an integer literal. *)
Definition port_ok (getenv : string -> option string) : Prop :=
  match getenv "DB_PORT" with
  | Some (String c r) => py_int (String c r) <> None
  | _ => True
  end.

(** DB_PORT, when it is set, is ASCII text of at most 4300 characters: the
    texts on which [py_int] is [int]. *)
Definition port_plain (getenv : string -> option string) : Prop :=
  match getenv "DB_PORT" with
  | Some value => plain_field value
  | None => True
  end.

(** A database setting of a configuration. *)
Definition setting (config : list (string * cfg)) (field : string)
  : cfg_error + cfg :=
  match subscript (CDict config) "database" with
  | inl e => inl e
  | inr db_config => subscript db_config field
  end.

(** A configuration file, a loader that returns it, and an environment,
    for the closed examples. *)
Definition sample_file_config : cfg :=
  CDict [ ("database", CDict [ ("host", CStr "db.example");
                               ("port", CInt 5432) ]);
          ("csv", CDict [ ("chunk_size", CInt 500) ]) ].

Definition sample_loader (text : string) : option cfg :=
  Some sample_file_config.

Definition sample_fs : filesystem :=
  fun p => if String.eqb p "conf.yaml" then Some [] else None.

Definition sample_env (name : string) : option string :=
  if String.eqb name "DB_PORT" then Some "6001"
  else if String.eqb name "DB_USER" then Some ""
  else None.

End ConfigManager.

(** CSV files for the closed examples of [create_table]. *)
Definition staff_csv : string :=
  "id,name" ++ PlainCsv.nl ++ "1,Ann" ++ PlainCsv.nl ++ "2,Bob" ++ PlainCsv.nl.

Definition header_only_csv : string := "id,name" ++ PlainCsv.nl.

(* ================================================================== *)
(** ** The demonstration: [demo_type_inference] *)

(** [s[:n]]: the first [n] characters of a text. *)
Fixpoint take_chars (n : nat) (s : string) : string :=
  match s with
  | EmptyString => EmptyString
  | String c r =>
      if PyStr.is_continuation_byte c then String c (take_chars n r)
      else match n with
           | O => EmptyString
           | S k => String c (take_chars k r)
           end
  end.

(** The text of h, e with an acute accent (U+00E9, the bytes 195 and 169),
    l, l, o: five characters in six bytes. *)
Definition hello_accent : string :=
  String "h" (String (ascii_of_nat 195) (String (ascii_of_nat 169) "llo")).

Section Demo.

Variable to_numeric : string -> option Q.
Variable Timestamp : Type.
Variable to_datetime : list string -> list (option Timestamp).

(** The [reasoning] column of the table that the demonstration prints. *)
Definition reasoning (series : Series) : string :=
  let values := dropna series in
  if _is_boolean values then "Boolean values detected"
  else if _is_integer to_numeric values then "Integer values detected"
  else if _is_float to_numeric values then "Decimal values detected"
  else if _is_date Timestamp to_datetime values then "Date format detected"
  else "Text content".

(** [sample_val[:20]] *)
Definition sample_val (series : Series) : string :=
  match dropna series with
  | [] => "N/A"
  | v :: _ => take_chars 20 v
  end.

(** A row of the table: column, sample value, inferred type, reasoning. *)
Definition demo_row (col : string) (series : Series)
  : string * string * sql_type * string :=
  (col, sample_val series,
   infer_sql_type to_numeric Timestamp to_datetime series
                  default_max_varchar_length,
   reasoning series).

End Demo.

(** The reasoning that goes with a type. *)
Definition type_reasoning (t : sql_type) : string :=
  match t with
  | BOOLEAN => "Boolean values detected"
  | TINYINT | SMALLINT | INT | BIGINT => "Integer values detected"
  | DECIMAL_10_2 => "Decimal values detected"
  | DATE => "Date format detected"
  | TEXT | VARCHAR _ | DATETIME => "Text content"
  end.

(** What [analyze_csv] records for a column. *)
Definition describes (to_numeric : string -> option Q) (Timestamp : Type)
           (to_datetime : list string -> list (option Timestamp))
           (column : string * Series) (entry : string * col_analysis) : Prop :=
  let '(col, values) := column in
  let '(key, desc) := entry in
  key = col
  /\ original_name desc = col
  /\ clean_name desc = Sanitizer._clean_column_name col
  /\ is_identifier (clean_name desc)
  /\ sql_type_of desc
     = infer_sql_type to_numeric Timestamp to_datetime values
                      default_max_varchar_length
  /\ (non_null_count desc + null_count desc = List.length values)%nat
  /\ (unique_values desc <= non_null_count desc)%nat
  /\ (List.length (sample_values desc) <= 3)%nat.

(* ================================================================== *)
(** ** The connection URL: [DatabaseConfig.get_connection_url] *)

From Stdlib Require Import DecimalString.

Module Connection.

(** The dataclass, with the types of its annotations. *)
Record DatabaseConfig : Type := {
  db_type : string;
  host : string;
  port : Z;
  username : string;
  password : string;
  database : string
}.

(** [DatabaseConfig()] *)
Definition default_config : DatabaseConfig :=
  {| db_type := "mysql"; host := "localhost"; port := 3306;
     username := "root"; password := ""; database := "csv_converter" |}.

(** [str(n)] for an integer. *)
Definition str_of_int (n : Z) : string := NilZero.string_of_int (Z.to_int n).

(** The part of the URL after the scheme, for a database server. *)
Definition server_part (self : DatabaseConfig) : string :=
  username self ++ ":" ++ password self ++ "@" ++ host self ++ ":"
  ++ str_of_int (port self) ++ "/" ++ database self.

Definition get_connection_url (self : DatabaseConfig) : cfg_error + string :=
  if String.eqb (db_type self) "mysql" then
    inr ("mysql+pymysql://" ++ server_part self)
  else if String.eqb (db_type self) "postgresql" then
    inr ("postgresql+psycopg2://" ++ server_part self)
  else if String.eqb (db_type self) "sqlite" then
    inr ("sqlite:///" ++ database self ++ ".db")
  else inl ValueError.

Definition with_credentials (self : DatabaseConfig) (user pass : string)
  : DatabaseConfig :=
  {| db_type := db_type self; host := host self; port := port self;
     username := user; password := pass; database := database self |}.

End Connection.

(* ================================================================== *)
(** ** The table name that [import_csv] derives from the file name *)

Module Cli.

(** [s.replace(old, new)] for one-character strings. *)
Fixpoint replace_char (old new : ascii) (s : string) : string :=
  match s with
  | EmptyString => EmptyString
  | String c r =>
      String (if Ascii.eqb c old then new else c) (replace_char old new r)
  end.

(** [stem.lower().replace(' ', '_').replace('-', '_')], [stem] being
    [Path(csv_file).stem], for a stem of ASCII text. *)
Definition table_name_of_stem (stem : string) : string :=
  replace_char "-" "_" (replace_char " " "_" (PyStr.lower stem)).

(** A character that the derivation changes: an upper-case letter, a space
    or a hyphen. *)
Definition changed_char (c : ascii) : bool :=
  (PyStr.is_upper_char c || Ascii.eqb c " " || Ascii.eqb c "-")%bool.

End Cli.

(* ================================================================== *)
(** * Properties of the name sanitiser *)

Module SanitizerFacts.
Import PyStr Sanitizer.

Lemma is_underscore_eq (c : ascii) : is_underscore c = true -> c = underscore.
Proof. unfold is_underscore. apply Ascii.eqb_eq. Qed.

Lemma underscore_is_word : is_word_char underscore = true.
Proof. reflexivity. Qed.

(** **** Stage 1 against the specification's replacement *)

Lemma sub_class_spec (s : string) :
  list_ascii_of_string (Re.sub_class not_word_char "_" s)
  = spec_replace (list_ascii_of_string s).
Proof.
  induction s as [|c r IH]; simpl; [reflexivity|].
  unfold not_word_char at 1.
  destruct (is_word_char c); simpl; now rewrite IH.
Qed.

(** **** Stage 2 against the specification's collapsing *)

Lemma spec_collapse_cons_plain (c : ascii) (l : list ascii) :
  is_underscore c = false -> spec_collapse (c :: l) = c :: spec_collapse l.
Proof.
  intros Hc. destruct l as [|d l']; simpl; [reflexivity|].
  now rewrite Hc.
Qed.

Lemma spec_collapse_us_us (l : list ascii) :
  spec_collapse (underscore :: underscore :: l)
  = spec_collapse (underscore :: l).
Proof. reflexivity. Qed.

Lemma spec_collapse_us_plain (c : ascii) (l : list ascii) :
  is_underscore c = false ->
  spec_collapse (underscore :: c :: l) = underscore :: spec_collapse (c :: l).
Proof.
  intros Hc. cbn [spec_collapse]. rewrite Hc, andb_false_r. reflexivity.
Qed.

Lemma sub_class_plus_from_spec (s : string) :
  list_ascii_of_string (Re.sub_class_plus_from is_underscore "_" false s)
  = spec_collapse (list_ascii_of_string s)
  /\ underscore
     :: list_ascii_of_string (Re.sub_class_plus_from is_underscore "_" true s)
     = spec_collapse (underscore :: list_ascii_of_string s).
Proof.
  induction s as [|c r [IHf IHt]]; [split; reflexivity|].
  cbn [Re.sub_class_plus_from list_ascii_of_string].
  destruct (is_underscore c) eqn:Hc.
  - apply is_underscore_eq in Hc. subst c. split.
    + change ("_" ++ ?x) with (String underscore x).
      cbn [list_ascii_of_string]. exact IHt.
    + rewrite spec_collapse_us_us. exact IHt.
  - split.
    + cbn [list_ascii_of_string]. rewrite spec_collapse_cons_plain by exact Hc.
      now rewrite IHf.
    + cbn [list_ascii_of_string]. rewrite spec_collapse_us_plain by exact Hc.
      rewrite spec_collapse_cons_plain by exact Hc. now rewrite IHf.
Qed.

Lemma sub_class_plus_spec (s : string) :
  list_ascii_of_string (Re.sub_class_plus is_underscore "_" s)
  = spec_collapse (list_ascii_of_string s).
Proof. apply sub_class_plus_from_spec. Qed.

(** **** Stage 3 against the specification's trimming *)

Lemma lstrip_spec (s : string) :
  list_ascii_of_string (lstrip underscore s)
  = drop_leading (list_ascii_of_string s).
Proof.
  induction s as [|c r IH]; simpl; [reflexivity|].
  unfold is_underscore. destruct (Ascii.eqb c underscore); [exact IH|reflexivity].
Qed.

Lemma drop_leading_snoc (l : list ascii) (c : ascii) :
  drop_leading (l ++ [c])%list
  = match drop_leading l with
    | [] => if is_underscore c then [] else [c]
    | _ => (drop_leading l ++ [c])%list
    end.
Proof.
  induction l as [|d l IH]; simpl; [reflexivity|].
  destruct (is_underscore d); [exact IH|reflexivity].
Qed.

Lemma is_empty_list (s : string) :
  is_empty s = match list_ascii_of_string s with [] => true | _ => false end.
Proof. destruct s; reflexivity. Qed.

Lemma rstrip_spec (s : string) :
  list_ascii_of_string (rstrip underscore s)
  = rev (drop_leading (rev (list_ascii_of_string s))).
Proof.
  induction s as [|c r IH]; [reflexivity|].
  cbn [rstrip list_ascii_of_string rev].
  rewrite drop_leading_snoc, is_empty_list, IH.
  fold (is_underscore c).
  destruct (drop_leading (rev (list_ascii_of_string r))) as [|d l] eqn:E.
  - cbn [rev andb]. destruct (is_underscore c); [reflexivity|].
    cbn [list_ascii_of_string]. now rewrite IH.
  - assert (Hne : rev (d :: l) <> []).
    { cbn [rev]. intros H. now apply app_eq_nil in H as [_ H]. }
    destruct (rev (d :: l)) as [|x xs] eqn:R; [congruence|].
    cbn [andb list_ascii_of_string].
    rewrite rev_app_distr, IH, R. reflexivity.
Qed.

Lemma strip_spec (s : string) :
  list_ascii_of_string (strip underscore s)
  = spec_trim (list_ascii_of_string s).
Proof. unfold strip, spec_trim. now rewrite rstrip_spec, lstrip_spec. Qed.

Lemma list_of_append (s t : string) :
  list_ascii_of_string (s ++ t)
  = (list_ascii_of_string s ++ list_ascii_of_string t)%list.
Proof. induction s as [|c r IH]; simpl; [reflexivity|now rewrite IH]. Qed.

Lemma clean_column_name_stages (s : string) :
  _clean_column_name s = finish (clean_core s).
Proof. reflexivity. Qed.

Lemma finish_spec (s : string) :
  list_ascii_of_string (finish s)
  = spec_fallback (spec_prefix (list_ascii_of_string s)).
Proof.
  unfold finish. destruct s as [|c r]; [reflexivity|].
  cbn [is_empty negb andb starts_with_digit list_ascii_of_string spec_prefix].
  destruct (is_digit_char c); reflexivity.
Qed.

Lemma clean_column_name_refines (name : string) :
  _clean_column_name name = sanitize_spec name.
Proof.
  unfold sanitize_spec.
  rewrite <- sub_class_spec, <- sub_class_plus_spec, <- strip_spec.
  rewrite <- finish_spec. rewrite string_of_list_ascii_of_string.
  reflexivity.
Qed.

(** **** Cleaned names are fixed points of the three stages *)

Lemma sub_class_word (s : string) :
  all_chars is_word_char s = true ->
  Re.sub_class not_word_char "_" s = s.
Proof.
  induction s as [|c r IH]; simpl; [reflexivity|].
  intros H. apply andb_prop in H as [Hc Hr].
  unfold not_word_char at 1. rewrite Hc. simpl. now rewrite IH.
Qed.

Lemma sub_class_all_word (s : string) :
  all_chars is_word_char (Re.sub_class not_word_char "_" s) = true.
Proof.
  induction s as [|c r IH]; simpl; [reflexivity|].
  unfold not_word_char at 1.
  destruct (is_word_char c) eqn:Hc; simpl; [now rewrite Hc|exact IH].
Qed.

Lemma sub_plus_fixed (s : string) : forall b,
  no_double_us b s = true ->
  Re.sub_class_plus_from is_underscore "_" b s = s.
Proof.
  induction s as [|c r IH]; intros b H; [reflexivity|].
  cbn [no_double_us Re.sub_class_plus_from] in *.
  destruct (is_underscore c) eqn:Hc.
  - apply andb_prop in H as [Hb Hr]. destruct b; [discriminate|].
    apply is_underscore_eq in Hc. subst c.
    rewrite (IH true Hr). reflexivity.
  - now rewrite (IH false H).
Qed.

Lemma sub_plus_no_double (s : string) : forall b,
  no_double_us b (Re.sub_class_plus_from is_underscore "_" b s) = true.
Proof.
  induction s as [|c r IH]; intros b; [reflexivity|].
  cbn [Re.sub_class_plus_from].
  destruct (is_underscore c) eqn:Hc.
  - destruct b; [apply IH|].
    change ("_" ++ ?x) with (String underscore x).
    cbn [no_double_us]. change (is_underscore underscore) with true.
    cbn. apply IH.
  - cbn [no_double_us]. rewrite Hc. apply IH.
Qed.

Lemma sub_plus_all_word (s : string) : forall b,
  all_chars is_word_char s = true ->
  all_chars is_word_char (Re.sub_class_plus_from is_underscore "_" b s) = true.
Proof.
  induction s as [|c r IH]; intros b H; [reflexivity|].
  cbn [Re.sub_class_plus_from all_chars] in *.
  apply andb_prop in H as [Hc Hr].
  destruct (is_underscore c); [destruct b|].
  - now apply IH.
  - change ("_" ++ ?x) with (String underscore x). cbn [all_chars].
    rewrite underscore_is_word. now apply IH.
  - cbn [all_chars]. rewrite Hc. now apply IH.
Qed.

Lemma no_double_weaken (s : string) :
  no_double_us true s = true -> no_double_us false s = true.
Proof.
  destruct s as [|c r]; [reflexivity|]. cbn [no_double_us].
  destruct (is_underscore c); [discriminate|auto].
Qed.

Lemma no_double_tail (b : bool) (c : ascii) (r : string) :
  no_double_us b (String c r) = true -> no_double_us false r = true.
Proof.
  cbn [no_double_us]. destruct (is_underscore c); [|auto].
  intros H. apply andb_prop in H as [_ H]. now apply no_double_weaken.
Qed.

Lemma lstrip_no_double (s : string) : forall b,
  no_double_us b s = true -> no_double_us false (lstrip underscore s) = true.
Proof.
  induction s as [|c r IH]; intros b H; [reflexivity|].
  cbn [lstrip]. fold (is_underscore c).
  destruct (is_underscore c) eqn:Hc.
  - apply (IH false). exact (no_double_tail _ _ _ H).
  - cbn [no_double_us] in *. now rewrite Hc in *.
Qed.

Lemma rstrip_no_double (s : string) : forall b,
  no_double_us b s = true -> no_double_us b (rstrip underscore s) = true.
Proof.
  induction s as [|c r IH]; intros b H; [reflexivity|].
  cbn [rstrip]. fold (is_underscore c).
  destruct (is_empty (rstrip underscore r) && is_underscore c)%bool;
    [reflexivity|].
  cbn [no_double_us] in *.
  destruct (is_underscore c).
  - apply andb_prop in H as [Hb Hr]. rewrite Hb. now apply IH.
  - now apply IH.
Qed.

Lemma lstrip_all (p : ascii -> bool) (s : string) :
  all_chars p s = true -> all_chars p (lstrip underscore s) = true.
Proof.
  induction s as [|c r IH]; [reflexivity|]. intros H.
  cbn [lstrip]. destruct (Ascii.eqb c underscore); [|exact H].
  cbn [all_chars] in H. apply andb_prop in H as [_ H]. now apply IH.
Qed.

Lemma rstrip_all (p : ascii -> bool) (s : string) :
  all_chars p s = true -> all_chars p (rstrip underscore s) = true.
Proof.
  induction s as [|c r IH]; [reflexivity|]. intros H.
  cbn [all_chars] in H. apply andb_prop in H as [Hc Hr].
  cbn [rstrip].
  destruct (is_empty (rstrip underscore r) && Ascii.eqb c underscore)%bool;
    [reflexivity|].
  cbn [all_chars]. rewrite Hc. now apply IH.
Qed.

Lemma lstrip_starts_clean (s : string) :
  starts_clean (lstrip underscore s) = true.
Proof.
  induction s as [|c r IH]; [reflexivity|].
  cbn [lstrip]. fold (is_underscore c).
  destruct (is_underscore c) eqn:Hc; [exact IH|].
  cbn [starts_clean]. now rewrite Hc.
Qed.

Lemma lstrip_fixed (s : string) :
  starts_clean s = true -> lstrip underscore s = s.
Proof.
  destruct s as [|c r]; [reflexivity|]. cbn [starts_clean lstrip].
  fold (is_underscore c). now destruct (is_underscore c).
Qed.

Lemma rstrip_starts_clean (s : string) :
  starts_clean s = true -> starts_clean (rstrip underscore s) = true.
Proof.
  destruct s as [|c r]; [reflexivity|]. cbn [starts_clean rstrip].
  fold (is_underscore c). intros H.
  destruct (is_underscore c) eqn:Hc; [discriminate|].
  rewrite andb_false_r. cbn [starts_clean]. now rewrite Hc.
Qed.

Lemma rstrip_idem (s : string) :
  rstrip underscore (rstrip underscore s) = rstrip underscore s.
Proof.
  induction s as [|c r IH]; [reflexivity|].
  cbn [rstrip].
  destruct (is_empty (rstrip underscore r) && Ascii.eqb c underscore)%bool
    eqn:E; [reflexivity|].
  cbn [rstrip]. rewrite IH, E. reflexivity.
Qed.

Lemma clean_core_tidy (s : string) : tidy (clean_core s).
Proof.
  unfold tidy, clean_core, strip, Re.sub_class_plus.
  split; [|split; [|split]].
  - apply rstrip_all, lstrip_all, sub_plus_all_word, sub_class_all_word.
  - apply rstrip_no_double, (lstrip_no_double _ false), sub_plus_no_double.
  - apply rstrip_starts_clean, lstrip_starts_clean.
  - apply rstrip_idem.
Qed.

Lemma clean_core_fixed (t : string) : tidy t -> clean_core t = t.
Proof.
  intros (Hw & Hd & Hs & Hr).
  unfold clean_core, strip, Re.sub_class_plus.
  rewrite (sub_class_word _ Hw), (sub_plus_fixed _ _ Hd).
  rewrite (lstrip_fixed _ Hs). exact Hr.
Qed.

Lemma rstrip_cons_nonempty (c : ascii) (r : string) :
  rstrip underscore r = r -> is_empty r = false ->
  rstrip underscore (String c r) = String c r.
Proof.
  intros Hr He. cbn [rstrip]. rewrite Hr, He. reflexivity.
Qed.

Lemma digit_not_underscore (c : ascii) :
  is_digit_char c = true -> is_underscore c = false.
Proof.
  destruct c as [[] [] [] [] [] [] [] []]; vm_compute; congruence.
Qed.

Lemma digit_is_word (c : ascii) :
  is_digit_char c = true -> is_word_char c = true.
Proof.
  unfold is_word_char. intros ->. now rewrite orb_true_r.
Qed.

Lemma tidy_col_prefix (r : string) :
  tidy r -> starts_with_digit r = true -> tidy ("col_" ++ r).
Proof.
  intros (Hw & Hd & Hs & Hr) Hdig.
  destruct r as [|c r']; [discriminate|].
  cbn [starts_with_digit] in Hdig.
  pose proof (digit_not_underscore _ Hdig) as Hc.
  change ("col_" ++ String c r')
    with (String "c" (String "o" (String "l" (String "_" (String c r'))))).
  split; [|split; [|split]].
  - cbn [all_chars]. cbn [all_chars] in Hw. rewrite Hw. reflexivity.
  - cbn [no_double_us] in Hd |- *. rewrite Hc in Hd |- *.
    change (is_underscore "c") with false.
    change (is_underscore "o") with false.
    change (is_underscore "l") with false.
    change (is_underscore "_") with true.
    cbn. exact Hd.
  - reflexivity.
  - repeat (apply rstrip_cons_nonempty; [|reflexivity]). exact Hr.
Qed.

Lemma finish_clean_core_fixed (r : string) :
  tidy r -> finish (clean_core (finish r)) = finish r.
Proof.
  intros Ht. unfold finish at 2 3.
  destruct r as [|c r']; [vm_compute; reflexivity|].
  cbn [is_empty negb andb starts_with_digit].
  destruct (is_digit_char c) eqn:Hdig.
  - change (is_empty ("col_" ++ String c r')) with false. cbv iota.
    rewrite (clean_core_fixed _ (tidy_col_prefix _ Ht Hdig)).
    reflexivity.
  - cbn [is_empty]. rewrite (clean_core_fixed _ Ht).
    unfold finish. cbn [is_empty negb andb starts_with_digit].
    rewrite Hdig. reflexivity.
Qed.

End SanitizerFacts.

(* ================================================================== *)
(** * Properties of the type inferrer *)

Lemma dropna_map_nil {A B : Type} (f : A -> option B) (l : list A) :
  dropna (map f l) = [] <-> Forall (fun v => f v = None) l.
Proof.
  induction l as [|a l IH]; simpl.
  - split; auto.
  - destruct (f a) eqn:E; split; intros H.
    + discriminate.
    + inversion H; congruence.
    + constructor; [exact E|now apply IH].
    + inversion H; now apply IH.
Qed.

Lemma dropna_map_all {A B : Type} (f : A -> option B) (P : B -> bool)
      (l : list A) :
  Forall (fun v => exists q, f v = Some q /\ P q = true) l ->
  List.length (dropna (map f l)) = List.length l
  /\ forallb P (dropna (map f l)) = true.
Proof.
  induction 1 as [|a l (q & Hq & HP) _ [IHlen IHall]]; simpl; [auto|].
  rewrite Hq. simpl. rewrite HP, IHall, IHlen. auto.
Qed.

(** Minimum and maximum against a literal bound, element by element. *)

Lemma Qle_bool_trans (a b c : Q) :
  Qle_bool a b = true -> Qle_bool b c = true -> Qle_bool a c = true.
Proof. rewrite !Qle_bool_iff. apply Qle_trans. Qed.

Lemma Qle_bool_false_lt (a b : Q) : Qle_bool a b = false -> (b < a)%Q.
Proof.
  intros H. apply Qnot_le_lt. intros Hle.
  apply Qle_bool_iff in Hle. congruence.
Qed.

Lemma min_ge_lit (k : Z) (l : list Q) : forall a,
  ge_lit (fold_left Qmin_opt l (Some a)) k
  = (Qle_bool (inject_Z k) a
     && forallb (fun q => Qle_bool (inject_Z k) q) l)%bool.
Proof.
  induction l as [|q l IH]; intros a; simpl.
  - now rewrite andb_true_r.
  - destruct (Qle_bool q a) eqn:Hqa; rewrite IH.
    + destruct (Qle_bool (inject_Z k) q) eqn:Hkq; simpl.
      * now rewrite (Qle_bool_trans _ _ _ Hkq Hqa).
      * now rewrite andb_false_r.
    + destruct (Qle_bool (inject_Z k) a) eqn:Hka; simpl; [|reflexivity].
      assert (Hkq : Qle_bool (inject_Z k) q = true).
      { apply Qle_bool_iff. apply Qle_bool_iff in Hka.
        apply Qle_bool_false_lt in Hqa.
        apply Qle_trans with a; [exact Hka|now apply Qlt_le_weak]. }
      now rewrite Hkq.
Qed.

Lemma max_le_lit (k : Z) (l : list Q) : forall a,
  le_lit (fold_left Qmax_opt l (Some a)) k
  = (Qle_bool a (inject_Z k)
     && forallb (fun q => Qle_bool q (inject_Z k)) l)%bool.
Proof.
  induction l as [|q l IH]; intros a; simpl.
  - now rewrite andb_true_r.
  - destruct (Qle_bool a q) eqn:Haq; rewrite IH.
    + destruct (Qle_bool q (inject_Z k)) eqn:Hqk; simpl.
      * now rewrite (Qle_bool_trans _ _ _ Haq Hqk).
      * now rewrite andb_false_r.
    + destruct (Qle_bool a (inject_Z k)) eqn:Hak; simpl; [|reflexivity].
      assert (Hqk : Qle_bool q (inject_Z k) = true).
      { apply Qle_bool_iff. apply Qle_bool_iff in Hak.
        apply Qle_bool_false_lt in Haq.
        apply Qle_trans with a; [now apply Qlt_le_weak|exact Hak]. }
      now rewrite Hqk.
Qed.

Lemma forallb_within (lo hi : Z) (l : list Q) :
  forallb (within lo hi) l
  = (forallb (fun q => Qle_bool (inject_Z lo) q) l
     && forallb (fun q => Qle_bool q (inject_Z hi)) l)%bool.
Proof.
  induction l as [|q l IH]; simpl; [reflexivity|].
  rewrite IH. unfold within.
  destruct (Qle_bool (inject_Z lo) q), (Qle_bool q (inject_Z hi)),
    (forallb (fun q => Qle_bool (inject_Z lo) q) l),
    (forallb (fun q => Qle_bool q (inject_Z hi)) l); reflexivity.
Qed.

(** On a series with at least one number, the range test on the observed
    minimum and maximum is the range test on every number. *)
Lemma min_max_within (lo hi : Z) (nums : list (option Q)) :
  dropna nums <> [] ->
  (ge_lit (series_min nums) lo && le_lit (series_max nums) hi)%bool
  = forallb (within lo hi) (dropna nums).
Proof.
  unfold series_min, series_max.
  destruct (dropna nums) as [|a l]; [congruence|]. intros _.
  simpl. rewrite min_ge_lit, max_le_lit, forallb_within. unfold within.
  destruct (Qle_bool (inject_Z lo) a), (Qle_bool a (inject_Z hi)),
    (forallb (fun q => Qle_bool (inject_Z lo) q) l),
    (forallb (fun q => Qle_bool q (inject_Z hi)) l); reflexivity.
Qed.

(** **** The binary64 product [n * 1.2], truncated *)

Lemma all_in_block_sound (p : Z -> bool) (k : nat) : forall lo n,
  all_in_block p k lo = true ->
  lo <= n < lo + 2 ^ Z.of_nat k -> p n = true.
Proof.
  induction k as [|k IH]; intros lo n H Hn.
  - simpl in *. assert (n = lo) by lia. now subst.
  - cbn [all_in_block] in H. apply andb_prop in H as [H1 H2].
    rewrite Nat2Z.inj_succ, Z.pow_succ_r in Hn by lia.
    destruct (Z_lt_ge_dec n (lo + 2 ^ Z.of_nat k)) as [Hlt|Hge].
    + apply (IH lo); [exact H1|lia].
    + apply (IH (lo + 2 ^ Z.of_nat k)); [exact H2|lia].
Qed.

Lemma scale_is_floor_table : all_in_block scale_is_floor 16 0 = true.
Proof. vm_compute. reflexivity. Qed.

Lemma scale_floor (n : Z) :
  0 <= n <= 65535 ->
  Float64.to_int (Float64.mul (Float64.of_Z n) Float64.lit_1_2)
  = Some (6 * n / 5).
Proof.
  intros Hn.
  assert (T : scale_is_floor n = true).
  { apply (all_in_block_sound _ 16 0); [exact scale_is_floor_table|].
    change (2 ^ Z.of_nat 16) with 65536. lia. }
  unfold scale_is_floor in T.
  destruct (Float64.to_int _) as [m|]; [|discriminate].
  apply Z.eqb_eq in T. now subst m.
Qed.

Section InferrerFacts.

Variable to_numeric : string -> option Q.
Variable Timestamp : Type.
Variable to_datetime : list string -> list (option Timestamp).

Abbreviation infer := (infer_sql_type to_numeric Timestamp to_datetime).
Abbreviation is_integer := (_is_integer to_numeric).
Abbreviation is_float := (_is_float to_numeric).
Abbreviation is_date := (_is_date Timestamp to_datetime).
Abbreviation is_datetime := (_is_datetime Timestamp to_datetime).
Abbreviation some_number := (some_number to_numeric).
Abbreviation all_integers := (all_integers to_numeric).

Lemma some_number_dropna (values : list string) :
  some_number values <-> dropna (map to_numeric values) <> [].
Proof.
  rewrite dropna_map_nil. unfold some_number. split.
  - intros (v & Hin & Hv) Hall.
    rewrite Forall_forall in Hall. exact (Hv (Hall v Hin)).
  - intros Hnot. induction values as [|a l IH].
    + exfalso. apply Hnot. constructor.
    + destruct (to_numeric a) eqn:E.
      * exists a. split; [now left|congruence].
      * destruct IH as (v & Hin & Hv).
        { intros Hall. apply Hnot. now constructor. }
        exists v. split; [now right|exact Hv].
Qed.

Lemma integer_or_float (values : list string) :
  (is_integer values || is_float values)%bool = true <-> some_number values.
Proof.
  rewrite some_number_dropna. unfold _is_integer, _is_float.
  destruct (dropna (map to_numeric values)) as [|q l].
  - simpl. split; [discriminate|congruence].
  - split; [discriminate|]. intros _.
    destruct (forallb float_is_integer (q :: l)); reflexivity.
Qed.

Lemma varchar_or_text_not_numeric (values : list string) (mvl : Z) :
  is_numeric_type (varchar_or_text values mvl) = false.
Proof.
  unfold varchar_or_text.
  destruct (max_len values) as [m|]; [|reflexivity].
  destruct (mvl <? m); [reflexivity|].
  destruct (Float64.to_int _); reflexivity.
Qed.


(** The decision list of [infer_sql_type], on the non-null values. *)
Lemma infer_unfold (series : Series) (mvl : Z) :
  infer series mvl
  = match dropna series with
    | [] => TEXT
    | _ =>
        let values := dropna series in
        if _is_boolean values then BOOLEAN
        else if is_integer values then
          let nums := map to_numeric values in
          if (ge_lit (series_min nums) (-128)
              && le_lit (series_max nums) 127)%bool then TINYINT
          else if (ge_lit (series_min nums) (-32768)
                   && le_lit (series_max nums) 32767)%bool then SMALLINT
          else if (ge_lit (series_min nums) (-2147483648)
                   && le_lit (series_max nums) 2147483647)%bool then INT
          else BIGINT
        else if is_float values then DECIMAL_10_2
        else if is_date values then DATE
        else if is_datetime values then DATETIME
        else varchar_or_text values mvl
    end.
Proof. reflexivity. Qed.

Lemma is_boolean_nil_true : _is_boolean [] = true.
Proof. reflexivity. Qed.

(** The inferrer answers a numeric type exactly for a column that is not
    made of boolean tokens and has a value read as a number. *)
Lemma numeric_iff (series : Series) (mvl : Z) :
  is_numeric_type (infer series mvl) = true
  <-> _is_boolean (dropna series) = false /\ some_number (dropna series).
Proof.
  rewrite infer_unfold, <- integer_or_float.
  destruct (dropna series) as [|v l] eqn:E.
  - simpl. split; [discriminate|intros [H _]; discriminate].
  - cbv zeta. destruct (_is_boolean (v :: l)).
    + simpl. split; [discriminate|intros [H _]; discriminate].
    + destruct (is_integer (v :: l)).
      * split; [auto|intros _].
        repeat match goal with
               | |- context [if ?b then _ else _] => destruct b
               end; reflexivity.
      * destruct (is_float (v :: l)); [split; auto|].
        split; [|intros [_ H]; discriminate].
        destruct (is_date (v :: l)); [discriminate|].
        destruct (is_datetime (v :: l)); [discriminate|].
        now rewrite varchar_or_text_not_numeric.
Qed.

(** C1 (as amended): a column in which no value parses as a number gets no
    numeric type; a value that does not parse is otherwise ignored, so
    that a column not made of boolean tokens gets a numeric type as soon
    as one of its values parses. *)
Theorem C1_numeric_when_some_value_parses (series : Series) (mvl : Z) :
  (Forall (fun v => to_numeric v = None) (dropna series) ->
   is_numeric_type (infer series mvl) = false)
  /\ (is_numeric_type (infer series mvl) = true
      <-> _is_boolean (dropna series) = false
          /\ exists v, In v (dropna series) /\ to_numeric v <> None).
Proof.
  split; [|apply numeric_iff].
  intros Hall.
  destruct (is_numeric_type (infer series mvl)) eqn:E; [|reflexivity].
  apply numeric_iff in E as [_ (v & Hin & Hv)].
  rewrite Forall_forall in Hall. elim Hv. now apply Hall.
Qed.

Lemma all_integers_is_integer (values : list string) :
  values <> [] -> all_integers values -> is_integer values = true.
Proof.
  intros Hne Hall. unfold _is_integer.
  destruct (dropna_map_all to_numeric float_is_integer values Hall)
    as [Hlen Hfor].
  destruct (dropna (map to_numeric values)) as [|q l] eqn:E.
  - destruct values; [congruence|discriminate].
  - exact Hfor.
Qed.

Lemma is_integer_some (values : list string) :
  is_integer values = true -> dropna (map to_numeric values) <> [].
Proof.
  unfold _is_integer. destruct (dropna (map to_numeric values));
    [discriminate|discriminate].
Qed.

(** C2 (as amended): for a column not made only of boolean tokens in which
    every value parses as an integer, the inferrer returns the narrowest
    of TINYINT (-128..127), SMALLINT (-32768..32767), INT
    (-2^31..2^31-1) and BIGINT that holds every value. *)
Theorem C2_narrowest_integer_type (series : Series) (mvl : Z) :
  _is_boolean (dropna series) = false ->
  all_integers (dropna series) ->
  infer series mvl
  = narrowest_integer_type (dropna (map to_numeric (dropna series))).
Proof.
  intros Hbool Hall.
  assert (Hne : dropna series <> []).
  { intros E. rewrite E in Hbool. discriminate. }
  pose proof (all_integers_is_integer _ Hne Hall) as Hint.
  pose proof (is_integer_some _ Hint) as Hnum.
  rewrite infer_unfold.
  destruct (dropna series) as [|v l] eqn:E; [congruence|].
  cbv zeta. rewrite Hbool, Hint.
  rewrite !min_max_within by exact Hnum.
  reflexivity.
Qed.

(** **** The fall-through to VARCHAR or TEXT *)

Lemma fold_max_len (l : list string) : forall a m,
  (m = a \/ exists v, In v l /\ PyStr.len v = m) ->
  a <= m ->
  (forall v, In v l -> PyStr.len v <= m) ->
  fold_left (fun acc s =>
               match acc with
               | None => Some (PyStr.len s)
               | Some a => Some (Z.max a (PyStr.len s))
               end) l (Some a) = Some m.
Proof.
  induction l as [|x l IH]; intros a m Hm Ha Hall; simpl.
  - destruct Hm as [->|(v & [] & _)]. reflexivity.
  - apply IH.
    + destruct Hm as [->|(v & [<-|Hin] & Hv)].
      * left. pose proof (Hall x (or_introl eq_refl)). lia.
      * left. lia.
      * right. now exists v.
    + pose proof (Hall x (or_introl eq_refl)). lia.
    + intros v Hv. apply Hall. now right.
Qed.

Lemma max_len_is_max (values : list string) (m : Z) :
  is_max_length values m -> max_len values = Some m.
Proof.
  intros [(v & Hin & Hv) Hall]. unfold max_len.
  destruct values as [|x l]; [destruct Hin|]. simpl.
  apply fold_max_len.
  - destruct Hin as [<-|Hin]; [now left|right; now exists v].
  - apply Hall. now left.
  - intros w Hw. apply Hall. now right.
Qed.

Lemma len_nonneg (s : string) : 0 <= PyStr.len s.
Proof. unfold PyStr.len. lia. Qed.

(** C5 (as amended): a column that is neither boolean, integer, decimal,
    date nor datetime gets TEXT when its greatest value length, counted in
    characters, exceeds the configured bound, and
    VARCHAR(min(floor(max_length * 1.2), max_varchar_length)) when the
    length is within a bound of at most 65535; the product is truncated,
    not rounded. *)
Theorem C5_varchar_truncated_or_text (series : Series)
        (max_varchar_length max_length : Z) :
  _is_boolean (dropna series) = false ->
  is_integer (dropna series) = false ->
  is_float (dropna series) = false ->
  is_date (dropna series) = false ->
  is_datetime (dropna series) = false ->
  is_max_length (dropna series) max_length ->
  (max_varchar_length < max_length ->
   infer series max_varchar_length = TEXT)
  /\ (max_length <= max_varchar_length -> max_varchar_length <= 65535 ->
      infer series max_varchar_length
      = truncated_varchar max_length max_varchar_length).
Proof.
  intros Hb Hi Hf Hd Hdt Hmax.
  rewrite infer_unfold.
  destruct (dropna series) as [|v l] eqn:E; [discriminate|].
  cbv zeta. rewrite Hb, Hi, Hf, Hd, Hdt.
  unfold varchar_or_text. rewrite (max_len_is_max _ _ Hmax).
  assert (H0 : 0 <= max_length).
  { destruct Hmax as [(w & _ & <-) _]. apply len_nonneg. }
  split.
  - intros Hlt. apply Z.ltb_lt in Hlt. now rewrite Hlt.
  - intros Hle Hbound.
    assert (Hlt : (max_varchar_length <? max_length) = false)
      by (apply Z.ltb_ge; exact Hle).
    rewrite Hlt. rewrite scale_floor by lia. reflexivity.
Qed.

(** **** Dates *)

Lemma first_match_exists (ps : list Re.pattern) (s : string) (k : bool) :
  first_match ps s k = true
  <-> (exists p, In p ps /\ Re.re_match p s = true) /\ k = true.
Proof.
  induction ps as [|p ps IH]; simpl.
  - split; [discriminate|intros [(p & [] & _) _]].
  - destruct (Re.re_match p s) eqn:Hp.
    + split; [intros ->; split; [exists p; auto|reflexivity]|now intros [_ ->]].
    + rewrite IH. split.
      * intros [(q & Hin & Hq) Hk]. split; [exists q; auto|exact Hk].
      * intros [(q & [<-|Hin] & Hq) Hk]; [congruence|].
        split; [now exists q|exact Hk].
Qed.




End InferrerFacts.

(* ================================================================== *)
(** * Properties of the minimal implementation *)

Lemma isdigit_only_digits (value : string) :
  PyStr.isdigit value = true <-> only_digits value.
Proof.
  unfold PyStr.isdigit, only_digits. split.
  - intros H. apply andb_prop in H as [Hne Hall]. split.
    + destruct value; [discriminate|congruence].
    + clear Hne. induction value as [|c r IH]; simpl; [constructor|].
      simpl in Hall. apply andb_prop in Hall as [Hc Hr].
      constructor; auto.
  - intros [Hne Hall]. apply andb_true_intro. split.
    + destruct value; [congruence|reflexivity].
    + clear Hne. induction value as [|c r IH]; simpl; [reflexivity|].
      simpl in Hall. inversion Hall; subst.
      apply andb_true_intro. auto.
Qed.

Lemma format_value_digits (value : string) :
  only_digits value -> format_value value = PInt (PyStr.int value).
Proof.
  intros H. apply isdigit_only_digits in H. unfold format_value. now rewrite H.
Qed.

Lemma format_value_text (value : string) :
  ~ only_digits value -> format_value value = PStr value.
Proof.
  intros H. unfold format_value.
  destruct (PyStr.isdigit value) eqn:E; [|reflexivity].
  elim H. now apply isdigit_only_digits.
Qed.

Lemma py_eq_text_typed (s : string) (v : pyval) :
  typed_cell v -> py_eq (PStr s) v = false.
Proof.
  intros H. destruct v; try reflexivity. now elim (H s0).
Qed.

Lemma row_eq_differs_at (r1 : list pyval) : forall r2 i a b,
  nth_error r1 i = Some a -> nth_error r2 i = Some b ->
  py_eq a b = false -> row_eq r1 r2 = false.
Proof.
  induction r1 as [|x r1 IH]; intros r2 i a b H1 H2 Hab.
  - destruct i; discriminate.
  - destruct r2 as [|y r2]; [reflexivity|].
    destruct i as [|i]; simpl in *.
    + injection H1 as ->. injection H2 as ->. now rewrite Hab.
    + rewrite (IH r2 i a b H1 H2 Hab). apply andb_false_r.
Qed.




Lemma inserted_rows_app (l1 l2 : list stmt) :
  inserted_rows (l1 ++ l2) = (inserted_rows l1 ++ inserted_rows l2)%list.
Proof. unfold inserted_rows. apply flat_map_app. Qed.

Lemma for_each_insert (table : string) (rows : list (list pyval)) :
  forall log,
    for_each rows (fun row => execute (InsertValues table row)) log
    = ((log ++ map (InsertValues table) rows)%list, inr tt).
Proof.
  induction rows as [|r rows IH]; intros log; simpl.
  - unfold ret. now rewrite app_nil_r.
  - unfold bind, execute. rewrite IH, <- app_assoc. reflexivity.
Qed.


Section MinimalFacts.

Variable csv_reader : string -> list (list string).

Abbreviation merge := (newchanges_existingtable_table csv_reader).

Lemma merge_run (fs : filesystem) (file_path existing_table : string)
      (fetched csv_data_list : list (list pyval)) :
  csv_data csv_reader fs file_path = inr csv_data_list ->
  run (merge fs file_path existing_table fetched)
  = match new_data_to_insert fetched csv_data_list with
    | [] => ([SelectAll existing_table], inr tt)
    | rows =>
        ((SelectAll existing_table :: map (InsertValues existing_table) rows
            ++ [Commit])%list, inr tt)
    end.
Proof.
  intros H. unfold run, newchanges_existingtable_table, bind, lift.
  rewrite H.
  change (execute (SelectAll existing_table) [])
    with ([SelectAll existing_table], @inr exn unit tt).
  cbv iota beta.
  destruct (new_data_to_insert fetched csv_data_list) as [|r rows];
    [reflexivity|].
  rewrite for_each_insert. reflexivity.
Qed.




End MinimalFacts.

(* ================================================================== *)
(** * Column descriptors against header fields *)

Lemma infer_data_types_from (row : list string) : forall acc,
  List.length (fold_left data_types_step row acc)
  = (List.length acc + List.length (filter gets_data_type row))%nat.
Proof.
  induction row as [|i row IH]; intros acc; simpl; [lia|].
  rewrite IH. unfold data_types_step, gets_data_type.
  destruct (PyStr.isalpha i); simpl; [rewrite length_app; simpl; lia|].
  destruct (PyStr.isdigit i); simpl; [rewrite length_app; simpl; lia|].
  destruct (PyStr.contains_char "." i); simpl;
    [rewrite length_app; simpl; lia|lia].
Qed.

(** The loop of [create_table] appends a type only for a value made of
    letters, made of digits, or holding a dot. *)
Lemma infer_data_types_length (second_row_data : list string) :
  List.length (infer_data_types second_row_data)
  = List.length (filter gets_data_type second_row_data).
Proof. unfold infer_data_types. now rewrite infer_data_types_from. Qed.

(** C7: on the CSV with header name,joined and first data row
    Alice,2023-01-15 the minimal [create_table] infers one type for two
    header fields, and the statement that adds the second column raises. *)
Theorem C7_create_table_types_fall_short :
  PlainCsv.reader PlainCsv.people_csv
  = [["name"; "joined"]; ["Alice"; "2023-01-15"]]
  /\ infer_data_types ["Alice"; "2023-01-15"] = ["varchar(255)"]
  /\ List.length (infer_data_types ["Alice"; "2023-01-15"])
     <> List.length ["name"; "joined"]
  /\ run (create_table PlainCsv.reader
                       (PlainCsv.one_file "people.csv" PlainCsv.people_csv)
                       "shop" "people.csv" "people" "" [])
     = ([Use "shop"; ShowTables; CreateTable "people" "name" "varchar(255)"],
        inl IndexError).
Proof.
  split; [vm_compute; reflexivity|].
  split; [vm_compute; reflexivity|].
  split; [vm_compute; discriminate|].
  vm_compute. reflexivity.
Qed.

(** Dictionaries in insertion order *)

Lemma keys_dict_set_new {V : Type} (k : string) (v : V)
      (d : list (string * V)) :
  ~ In k (keys d) -> keys (dict_set k v d) = (keys d ++ [k])%list.
Proof.
  induction d as [|[k' v'] d IH]; simpl; [reflexivity|]. intros Hk.
  destruct (String.eqb k k') eqn:E.
  - apply String.eqb_eq in E. subst. elim Hk. now left.
  - simpl. f_equal. apply IH. intros Hin. apply Hk. now right.
Qed.

Lemma keys_fold_dict_set {V : Type} (f : string -> Series -> V)
      (df : DataFrame) : forall acc,
  NoDup (keys acc ++ keys df) ->
  keys (fold_left (fun columns '(col, values) =>
                     dict_set col (f col values) columns) df acc)
  = (keys acc ++ keys df)%list.
Proof.
  induction df as [|[col values] df IH]; intros acc Hnd; simpl.
  - now rewrite app_nil_r.
  - simpl in Hnd.
    assert (Hnew : ~ In col (keys acc)).
    { apply NoDup_remove_2 in Hnd. intros Hin. apply Hnd.
      apply in_or_app. now left. }
    rewrite IH; rewrite (keys_dict_set_new _ _ _ Hnew).
    + now rewrite <- app_assoc.
    + now rewrite <- app_assoc.
Qed.

Section AnalyzeFacts.

Variable csv_reader : string -> list (list string).
Variable to_numeric : string -> option Q.
Variable Timestamp : Type.
Variable to_datetime : list string -> list (option Timestamp).
Variable read_frame : string -> result DataFrame.

Abbreviation analyze :=
  (analyze_csv to_numeric Timestamp to_datetime read_frame).
Abbreviation read := (read_csv read_frame).

(** The structured implementation keeps the invariant: a frame whose
    labels are distinct, as [read_csv] makes them, gets one descriptor per
    column, in the order of the columns. *)
Lemma analyze_csv_one_descriptor_per_column (fs : filesystem)
      (file_path : string) (df : DataFrame) :
  read fs file_path = inr df -> NoDup (keys df) ->
  exists a,
    analyze fs file_path = ([], inr a)
    /\ keys (descriptors a) = keys df
    /\ List.length (descriptors a) = List.length df.
Proof.
  intros Hread Hnd. unfold analyze_csv, analyze_csv_body, try_except.
  rewrite Hread. unfold read_csv in Hread. unfold file_size.
  destruct (fs file_path) as [bytes|] eqn:Hfs.
  - eexists. split; [reflexivity|]. cbn [descriptors].
    assert (K : keys (fold_left
                        (fun columns '(col, values) =>
                           dict_set col
                             (analyze_column to_numeric Timestamp
                                             to_datetime col values)
                             columns) df []) = keys df).
    { now rewrite keys_fold_dict_set. }
    split; [exact K|].
    apply (f_equal (@List.length string)) in K.
    unfold keys in K. now rewrite !length_map in K.
  - unfold open_read in Hread. rewrite Hfs in Hread. discriminate.
Qed.



End AnalyzeFacts.

(* ================================================================== *)
(** * The sanitiser's contract *)

(** C4: for every header text the sanitiser replaces each character outside
    [A-Za-z0-9_] with an underscore, collapses runs of underscores, trims
    underscores at both ends, prefixes col_ when the result starts with a
    digit, and answers unnamed_column when the result is empty, in that
    order; "2023 Revenue (USD)" becomes "col_2023_Revenue_USD". *)
Theorem C4_sanitize_rules_in_order :
  (forall name,
      Sanitizer._clean_column_name name = Sanitizer.sanitize_spec name)
  /\ Sanitizer._clean_column_name "2023 Revenue (USD)" = "col_2023_Revenue_USD".
Proof.
  split; [exact SanitizerFacts.clean_column_name_refines|reflexivity].
Qed.

(** C9: the sanitiser is idempotent: applied to its own output it returns
    that output. *)
Theorem C9_sanitize_idempotent (name : string) :
  Sanitizer._clean_column_name (Sanitizer._clean_column_name name)
  = Sanitizer._clean_column_name name.
Proof.
  rewrite !SanitizerFacts.clean_column_name_stages.
  apply SanitizerFacts.finish_clean_core_fixed.
  apply SanitizerFacts.clean_core_tidy.
Qed.

(* ================================================================== *)
(** * Closed instances, with the plain readers *)

Example sanitize_blank : Sanitizer._clean_column_name "  " = "unnamed_column".
Proof. reflexivity. Qed.

Example sanitize_keeps : Sanitizer._clean_column_name "hire_date" = "hire_date".
Proof. reflexivity. Qed.

Example sanitize_runs :
  Sanitizer._clean_column_name "__a--b__" = "a_b".
Proof. reflexivity. Qed.

Example plain_infer_tiny :
  Plain.infer [Some "5"; Some "-7"; None; Some "120"] = TINYINT.
Proof. vm_compute. reflexivity. Qed.

Example plain_infer_small :
  Plain.infer [Some "5"; Some "200"] = SMALLINT.
Proof. vm_compute. reflexivity. Qed.

Example plain_infer_int :
  Plain.infer [Some "5"; Some "40000"] = INT.
Proof. vm_compute. reflexivity. Qed.

Example plain_infer_big :
  Plain.infer [Some "5"; Some "3000000000"] = BIGINT.
Proof. vm_compute. reflexivity. Qed.

Example plain_infer_decimal :
  Plain.infer [Some "1.5"; Some "2"; Some "3.25"] = DECIMAL_10_2.
Proof. vm_compute. reflexivity. Qed.

Example plain_infer_boolean :
  Plain.infer [Some "true"; Some "No"; Some "1"; Some "0"] = BOOLEAN.
Proof. vm_compute. reflexivity. Qed.

Example plain_infer_date :
  Plain.infer [Some "2023-01-15"; Some "2022-08-20"] = DATE.
Proof. vm_compute. reflexivity. Qed.

Example plain_infer_varchar :
  Plain.infer [Some "abc"; Some "hello"] = VARCHAR 6.
Proof. vm_compute. reflexivity. Qed.

Example plain_infer_null_column : Plain.infer [None; None] = TEXT.
Proof. reflexivity. Qed.

Example utf8_rejects_lone_byte : Utf8.valid [Byte.xff] = false.
Proof. reflexivity. Qed.

Example utf8_accepts_two_bytes : Utf8.valid [Byte.xc3; Byte.xa9] = true.
Proof. reflexivity. Qed.

Example utf8_rejects_overlong : Utf8.valid [Byte.xc0; Byte.x80] = false.
Proof. reflexivity. Qed.

(** A column with one malformed value among numbers is still TINYINT. *)
Lemma C1_counterexample :
  Plain.to_numeric "abc" = None
  /\ In (Some "abc") [Some "1"; Some "2"; Some "abc"]
  /\ Plain.infer [Some "1"; Some "2"; Some "abc"] = TINYINT
  /\ is_numeric_type (Plain.infer [Some "1"; Some "2"; Some "abc"]) = true.
Proof.
  split; [reflexivity|]. split; [simpl; auto|].
  split; vm_compute; reflexivity.
Qed.

Lemma C1_witness :
  Forall (fun v => Plain.to_numeric v = None) (dropna [Some "abc"; None; Some "x1"])
  /\ is_numeric_type (Plain.infer [Some "abc"; None; Some "x1"]) = false.
Proof.
  assert (H : Forall (fun v => Plain.to_numeric v = None)
                     (dropna [Some "abc"; None; Some "x1"])).
  { simpl. repeat constructor. }
  split; [exact H|].
  exact (proj1 (C1_numeric_when_some_value_parses
                  Plain.to_numeric Plain.Timestamp Plain.to_datetime
                  [Some "abc"; None; Some "x1"] default_max_varchar_length) H).
Defined.

(** Columns in which every value is an integer and that get BOOLEAN, INT and
    TEXT, where the ranges read as "within plus or minus 2^31 - 1" give
    TINYINT and BIGINT for the first two, and an integer type is expected
    for the third. *)
Lemma C2_counterexample :
  (all_integers Plain.to_numeric ["0"; "1"]
   /\ Plain.infer [Some "0"; Some "1"] = BOOLEAN
   /\ spec_integer_type [0 # 1; 1 # 1] = TINYINT)
  /\ (all_integers Plain.to_numeric ["-2147483648"]
      /\ Plain.infer [Some "-2147483648"] = INT
      /\ spec_integer_type [-2147483648 # 1] = BIGINT)
  /\ (all_integers Plain.to_numeric (dropna [None])
      /\ Plain.infer [None] = TEXT
      /\ is_integer_type (Plain.infer [None]) = false).
Proof.
  split; [|split].
  - split; [|split; vm_compute; reflexivity].
    repeat constructor; eexists; split; vm_compute; reflexivity.
  - split; [|split; vm_compute; reflexivity].
    repeat constructor; eexists; split; vm_compute; reflexivity.
  - split; [constructor|split; reflexivity].
Qed.

Lemma C2_witness :
  _is_boolean (dropna [Some "200"; None; Some "-5"]) = false
  /\ all_integers Plain.to_numeric (dropna [Some "200"; None; Some "-5"])
  /\ Plain.infer [Some "200"; None; Some "-5"]
     = narrowest_integer_type [200 # 1; -5 # 1]
  /\ narrowest_integer_type [200 # 1; -5 # 1] = SMALLINT.
Proof.
  assert (Hb : _is_boolean (dropna [Some "200"; None; Some "-5"]) = false)
    by reflexivity.
  assert (Hi : all_integers Plain.to_numeric
                            (dropna [Some "200"; None; Some "-5"])).
  { simpl. repeat constructor; eexists; split; vm_compute; reflexivity. }
  split; [exact Hb|]. split; [exact Hi|].
  split; [|vm_compute; reflexivity].
  exact (C2_narrowest_integer_type
           Plain.to_numeric Plain.Timestamp Plain.to_datetime
           [Some "200"; None; Some "-5"] default_max_varchar_length Hb Hi).
Defined.

(** The product by 1.2 is truncated: a three-character column gets
    VARCHAR(3), where rounding would give VARCHAR(4). *)
Lemma C5_counterexample :
  (_is_boolean ["abc"] = false
   /\ _is_integer Plain.to_numeric ["abc"] = false
   /\ _is_float Plain.to_numeric ["abc"] = false
   /\ _is_date Plain.Timestamp Plain.to_datetime ["abc"] = false
   /\ _is_datetime Plain.Timestamp Plain.to_datetime ["abc"] = false)
  /\ max_len ["abc"] = Some 3
  /\ Plain.infer [Some "abc"] = VARCHAR 3
  /\ spec_varchar 3 default_max_varchar_length = VARCHAR 4.
Proof. repeat split; vm_compute; reflexivity. Qed.

Lemma C5_witness :
  is_max_length (dropna [Some "hello"; None; Some "abc"]) 5
  /\ Plain.infer [Some "hello"; None; Some "abc"]
     = truncated_varchar 5 default_max_varchar_length
  /\ truncated_varchar 5 default_max_varchar_length = VARCHAR 6
  /\ infer_sql_type Plain.to_numeric Plain.Timestamp Plain.to_datetime
                    [Some "hello"; None; Some "abc"] 4
     = TEXT.
Proof.
  assert (Hm : is_max_length (dropna [Some "hello"; None; Some "abc"]) 5).
  { split.
    - exists "hello". split; [now left|reflexivity].
    - intros v [<-|[<-|[]]]; vm_compute; discriminate. }
  split; [exact Hm|]. split; [|split; [reflexivity|]].
  - apply (C5_varchar_truncated_or_text
             Plain.to_numeric Plain.Timestamp Plain.to_datetime
             [Some "hello"; None; Some "abc"] default_max_varchar_length 5
             eq_refl eq_refl eq_refl eq_refl eq_refl Hm);
      vm_compute; discriminate.
  - apply (C5_varchar_truncated_or_text
             Plain.to_numeric Plain.Timestamp Plain.to_datetime
             [Some "hello"; None; Some "abc"] 4 5
             eq_refl eq_refl eq_refl eq_refl eq_refl Hm).
    reflexivity.
Defined.





(** The merge inserts -5 again into a table that holds the integer -5. *)
Example merge_reinserts_negative :
  run (newchanges_existingtable_table
         PlainCsv.reader (PlainCsv.one_file "n.csv" PlainCsv.negative_csv)
         "n.csv" "t" [[PInt (-5)]])
  = ([SelectAll "t"; InsertValues "t" [PStr "-5"]; Commit], inr tt).
Proof. vm_compute. reflexivity. Qed.


Example csv_data_missing :
  csv_data PlainCsv.reader (fun _ => None) "missing.csv"
  = inl FileNotFoundError.
Proof. reflexivity. Qed.

Example analyze_people :
  exists a,
    analyze_csv Plain.to_numeric Plain.Timestamp Plain.to_datetime
                PlainCsv.read_frame
                (PlainCsv.one_file "people.csv" PlainCsv.people_csv)
                "people.csv" = ([], inr a)
    /\ map (fun d => (clean_name (snd d), sql_type_of (snd d))) (descriptors a)
       = [("name", VARCHAR 6); ("joined", DATE)].
Proof. eexists. split; vm_compute; reflexivity. Qed.

(* ================================================================== *)
(** * More on the name sanitiser *)

Module SanitizerMore.
Import PyStr Sanitizer SanitizerFacts.

Lemma letter_not_digit (c : ascii) :
  is_alpha_char c = true -> is_digit_char c = false.
Proof.
  destruct c as [[] [] [] [] [] [] [] []]; vm_compute; congruence.
Qed.

Lemma letter_not_underscore (c : ascii) :
  is_alpha_char c = true -> is_underscore c = false.
Proof.
  destruct c as [[] [] [] [] [] [] [] []]; vm_compute; congruence.
Qed.

Lemma word_char_cases (c : ascii) :
  is_word_char c = true -> is_digit_char c = false ->
  is_underscore c = false -> is_alpha_char c = true.
Proof.
  unfold is_word_char, is_alpha_char, is_underscore.
  intros H Hd Hu. rewrite Hd, Hu, !orb_false_r in H. exact H.
Qed.

Lemma finish_identifier (r : string) : tidy r -> is_identifier (finish r).
Proof.
  intros Ht. unfold finish.
  destruct r as [|c r']; [split; [reflexivity|]|].
  - split; [|split; [|split]]; reflexivity.
  - cbn [is_empty negb andb starts_with_digit].
    destruct (is_digit_char c) eqn:Hd.
    + change (is_empty ("col_" ++ String c r')) with false. cbv iota.
      split; [reflexivity|]. now apply tidy_col_prefix.
    + cbn [is_empty]. split; [|exact Ht].
      destruct Ht as (Hw & _ & Hs & _).
      cbn [all_chars] in Hw. apply andb_prop in Hw as [Hw _].
      cbn [starts_clean] in Hs. apply negb_true_iff in Hs.
      cbn [starts_with_letter]. now apply word_char_cases.
Qed.

(** X1: The sanitiser always answers a database identifier. *)
Theorem clean_column_name_identifier (name : string) :
  is_identifier (_clean_column_name name).
Proof.
  rewrite clean_column_name_stages. apply finish_identifier, clean_core_tidy.
Qed.

(** X2: The names that the sanitiser leaves as they are are exactly the
    identifiers. *)
Theorem clean_column_name_fixed_iff (name : string) :
  _clean_column_name name = name <-> is_identifier name.
Proof.
  split.
  - intros H. rewrite <- H, clean_column_name_stages.
    apply finish_identifier, clean_core_tidy.
  - intros [Hl Ht]. rewrite clean_column_name_stages, (clean_core_fixed _ Ht).
    unfold finish. destruct name as [|c r]; [discriminate|].
    cbn [starts_with_letter] in Hl.
    cbn [is_empty negb andb starts_with_digit].
    rewrite (letter_not_digit _ Hl). reflexivity.
Qed.

(** **** A trailing character outside the word class is lost *)

Lemma spec_collapse_snoc_us (m : list ascii) :
  spec_collapse (m ++ [underscore]) = (spec_collapse m ++ [underscore])%list
  \/ spec_collapse (m ++ [underscore]) = spec_collapse m.
Proof.
  induction m as [|c m IH]; [left; reflexivity|].
  destruct m as [|d m'].
  - cbn [app spec_collapse].
    destruct (is_underscore c) eqn:Hc.
    + right. apply is_underscore_eq in Hc. now subst c.
    + left. change (is_underscore underscore) with true.
      rewrite andb_false_l. reflexivity.
  - change ((c :: d :: m') ++ [underscore])%list
      with (c :: ((d :: m') ++ [underscore]))%list.
    change (spec_collapse (c :: ((d :: m') ++ [underscore])%list))
      with (if (is_underscore c && is_underscore d)%bool
            then spec_collapse ((d :: m') ++ [underscore])
            else c :: spec_collapse ((d :: m') ++ [underscore])).
    change (spec_collapse (c :: d :: m'))
      with (if (is_underscore c && is_underscore d)%bool
            then spec_collapse (d :: m')
            else c :: spec_collapse (d :: m')).
    destruct (is_underscore c && is_underscore d)%bool.
    + exact IH.
    + destruct IH as [-> | ->]; [left|right]; reflexivity.
Qed.

Lemma spec_trim_snoc_us (x : list ascii) :
  spec_trim (x ++ [underscore]) = spec_trim x.
Proof.
  unfold spec_trim. rewrite drop_leading_snoc.
  change (is_underscore underscore) with true.
  destruct (drop_leading x) as [|a l] eqn:E; [reflexivity|].
  rewrite rev_app_distr. reflexivity.
Qed.

Lemma spec_replace_snoc (l : list ascii) (c : ascii) :
  not_word_char c = true ->
  spec_replace (l ++ [c]) = (spec_replace l ++ [underscore])%list.
Proof.
  intros Hc. unfold spec_replace. rewrite map_app. simpl.
  unfold not_word_char in Hc. apply negb_true_iff in Hc. now rewrite Hc.
Qed.

(** X3: A header and the same header followed by a character outside
    [A-Za-z0-9_] get the same name: the sanitiser does not tell them
    apart. *)
Theorem clean_column_name_trailing (name : string) (c : ascii) :
  not_word_char c = true ->
  _clean_column_name (name ++ String c EmptyString) = _clean_column_name name.
Proof.
  intros Hc. rewrite !clean_column_name_refines. unfold sanitize_spec.
  rewrite list_of_append. cbn [list_ascii_of_string].
  rewrite (spec_replace_snoc _ _ Hc).
  destruct (spec_collapse_snoc_us (spec_replace (list_ascii_of_string name)))
    as [-> | ->]; [|reflexivity].
  now rewrite spec_trim_snoc_us.
Qed.

End SanitizerMore.

Lemma clean_column_name_trailing_witness :
  Sanitizer.not_word_char " " = true
  /\ Sanitizer._clean_column_name ("total" ++ " ")
     = Sanitizer._clean_column_name "total".
Proof.
  split; [reflexivity|].
  exact (SanitizerMore.clean_column_name_trailing "total" " " eq_refl).
Defined.

(* ================================================================== *)
(** * More on the type inferrer *)

Lemma re_match_prefix (p q : Re.pattern) : forall s,
  Re.re_match (p ++ q)%list s = true -> Re.re_match p s = true.
Proof.
  induction p as [|i p IH]; intros s H; [reflexivity|].
  destruct i as [n| |c]; cbn [app Re.re_match] in *.
  - destruct (Re.eat_digits n s); [now apply IH|discriminate].
  - destruct s as [|d r]; [discriminate|].
    destruct (Re.is_space_char d); [now apply IH|discriminate].
  - destruct s as [|d r]; [discriminate|].
    destruct (Ascii.eqb c d); [now apply IH|discriminate].
Qed.

(** A text that starts with a date-time pattern starts with a date
    pattern. *)
Lemma datetime_sample_is_date_sample (s : string) (k : bool) :
  first_match datetime_patterns s k = true ->
  first_match date_patterns s k = true.
Proof.
  intros H. apply first_match_exists in H as [(p & Hin & Hp) Hk].
  apply first_match_exists. split; [|exact Hk].
  destruct Hin as [<-|[<-|[]]].
  - exists [Re.Digits 4; Re.Lit "-"; Re.Digits 2; Re.Lit "-"; Re.Digits 2].
    split; [now left|].
    apply (re_match_prefix
             _ [Re.Spaces1; Re.Digits 2; Re.Lit ":"; Re.Digits 2; Re.Lit ":";
                Re.Digits 2]).
    exact Hp.
  - exists [Re.Digits 2; Re.Lit "/"; Re.Digits 2; Re.Lit "/"; Re.Digits 4].
    split; [right; now left|].
    apply (re_match_prefix
             _ [Re.Spaces1; Re.Digits 2; Re.Lit ":"; Re.Digits 2; Re.Lit ":";
                Re.Digits 2]).
    exact Hp.
Qed.

Lemma in_dropna_map {A B : Type} (f : A -> option B) (l : list A) (q : B) :
  In q (dropna (map f l)) <-> exists v, In v l /\ f v = Some q.
Proof.
  induction l as [|a l IH]; simpl.
  - split; [intros []|intros (v & [] & _)].
  - destruct (f a) as [b|] eqn:E; simpl; rewrite IH; split.
    + intros [<-|(v & Hv & Hq)]; [exists a; auto|exists v; auto].
    + intros (v & [<-|Hv] & Hq); [left; congruence|right; now exists v].
    + intros (v & Hv & Hq). exists v; auto.
    + intros (v & [<-|Hv] & Hq); [congruence|now exists v].
Qed.

Lemma max_len_from (l : list string) : forall a m,
  fold_left (fun acc s =>
               match acc with
               | None => Some (PyStr.len s)
               | Some a => Some (Z.max a (PyStr.len s))
               end) l (Some a) = Some m ->
  a <= m /\ (forall v, In v l -> PyStr.len v <= m)
  /\ (m = a \/ exists v, In v l /\ PyStr.len v = m).
Proof.
  induction l as [|x l IH]; intros a m H; simpl in H.
  - injection H as <-. split; [lia|]. split; [intros v []|now left].
  - apply IH in H as (Hle & Hall & Hex).
    split; [lia|]. split.
    + intros v [<-|Hv]; [lia|now apply Hall].
    + destruct Hex as [->|(v & Hv & Hm)].
      * destruct (Z.max_spec a (PyStr.len x)) as [[_ E]|[_ E]]; rewrite E.
        -- right. exists x. split; [now left|reflexivity].
        -- now left.
      * right. exists v. split; [now right|exact Hm].
Qed.

Lemma max_len_some (values : list string) (m : Z) :
  max_len values = Some m -> is_max_length values m.
Proof.
  unfold max_len. destruct values as [|x l]; [discriminate|]. simpl.
  intros H. apply max_len_from in H as (Hle & Hall & Hex). split.
  - destruct Hex as [->|(v & Hv & Hm)].
    + exists x. split; [now left|reflexivity].
    + exists v. split; [now right|exact Hm].
  - intros v [<-|Hv]; [exact Hle|now apply Hall].
Qed.

Section InferrerMore.

Variable to_numeric : string -> option Q.
Variable Timestamp : Type.
Variable to_datetime : list string -> list (option Timestamp).

Abbreviation infer' := (infer_sql_type to_numeric Timestamp to_datetime).
Abbreviation is_integer' := (_is_integer to_numeric).
Abbreviation is_float' := (_is_float to_numeric).
Abbreviation is_date' := (_is_date Timestamp to_datetime).
Abbreviation is_datetime' := (_is_datetime Timestamp to_datetime).

Lemma is_datetime_is_date (values : list string) :
  is_datetime' values = true -> is_date' values = true.
Proof.
  unfold _is_datetime, _is_date. destruct values as [|s r]; [discriminate|].
  apply datetime_sample_is_date_sample.
Qed.

Lemma varchar_or_text_cases (values : list string) (mvl : Z) :
  varchar_or_text values mvl = TEXT
  \/ exists n, varchar_or_text values mvl = VARCHAR n.
Proof.
  unfold varchar_or_text.
  destruct (max_len values) as [m|]; [|now left].
  destruct (mvl <? m); [now left|].
  destruct (Float64.to_int _) as [n|]; [right; now eexists|now left].
Qed.

(** X4: The inferrer never answers DATETIME: each date-time pattern starts
    with a date pattern, and the date check, which runs first, accepts
    whatever the date-time check would accept. *)
Theorem infer_never_datetime (series : Series) (mvl : Z) :
  infer' series mvl <> DATETIME.
Proof.
  rewrite infer_unfold.
  destruct (dropna series) as [|v l]; [discriminate|]. cbv zeta.
  destruct (_is_boolean (v :: l)); [discriminate|].
  destruct (is_integer' (v :: l)).
  { repeat match goal with
           | |- context [if ?b then _ else _] => destruct b
           end; discriminate. }
  destruct (is_float' (v :: l)); [discriminate|].
  destruct (is_date' (v :: l)) eqn:Hd; [discriminate|].
  destruct (is_datetime' (v :: l)) eqn:Hdt.
  - apply is_datetime_is_date in Hdt. congruence.
  - destruct (varchar_or_text_cases (v :: l) mvl) as [->|[n ->]];
      discriminate.
Qed.

Lemma is_boolean_tokens (values : list string) :
  _is_boolean values = true <-> all_boolean_tokens values.
Proof.
  unfold _is_boolean, all_boolean_tokens.
  rewrite forallb_forall, Forall_forall.
  split; intros H v Hv; specialize (H v Hv).
  - unfold mem_string in H. apply existsb_exists in H as (t & Ht & E).
    apply String.eqb_eq in E. now subst.
  - unfold mem_string. apply existsb_exists.
    exists (PyStr.lower v). split; [exact H|apply String.eqb_refl].
Qed.

(** X5: The inferrer answers BOOLEAN exactly for a column that has a non-null
    value and whose non-null values are all boolean tokens; the tokens 1
    and 0 make a column of zeros and ones BOOLEAN, not TINYINT. *)
Theorem infer_boolean_iff (series : Series) (mvl : Z) :
  infer' series mvl = BOOLEAN
  <-> dropna series <> [] /\ all_boolean_tokens (dropna series).
Proof.
  rewrite <- is_boolean_tokens, infer_unfold.
  destruct (dropna series) as [|v l].
  - split; [discriminate|intros [H _]; congruence].
  - cbv zeta. destruct (_is_boolean (v :: l)).
    + split; [split; [discriminate|reflexivity]|reflexivity].
    + split; [|intros [_ H]; discriminate].
      destruct (is_integer' (v :: l)).
      { repeat match goal with
               | |- context [if ?b then _ else _] => destruct b
               end; discriminate. }
      destruct (is_float' (v :: l)); [discriminate|].
      destruct (is_date' (v :: l)); [discriminate|].
      destruct (is_datetime' (v :: l)); [discriminate|].
      destruct (varchar_or_text_cases (v :: l) mvl) as [->|[n ->]];
        discriminate.
Qed.

Lemma forallb_false_exists {A : Type} (p : A -> bool) (l : list A) :
  forallb p l = false <-> exists x, In x l /\ p x = false.
Proof.
  induction l as [|a l IH]; simpl.
  - split; [discriminate|intros (x & [] & _)].
  - destruct (p a) eqn:E; simpl.
    + rewrite IH. split.
      * intros (x & Hx & Hp). exists x; auto.
      * intros (x & [<-|Hx] & Hp); [congruence|now exists x].
    + split; [intros _; exists a; auto|reflexivity].
Qed.

Lemma is_float_fraction (values : list string) :
  is_float' values = true <-> some_fraction to_numeric values.
Proof.
  unfold _is_float, some_fraction.
  destruct (dropna (map to_numeric values)) as [|q l] eqn:E.
  - split; [discriminate|].
    intros (v & q & Hv & Hq & _).
    assert (Hin : In q (dropna (map to_numeric values)))
      by (apply in_dropna_map; now exists v).
    rewrite E in Hin. destruct Hin.
  - rewrite negb_true_iff, forallb_false_exists, <- E. split.
    + intros (x & Hx & Hp). apply in_dropna_map in Hx as (v & Hv & Hq).
      now exists v, x.
    + intros (v & x & Hv & Hq & Hp). exists x. split; [|exact Hp].
      apply in_dropna_map. now exists v.
Qed.

Lemma is_float_not_integer (values : list string) :
  is_float' values = true -> is_integer' values = false.
Proof.
  unfold _is_float, _is_integer.
  destruct (dropna (map to_numeric values)); [discriminate|].
  now rewrite negb_true_iff.
Qed.

(** X6: The inferrer answers DECIMAL(10,2) exactly for a column that is not made
    of boolean tokens and has a value read as a number that is not
    integral; the other values may be integers or may not parse at all. *)
Theorem infer_decimal_iff (series : Series) (mvl : Z) :
  infer' series mvl = DECIMAL_10_2
  <-> _is_boolean (dropna series) = false
      /\ some_fraction to_numeric (dropna series).
Proof.
  rewrite <- is_float_fraction, infer_unfold.
  destruct (dropna series) as [|v l].
  - split; [discriminate|intros [H _]; discriminate].
  - cbv zeta. destruct (_is_boolean (v :: l)).
    + split; [discriminate|intros [H _]; discriminate].
    + destruct (is_float' (v :: l)) eqn:Hf.
      * rewrite (is_float_not_integer _ Hf). split; auto.
      * split; [|intros [_ H]; discriminate].
        destruct (is_integer' (v :: l)).
        { repeat match goal with
                 | |- context [if ?b then _ else _] => destruct b
                 end; discriminate. }
        destruct (is_date' (v :: l)); [discriminate|].
        destruct (is_datetime' (v :: l)); [discriminate|].
        destruct (varchar_or_text_cases (v :: l) mvl) as [->|[n ->]];
          discriminate.
Qed.

End InferrerMore.

Section InferrerRanges.

Variable to_numeric : string -> option Q.
Variable Timestamp : Type.
Variable to_datetime : list string -> list (option Timestamp).

Abbreviation infer'' := (infer_sql_type to_numeric Timestamp to_datetime).

Lemma infer_integer_branch (series : Series) (mvl : Z) :
  is_integer_type (infer'' series mvl) = true ->
  dropna (map to_numeric (dropna series)) <> []
  /\ forallb float_is_integer (dropna (map to_numeric (dropna series))) = true
  /\ infer'' series mvl
     = narrowest_integer_type (dropna (map to_numeric (dropna series))).
Proof.
  rewrite infer_unfold.
  destruct (dropna series) as [|v l] eqn:E; [discriminate|]. cbv zeta.
  destruct (_is_boolean (v :: l)); [discriminate|].
  destruct (_is_integer to_numeric (v :: l)) eqn:Hi.
  - intros _. pose proof (is_integer_some _ _ Hi) as Hne.
    split; [exact Hne|]. split.
    + unfold _is_integer in Hi.
      now destruct (dropna (map to_numeric (v :: l))).
    + rewrite !min_max_within by exact Hne. reflexivity.
  - destruct (_is_float to_numeric (v :: l)); [discriminate|].
    destruct (_is_date Timestamp to_datetime (v :: l)); [discriminate|].
    destruct (_is_datetime Timestamp to_datetime (v :: l)); [discriminate|].
    destruct (varchar_or_text_cases (v :: l) mvl) as [->|[n ->]];
      discriminate.
Qed.

(** X7: When the inferrer answers an integer type, every value of the column
    that parses is integral and, for TINYINT, SMALLINT and INT, lies in the
    range of the type. *)
Theorem infer_integer_type_holds_values (series : Series) (mvl : Z)
        (v : string) (q : Q) :
  is_integer_type (infer'' series mvl) = true ->
  In v (dropna series) -> to_numeric v = Some q ->
  float_is_integer q = true
  /\ forall lo hi, integer_range (infer'' series mvl) = Some (lo, hi) ->
                   within lo hi q = true.
Proof.
  intros Ht Hv Hq.
  destruct (infer_integer_branch series mvl Ht) as (_ & Hint & Hn).
  assert (Hin : In q (dropna (map to_numeric (dropna series))))
    by (apply in_dropna_map; now exists v).
  split; [exact (proj1 (forallb_forall _ _) Hint q Hin)|].
  intros lo hi Hr. rewrite Hn in Hr. unfold narrowest_integer_type in Hr.
  destruct (forallb (within (-128) 127) _) eqn:E1.
  { injection Hr as <- <-. exact (proj1 (forallb_forall _ _) E1 q Hin). }
  destruct (forallb (within (-32768) 32767) _) eqn:E2.
  { injection Hr as <- <-. exact (proj1 (forallb_forall _ _) E2 q Hin). }
  destruct (forallb (within (- 2 ^ 31) (2 ^ 31 - 1)) _) eqn:E3.
  { injection Hr as <- <-. exact (proj1 (forallb_forall _ _) E3 q Hin). }
  discriminate.
Qed.

(** X8: When the inferrer answers VARCHAR(n), under a bound of at most 65535,
    every non-null value of the column has at most n characters, and n is
    at most the bound. *)
Theorem infer_varchar_holds_values (series : Series) (mvl n : Z) :
  mvl <= 65535 ->
  infer'' series mvl = VARCHAR n ->
  n <= mvl /\ forall v, In v (dropna series) -> PyStr.len v <= n.
Proof.
  intros Hb. rewrite infer_unfold.
  destruct (dropna series) as [|x l] eqn:E; [discriminate|]. cbv zeta.
  destruct (_is_boolean (x :: l)); [discriminate|].
  destruct (_is_integer to_numeric (x :: l)).
  { repeat match goal with
           | |- context [if ?b then _ else _] => destruct b
           end; discriminate. }
  destruct (_is_float to_numeric (x :: l)); [discriminate|].
  destruct (_is_date Timestamp to_datetime (x :: l)); [discriminate|].
  destruct (_is_datetime Timestamp to_datetime (x :: l)); [discriminate|].
  unfold varchar_or_text.
  destruct (max_len (x :: l)) as [m|] eqn:Hm; [|discriminate].
  apply max_len_some in Hm as [(w & _ & Hw) Hall].
  assert (H0 : 0 <= m) by (rewrite <- Hw; apply len_nonneg).
  destruct (mvl <? m) eqn:Hlt; [discriminate|].
  apply Z.ltb_ge in Hlt.
  rewrite scale_floor by lia.
  assert (Hk : m <= 6 * m / 5) by (apply Z.div_le_lower_bound; lia).
  remember (6 * m / 5) as k eqn:Ek.
  intros H. injection H as <-.
  split; [lia|].
  intros v Hv. specialize (Hall v Hv). lia.
Qed.

End InferrerRanges.

Lemma infer_integer_type_holds_values_witness :
  is_integer_type (Plain.infer [Some "200"; Some "x"; Some "-5"]) = true
  /\ float_is_integer (200 # 1) = true
  /\ within (-32768) 32767 (200 # 1) = true.
Proof.
  split; [reflexivity|].
  destruct (infer_integer_type_holds_values
              Plain.to_numeric Plain.Timestamp Plain.to_datetime
              [Some "200"; Some "x"; Some "-5"] default_max_varchar_length
              "200" (200 # 1) eq_refl (or_introl eq_refl) eq_refl)
    as [Hi Hr].
  split; [exact Hi|]. exact (Hr _ _ eq_refl).
Defined.

Lemma infer_varchar_holds_values_witness :
  default_max_varchar_length <= 65535
  /\ Plain.infer [Some "hello"; None; Some "abc"] = VARCHAR 6
  /\ 6 <= default_max_varchar_length
  /\ PyStr.len "hello" <= 6.
Proof.
  assert (Hb : default_max_varchar_length <= 65535)
    by (vm_compute; discriminate).
  assert (Hi : Plain.infer [Some "hello"; None; Some "abc"] = VARCHAR 6)
    by (vm_compute; reflexivity).
  destruct (infer_varchar_holds_values
              Plain.to_numeric Plain.Timestamp Plain.to_datetime
              [Some "hello"; None; Some "abc"] default_max_varchar_length 6
              Hb Hi) as [Hn Hall].
  split; [exact Hb|]. split; [exact Hi|]. split; [exact Hn|].
  exact (Hall "hello" (or_introl eq_refl)).
Defined.

(* ================================================================== *)
(** * More on the minimal implementation *)

Lemma ascii_not_continuation (c : ascii) :
  is_ascii_char c = true -> PyStr.is_continuation_byte c = false.
Proof.
  destruct c as [[] [] [] [] [] [] [] []]; vm_compute; congruence.
Qed.

Lemma len_ascii (s : string) :
  ascii_text s -> PyStr.len s = Z.of_nat (String.length s).
Proof.
  unfold ascii_text, is_ascii_text, PyStr.len. intros H. f_equal.
  induction s as [|c r IH]; [reflexivity|].
  cbn [PyStr.all_chars] in H. apply andb_prop in H as [Hc Hr].
  cbn [PyStr.char_count String.length].
  now rewrite (ascii_not_continuation c Hc), (IH Hr).
Qed.

Lemma digit_is_ascii (c : ascii) :
  PyStr.is_digit_char c = true -> is_ascii_char c = true.
Proof.
  destruct c as [[] [] [] [] [] [] [] []]; vm_compute; congruence.
Qed.

Lemma only_digits_ascii (value : string) :
  only_digits value -> ascii_text value.
Proof.
  intros [_ H]. unfold ascii_text, is_ascii_text.
  induction value as [|c r IH]; [reflexivity|].
  simpl in H. inversion H as [|? ? Hc Hr]; subst.
  cbn [PyStr.all_chars]. now rewrite (digit_is_ascii c Hc), (IH Hr).
Qed.

Lemma data_types_fold (row : list string) : forall acc,
  fold_left data_types_step row acc
  = (acc ++ map data_type_of (filter gets_data_type row))%list.
Proof.
  induction row as [|i row IH]; intros acc; simpl.
  - now rewrite app_nil_r.
  - rewrite IH. unfold data_types_step, gets_data_type.
    assert (T : forall t, data_type_of i = t ->
                          ((acc ++ [t]) ++ map data_type_of
                                                (filter gets_data_type row)
                           = acc ++ map data_type_of
                                        (i :: filter gets_data_type row))%list).
    { intros t <-. now rewrite <- app_assoc. }
    unfold data_type_of in T.
    destruct (PyStr.isalpha i); cbn [orb]; [now apply T|].
    destruct (PyStr.isdigit i); cbn [orb]; [now apply T|].
    destruct (PyStr.contains_char "." i); [now apply T|reflexivity].
Qed.

(** X11: On a second row of ASCII text, the types that [create_table] infers
    are those of the values made of letters, made of digits, or holding a
    dot, in order: a value of another shape gets no type, so that the types
    of the values after it move one place to the left.  On any row, no type
    is ever "date" or "str". *)
Theorem infer_data_types_skips_values (second_row_data : list string) :
  (forallb is_ascii_text second_row_data = true ->
   infer_data_types second_row_data
   = map data_type_of (filter gets_data_type second_row_data))
  /\ forall t, In t (infer_data_types second_row_data) ->
               t = "varchar(255)" \/ t = "int(11)" \/ t = "float".
Proof.
  assert (E : infer_data_types second_row_data
              = map data_type_of (filter gets_data_type second_row_data)).
  { unfold infer_data_types. now rewrite data_types_fold. }
  split; [intros _; exact E|].
  intros t Ht. rewrite E in Ht. apply in_map_iff in Ht as (i & <- & _).
  unfold data_type_of.
  destruct (PyStr.isalpha i); [now left|].
  destruct (PyStr.isdigit i); [right; now left|right; now right].
Qed.

(** **** [int] on digit strings *)

Lemma int_acc_zero (s : string) : PyStr.int_acc 0 (String "0" s) = PyStr.int_acc 0 s.
Proof. reflexivity. Qed.

Lemma only_digits_cons (c : ascii) (s : string) :
  PyStr.is_digit_char c = true -> only_digits s -> only_digits (String c s).
Proof.
  intros Hc [_ Hs]. split; [discriminate|]. simpl. now constructor.
Qed.

(** X12: A digit field with leading zeros becomes the same integer as the field
    without them: the zeros of 007 are lost.  The field has fewer than 4300
    digits, so that [int] accepts it with one more. *)
Theorem format_value_leading_zero (value : string) :
  only_digits value ->
  (String.length value < int_max_str_digits)%nat ->
  format_value (String "0" value) = format_value value.
Proof.
  intros H _.
  rewrite (format_value_digits _ H).
  rewrite (format_value_digits _ (only_digits_cons "0" _ eq_refl H)).
  reflexivity.
Qed.

Lemma int_acc_snoc (s : string) (d : ascii) : forall acc,
  PyStr.int_acc acc (s ++ String d EmptyString)
  = 10 * PyStr.int_acc acc s + PyStr.digit_value d.
Proof.
  induction s as [|c r IH]; intros acc; simpl; [reflexivity|apply IH].
Qed.

Lemma digit_value_range (c : ascii) :
  PyStr.is_digit_char c = true -> 0 <= PyStr.digit_value c <= 9.
Proof.
  destruct c as [[] [] [] [] [] [] [] []]; vm_compute;
    try discriminate; intros _; split; discriminate.
Qed.

Lemma int_acc_bounds (s : string) : forall acc,
  0 <= acc ->
  Forall (fun c => PyStr.is_digit_char c = true) (list_ascii_of_string s) ->
  acc * 10 ^ Z.of_nat (String.length s) <= PyStr.int_acc acc s
  < (acc + 1) * 10 ^ Z.of_nat (String.length s).
Proof.
  induction s as [|c r IH]; intros acc Hacc Hall.
  - simpl. lia.
  - simpl in Hall. inversion Hall as [|? ? Hc Hr]; subst.
    pose proof (digit_value_range c Hc) as Hd.
    cbn [PyStr.int_acc String.length].
    rewrite Nat2Z.inj_succ, Z.pow_succ_r by lia.
    specialize (IH (10 * acc + PyStr.digit_value c) ltac:(lia) Hr).
    assert (Hp : 0 < 10 ^ Z.of_nat (String.length r))
      by (apply Z.pow_pos_nonneg; lia).
    nia.
Qed.

Lemma only_digits_snoc (value : string) (d : ascii) :
  only_digits value -> PyStr.is_digit_char d = true ->
  only_digits (value ++ String d EmptyString).
Proof.
  intros [_ H] Hd. split.
  - destruct value; discriminate.
  - induction value as [|c r IH]; simpl.
    + repeat constructor. exact Hd.
    + simpl in H. inversion H as [|? ? Hc Hr]; subst.
      constructor; [exact Hc|now apply IH].
Qed.

(** X13: The integer that [csv_data] makes of a digit field of fewer than 4300
    digits is its decimal value: it is not negative, it is below ten to the
    number of digits, and a digit appended multiplies it by ten and adds
    the digit. *)
Theorem int_decimal_value (value : string) :
  only_digits value ->
  (String.length value < int_max_str_digits)%nat ->
  exists n,
    format_value value = PInt n
    /\ 0 <= n < 10 ^ PyStr.len value
    /\ forall d, PyStr.is_digit_char d = true ->
                 format_value (value ++ String d EmptyString)
                 = PInt (10 * n + PyStr.digit_value d).
Proof.
  intros Hd _. exists (PyStr.int value).
  split; [now apply format_value_digits|]. split.
  - destruct Hd as [Hne Hall].
    pose proof (int_acc_bounds value 0 ltac:(lia) Hall) as H.
    rewrite (len_ascii value (only_digits_ascii value (conj Hne Hall))).
    unfold PyStr.int. lia.
  - intros d Hc.
    rewrite (format_value_digits _ (only_digits_snoc value d Hd Hc)).
    unfold PyStr.int. now rewrite int_acc_snoc.
Qed.

(** **** Merging twice *)

Lemma py_eq_refl (v : pyval) : py_eq v v = true.
Proof.
  destruct v as [n|s| |q|y m d]; simpl.
  - apply Z.eqb_refl.
  - apply String.eqb_refl.
  - reflexivity.
  - apply Qeq_bool_iff. reflexivity.
  - now rewrite !Z.eqb_refl.
Qed.

Lemma row_eq_refl (r : list pyval) : row_eq r r = true.
Proof.
  induction r as [|v r IH]; simpl; [reflexivity|].
  now rewrite py_eq_refl, IH.
Qed.

Lemma row_in_self (r : list pyval) (rows : list (list pyval)) :
  In r rows -> row_in r rows = true.
Proof.
  intros H. unfold row_in. apply existsb_exists.
  exists r. split; [exact H|apply row_eq_refl].
Qed.

Lemma row_in_app (r : list pyval) (a b : list (list pyval)) :
  row_in r (a ++ b) = (row_in r a || row_in r b)%bool.
Proof. unfold row_in. apply existsb_app. Qed.

Lemma filter_nil_iff {A : Type} (f : A -> bool) (l : list A) :
  (forall x, In x l -> f x = false) -> filter f l = [].
Proof.
  induction l as [|a l IH]; intros H; simpl; [reflexivity|].
  rewrite (H a (or_introl eq_refl)). apply IH. intros x Hx. apply H. now right.
Qed.

(** X15: Once the rows that a merge inserted stand in the table after the rows
    it held, with the cells as they were written, merging the same data
    again inserts nothing. *)
Theorem merge_twice_inserts_nothing
        (existing_data csv_data_list : list (list pyval)) :
  new_data_to_insert
    (existing_data ++ new_data_to_insert existing_data csv_data_list)
    csv_data_list = [].
Proof.
  unfold new_data_to_insert at 1. apply filter_nil_iff.
  intros row Hrow. rewrite negb_false_iff, row_in_app.
  destruct (row_in row existing_data) eqn:E; [reflexivity|].
  simpl. apply row_in_self. unfold new_data_to_insert.
  apply filter_In. split; [exact Hrow|now rewrite E].
Qed.

Section MinimalMore.

Variable csv_reader : string -> list (list string).

Abbreviation merge' := (newchanges_existingtable_table csv_reader).
Abbreviation create := (create_table csv_reader).


(** **** The statements of [create_table] *)

Lemma alter_loop (table : string) (header types : list string) :
  forall (cols tys : list string) (k : nat) (log : list stmt),
    (forall j, nth_error header (k + j) = nth_error cols j) ->
    (forall j, nth_error types (k + j) = nth_error tys j) ->
    for_each (seq k (List.length cols))
             (fun i =>
                c <- index header i ;;
                t <- index types i ;;
                execute (AlterTableAdd table c t)) log
    = ((log ++ alter_statements table cols tys)%list,
       if (List.length cols <=? List.length tys)%nat
       then inr tt else inl IndexError).
Proof.
  induction cols as [|c cols IH]; intros tys k log Hh Ht.
  - simpl. unfold ret, alter_statements. simpl. now rewrite app_nil_r.
  - cbn [List.length seq for_each]. unfold bind at 1.
    unfold bind at 1, index at 1.
    pose proof (Hh O) as Hc. rewrite Nat.add_0_r in Hc. cbn in Hc.
    rewrite Hc. unfold ret at 1. unfold bind at 1, index at 1.
    pose proof (Ht O) as Htk. rewrite Nat.add_0_r in Htk. rewrite Htk.
    destruct tys as [|t tys].
    + cbn. unfold raise, alter_statements. cbn. now rewrite app_nil_r.
    + cbn [nth_error]. unfold ret at 1, execute at 1.
      rewrite (IH tys (S k)).
      * unfold alter_statements. cbn [combine map fst snd List.length].
        rewrite <- app_assoc. reflexivity.
      * intros j. specialize (Hh (S j)).
        now rewrite Nat.add_succ_r in Hh.
      * intros j. specialize (Ht (S j)).
        now rewrite Nat.add_succ_r in Ht.
Qed.

(** X16: [create_table] runs no statement when the file does not exist or has
    fewer than two rows: FileNotFoundError, or StopIteration, is raised
    first. *)
Theorem create_table_needs_two_rows (fs : filesystem)
        (current_db file_path table_name existing_table : string)
        (fetched : list (list pyval)) :
  (fs file_path = None ->
   run (create fs current_db file_path table_name existing_table fetched)
   = ([], inl FileNotFoundError))
  /\ (forall text,
         open_read fs file_path = inr text ->
         (List.length (csv_reader text) < 2)%nat ->
         run (create fs current_db file_path table_name existing_table fetched)
         = ([], inl StopIteration)).
Proof.
  split.
  - intros H. unfold run, create_table, bind, lift, open_read. now rewrite H.
  - intros text H Hlen. unfold run, create_table, bind, lift. rewrite H.
    destruct (csv_reader text) as [|r1 [|r2 rest]]; [reflexivity|reflexivity|].
    simpl in Hlen. lia.
Qed.

Lemma create_table_run (fs : filesystem)
      (current_db file_path table_name existing_table text c0 t0 : string)
      (fetched : list (list pyval))
      (cols second tys : list string) (rest : list (list string)) :
  open_read fs file_path = inr text ->
  csv_reader text = (c0 :: cols) :: second :: rest ->
  infer_data_types second = t0 :: tys ->
  String.eqb table_name "no" = false ->
  run (create fs current_db file_path table_name existing_table fetched)
  = if (List.length cols <=? List.length tys)%nat then
      (([Use current_db; ShowTables; CreateTable table_name c0 t0]
          ++ alter_statements table_name cols tys
          ++ map (InsertValues table_name)
                 (map (map format_value) (second :: rest))
          ++ [Commit])%list, inr tt)
    else
      (([Use current_db; ShowTables; CreateTable table_name c0 t0]
          ++ alter_statements table_name cols tys)%list, inl IndexError).
Proof.
  intros Hopen Hrows Htypes Hno.
  assert (Hcsv : csv_data csv_reader fs file_path
                 = inr (map (map format_value)
                            ((c0 :: cols) :: second :: rest))).
  { unfold csv_data. now rewrite Hopen, Hrows. }
  unfold run, create_table.
  unfold bind at 1, lift at 1. rewrite Hopen, Hrows.
  unfold bind at 1, next at 1, ret at 1. cbv iota beta.
  unfold bind at 1, next at 1, ret at 1. cbv iota beta.
  rewrite Htypes, Hno. cbn [negb].
  unfold bind at 1, execute at 1. cbn [app].
  unfold bind at 1, execute at 1. cbn [app].
  unfold bind at 1, index at 1. cbn [nth_error]. unfold ret at 1.
  unfold bind at 1, index at 1. cbn [nth_error]. unfold ret at 1.
  unfold bind at 1, execute at 1. cbn [app].
  unfold bind at 1.
  cbn [List.length]. rewrite Nat.sub_succ, Nat.sub_0_r.
  rewrite (alter_loop table_name (c0 :: cols) (t0 :: tys) cols tys 1);
    [|intros j; reflexivity|intros j; reflexivity].
  destruct (List.length cols <=? List.length tys)%nat; [|reflexivity].
  unfold bind at 1, lift at 1. rewrite Hcsv.
  unfold bind at 1. cbn [tl map]. rewrite for_each_insert.
  unfold execute. rewrite <- !app_assoc. reflexivity.
Qed.

(** X17: On a file of ASCII fields of at most 4300 characters, with a header
    and a second row whose values all get a type, [create_table] creates
    the table with the first column, adds the other columns of the header,
    inserts every data row of the file, the row that served for the types
    included and without looking for duplicates, and commits once. *)
Theorem create_table_inserts_every_row (fs : filesystem)
        (current_db file_path table_name existing_table text c0 t0 : string)
        (fetched : list (list pyval))
        (cols second tys : list string) (rest : list (list string)) :
  open_read fs file_path = inr text ->
  csv_reader text = (c0 :: cols) :: second :: rest ->
  plain_rows ((c0 :: cols) :: second :: rest) ->
  infer_data_types second = t0 :: tys ->
  String.eqb table_name "no" = false ->
  (List.length cols <= List.length tys)%nat ->
  run (create fs current_db file_path table_name existing_table fetched)
  = (([Use current_db; ShowTables; CreateTable table_name c0 t0]
        ++ alter_statements table_name cols tys
        ++ map (InsertValues table_name)
               (map (map format_value) (second :: rest))
        ++ [Commit])%list, inr tt).
Proof.
  intros Hopen Hrows _ Htypes Hno Hlen.
  rewrite (create_table_run _ _ _ _ _ _ _ _ _ _ _ _ _ Hopen Hrows Htypes Hno).
  apply Nat.leb_le in Hlen. now rewrite Hlen.
Qed.

(** X18: When the second row, of ASCII text, yields fewer types than the header
    has fields, [create_table] creates the table, adds one column per type
    it has, and raises IndexError: the table is left with a part of its
    columns, no row is inserted and nothing is committed. *)
Theorem create_table_leaves_partial_table (fs : filesystem)
        (current_db file_path table_name existing_table text c0 t0 : string)
        (fetched : list (list pyval))
        (cols second tys : list string) (rest : list (list string)) :
  open_read fs file_path = inr text ->
  csv_reader text = (c0 :: cols) :: second :: rest ->
  forallb is_ascii_text second = true ->
  infer_data_types second = t0 :: tys ->
  String.eqb table_name "no" = false ->
  (List.length tys < List.length cols)%nat ->
  run (create fs current_db file_path table_name existing_table fetched)
  = (([Use current_db; ShowTables; CreateTable table_name c0 t0]
        ++ alter_statements table_name cols tys)%list, inl IndexError)
  /\ inserted_rows
       (fst (run (create fs current_db file_path table_name existing_table
                         fetched))) = []
  /\ List.length (alter_statements table_name cols tys) = List.length tys.
Proof.
  intros Hopen Hrows _ Htypes Hno Hlen.
  rewrite (create_table_run _ _ _ _ _ _ _ _ _ _ _ _ _ Hopen Hrows Htypes Hno).
  apply Nat.leb_gt in Hlen as Hleb. rewrite Hleb.
  split; [reflexivity|]. split.
  - cbn [fst]. rewrite inserted_rows_app. cbn.
    unfold alter_statements, inserted_rows.
    induction (combine cols tys) as [|ct l IH]; [reflexivity|exact IH].
  - unfold alter_statements. rewrite length_map, length_combine. lia.
Qed.

(** With the answer "no", [create_table] creates nothing: after USE and
    SHOW TABLES it runs the merge into the existing table. *)
Theorem create_table_no_is_merge (fs : filesystem)
        (current_db file_path existing_table text : string)
        (fetched : list (list pyval))
        (first second : list string) (rest : list (list string)) :
  open_read fs file_path = inr text ->
  csv_reader text = first :: second :: rest ->
  run (create fs current_db file_path "no" existing_table fetched)
  = (([Use current_db; ShowTables]
        ++ fst (run (merge' fs file_path existing_table fetched)))%list,
     snd (run (merge' fs file_path existing_table fetched))).
Proof.
  intros Hopen Hrows.
  assert (Hcsv : csv_data csv_reader fs file_path
                 = inr (map (map format_value) (first :: second :: rest))).
  { unfold csv_data. now rewrite Hopen, Hrows. }
  rewrite (merge_run csv_reader _ _ _ _ _ Hcsv).
  unfold run, create_table.
  unfold bind at 1, lift at 1. rewrite Hopen, Hrows.
  unfold bind at 1, next at 1, ret at 1. cbv iota beta.
  unfold bind at 1, next at 1, ret at 1. cbv iota beta.
  unfold bind at 1, execute at 1. cbn [app].
  unfold bind at 1, execute at 1. cbn [app String.eqb Ascii.eqb Bool.eqb negb].
  unfold newchanges_existingtable_table.
  unfold bind at 1, execute at 1. cbn [app].
  unfold bind at 1, lift at 1. rewrite Hcsv.
  destruct (new_data_to_insert fetched _) as [|r rows]; [reflexivity|].
  unfold bind at 1. rewrite for_each_insert. reflexivity.
Qed.

End MinimalMore.

(* ================================================================== *)
(** * Configuration *)

Lemma dict_get_set {V : Type} (k k' : string) (v : V) (d : list (string * V)) :
  dict_get k (dict_set k' v d)
  = if String.eqb k k' then Some v else dict_get k d.
Proof.
  induction d as [|[k0 v0] d IH]; simpl.
  - reflexivity.
  - destruct (String.eqb k' k0) eqn:E; simpl.
    + apply String.eqb_eq in E. subst k0.
      destruct (String.eqb k k'); reflexivity.
    + rewrite IH. destruct (String.eqb k k0) eqn:E0; [|reflexivity].
      apply String.eqb_eq in E0. subst k0.
      destruct (String.eqb k k') eqn:E1; [|reflexivity].
      apply String.eqb_eq in E1. subst k'. rewrite String.eqb_refl in E.
      discriminate.
Qed.

Lemma dict_get_in_keys {V : Type} (k : string) (d : list (string * V)) :
  dict_get k d <> None <-> In k (keys d).
Proof.
  induction d as [|[k0 v0] d IH]; simpl.
  - split; [congruence|intros []].
  - destruct (String.eqb k k0) eqn:E.
    + apply String.eqb_eq in E. subst. split; [now left|discriminate].
    + rewrite IH. split; [now right|].
      intros [->|H]; [|exact H]. rewrite String.eqb_refl in E. discriminate.
Qed.

Lemma keys_dict_set_old {V : Type} (k : string) (v : V)
      (d : list (string * V)) :
  In k (keys d) -> keys (dict_set k v d) = keys d.
Proof.
  induction d as [|[k0 v0] d IH]; simpl; [intros []|]. intros H.
  destruct (String.eqb k k0) eqn:E.
  - apply String.eqb_eq in E. now subst.
  - simpl. f_equal. apply IH. destruct H as [->|H]; [|exact H].
    rewrite String.eqb_refl in E. discriminate.
Qed.

Lemma keys_dict_set_grows {V : Type} (k : string) (v : V)
      (d : list (string * V)) :
  exists extra, keys (dict_set k v d) = (keys d ++ extra)%list.
Proof.
  destruct (in_dec string_dec k (keys d)) as [H|H].
  - exists []. now rewrite keys_dict_set_old, app_nil_r.
  - exists [k]. now apply keys_dict_set_new.
Qed.

Module ConfigFacts.
Import ConfigManager.

Lemma merge_items_nil (base : list (string * cfg)) : merge_items [] base = base.
Proof. reflexivity. Qed.

Lemma merge_items_cons (key : string) (value : cfg)
      (rest base : list (string * cfg)) :
  merge_items ((key, value) :: rest) base
  = merge_items rest (dict_set key (merged_entry (dict_get key base) value) base).
Proof.
  unfold merge_items, merged_entry. cbn [merge_dict].
  destruct (dict_get key base) as [[]|]; try reflexivity.
  destruct value; reflexivity.
Qed.

(** X19: [_merge_config] keeps the keys of [base], in their order, and appends
    the new ones: it never removes a setting. *)
Theorem merge_keeps_keys (override : list (string * cfg)) :
  forall base, exists extra,
      keys (merge_items override base) = (keys base ++ extra)%list.
Proof.
  induction override as [|[key value] rest IH]; intros base.
  - exists []. now rewrite merge_items_nil, app_nil_r.
  - rewrite merge_items_cons.
    destruct (IH (dict_set key (merged_entry (dict_get key base) value) base))
      as [e2 E2].
    destruct (keys_dict_set_grows
                key (merged_entry (dict_get key base) value) base)
      as [e1 E1].
    exists (e1 ++ e2)%list. now rewrite E2, E1, app_assoc.
Qed.

Lemma merge_lookup_core (override : list (string * cfg)) :
  forall (base : list (string * cfg)) (k : string),
    NoDup (keys override) ->
    dict_get k (merge_items override base)
    = match dict_get k override with
      | None => dict_get k base
      | Some value => Some (merged_entry (dict_get k base) value)
      end.
Proof.
  induction override as [|[key value] rest IH]; intros base k Hnd.
  - reflexivity.
  - rewrite merge_items_cons. simpl in Hnd.
    apply NoDup_cons_iff in Hnd as [Hnew Hnd].
    rewrite (IH _ k Hnd), dict_get_set. cbn [dict_get].
    destruct (String.eqb k key) eqn:E.
    + apply String.eqb_eq in E. subst key.
      destruct (dict_get k rest) eqn:G; [|reflexivity].
      elim Hnew. apply dict_get_in_keys. congruence.
    + reflexivity.
Qed.

(** X20: After [_merge_config], a key of [override] holds the value of
    [override], or the merge of the two values when both are dictionaries;
    a key that [override] does not have keeps the value of [base]. *)
Theorem merge_lookup (override base : list (string * cfg)) (k : string) :
  NoDup (keys override) ->
  dict_get k (merge_items override base)
  = match dict_get k override with
    | None => dict_get k base
    | Some value => Some (merged_entry (dict_get k base) value)
    end.
Proof.
  intros Hnd. apply merge_lookup_core. exact Hnd.
Qed.


(** **** [_set_nested_value] *)

Lemma walkable_empty (keys : list string) : walkable keys (CDict []).
Proof. destruct keys; exact I. Qed.

Lemma set_nested_lookup (keys : list string) (last value : string) :
  forall cur cur',
    set_nested keys last value cur = inr cur' ->
    exists v, stored_value last value = inr v
              /\ lookup_path (keys ++ [last]) cur' = Some v.
Proof.
  induction keys as [|k rest IH]; intros cur cur' H; cbn [set_nested] in H.
  - destruct (stored_value last value) as [e|v]; [discriminate|].
    destruct cur; try discriminate. injection H as <-.
    exists v. split; [reflexivity|].
    cbn [app lookup_path]. now rewrite dict_get_set, String.eqb_refl.
  - destruct cur; try discriminate.
    set (d1 := match dict_get k d with
               | Some _ => d
               | None => dict_set k (CDict []) d
               end) in H.
    destruct (dict_get k d1) as [sub|]; [|discriminate].
    destruct (set_nested rest last value sub) as [e|sub'] eqn:E;
      [discriminate|].
    injection H as <-. destruct (IH _ _ E) as (v & Hv & Hl).
    exists v. split; [exact Hv|].
    cbn [app lookup_path]. now rewrite dict_get_set, String.eqb_refl.
Qed.

Lemma set_nested_walkable (keys : list string) (last value : string) (v : cfg) :
  stored_value last value = inr v ->
  forall cur,
    (walkable keys cur -> exists cur', set_nested keys last value cur = inr cur')
    /\ (~ walkable keys cur -> set_nested keys last value cur = inl TypeError).
Proof.
  intros Hv. induction keys as [|k rest IH]; intros cur.
  - cbn [set_nested]. rewrite Hv.
    destruct cur; cbn [walkable];
      (split; [intros Hw|intros Hw]);
      try (now destruct Hw); try reflexivity;
      try (eexists; reflexivity).
  - cbn [set_nested].
    destruct cur; cbn [walkable];
      (split; [intros Hw|intros Hw]);
      try (now destruct Hw); try reflexivity.
    + destruct (dict_get k d) as [sub|] eqn:G.
      * rewrite G. destruct (proj1 (IH sub) Hw) as [sub' ->].
        eexists. reflexivity.
      * rewrite dict_get_set, String.eqb_refl.
        destruct (proj1 (IH (CDict [])) (walkable_empty rest)) as [sub' ->].
        eexists. reflexivity.
    + destruct (dict_get k d) as [sub|] eqn:G.
      * rewrite G. now rewrite (proj2 (IH sub) Hw).
      * now elim Hw.
Qed.

(** X21: For a value that [int] accepts when the path ends in "port" (there the
    value is ASCII text of at most 4300 characters), [_set_nested_value]
    succeeds exactly when the walk along the path meets dictionaries only
    (a key that is missing on the way is created as an empty dictionary)
    and raises TypeError otherwise; after it has succeeded the value read
    back at the path is the value stored, the integer of the text for a
    path that ends in "port". *)
Theorem set_nested_round_trip (keys : list string) (last value : string)
        (v : cfg) (cur : cfg) :
  (last = "port" -> plain_field value) ->
  stored_value last value = inr v ->
  (walkable keys cur ->
   exists cur', set_nested keys last value cur = inr cur'
                /\ lookup_path (keys ++ [last]) cur' = Some v)
  /\ (~ walkable keys cur -> set_nested keys last value cur = inl TypeError).
Proof.
  intros _ Hv. split.
  - intros Hw.
    destruct (proj1 (set_nested_walkable keys last value v Hv cur) Hw)
      as [cur' H].
    exists cur'. split; [exact H|].
    destruct (set_nested_lookup _ _ _ _ _ H) as (v' & Hv' & Hl).
    congruence.
  - apply (set_nested_walkable keys last value v Hv cur).
Qed.

(** **** Environment variables *)

Lemma dict_set_same {V : Type} (k : string) (v : V) (c : list (string * V)) :
  dict_get k c = Some v -> dict_set k v c = c.
Proof.
  induction c as [|[k0 v0] c IH]; simpl; [discriminate|].
  destruct (String.eqb k k0) eqn:E.
  - apply String.eqb_eq in E. subst. now intros [= ->].
  - intros H. now rewrite IH.
Qed.

Lemma dict_set_twice {V : Type} (k : string) (v1 v2 : V)
      (c : list (string * V)) :
  dict_set k v2 (dict_set k v1 c) = dict_set k v2 c.
Proof.
  induction c as [|[k0 v0] c IH]; simpl.
  - now rewrite String.eqb_refl.
  - destruct (String.eqb k k0) eqn:E; simpl.
    + now rewrite String.eqb_refl.
    + now rewrite E, IH.
Qed.

Lemma split_no_dot (f : string) :
  PyStr.contains_char "." f = false -> PlainCsv.split "." f = [f].
Proof.
  induction f as [|c r IH]; [reflexivity|].
  cbn [PyStr.contains_char PlainCsv.split]. intros H.
  apply orb_false_iff in H as [Hc Hr].
  rewrite Ascii.eqb_sym, Hc, (IH Hr). reflexivity.
Qed.

Lemma split_path_database (f : string) :
  PyStr.contains_char "." f = false ->
  split_path ("database." ++ f) = (["database"], f).
Proof.
  intros H. unfold split_path.
  assert (E : PlainCsv.split "." ("database." ++ f) = ["database"; f]).
  { change ("database." ++ f)
      with (String "d" (String "a" (String "t" (String "a" (String "b"
             (String "a" (String "s" (String "e" (String "." f))))))))).
    cbn [PlainCsv.split]. rewrite (split_no_dot f H). reflexivity. }
  rewrite E. reflexivity.
Qed.

Lemma set_database_field (config d : list (string * cfg))
      (field value : string) :
  PyStr.contains_char "." field = false ->
  dict_get "database" config = Some (CDict d) ->
  _set_nested_value config ("database." ++ field) value
  = match stored_value field value with
    | inl e => inl e
    | inr v => inr (dict_set "database" (CDict (dict_set field v d)) config)
    end.
Proof.
  intros Hf Hd. unfold _set_nested_value.
  rewrite (split_path_database _ Hf). cbn [set_nested].
  rewrite Hd, Hd. now destruct (stored_value field value).
Qed.

Lemma load_env_fields (getenv : string -> option string)
      (fields : list (string * string)) :
  Forall (fun m => PyStr.contains_char "." (snd m) = false) fields ->
  forall config d,
    dict_get "database" config = Some (CDict d) ->
    load_env getenv (map database_path fields) config
    = match env_fields getenv fields d with
      | inl e => inl e
      | inr d' => inr (dict_set "database" (CDict d') config)
      end.
Proof.
  induction 1 as [|[env_var field] fields Hf _ IH]; intros config d Hd.
  - cbn. now rewrite (dict_set_same _ _ _ Hd).
  - cbn [map database_path fst snd load_env env_fields]. cbn [snd] in Hf.
    destruct (getenv env_var) as [[|c r]|]; try (now apply IH).
    rewrite (set_database_field config d _ _ Hf Hd).
    destruct (stored_value field (String c r)) as [e|v]; [reflexivity|].
    rewrite (IH _ (dict_set field v d)).
    + destruct (env_fields getenv fields (dict_set field v d));
        [reflexivity|]. now rewrite dict_set_twice.
    + now rewrite dict_get_set, String.eqb_refl.
Qed.

Lemma env_fields_other (getenv : string -> option string)
      (fields : list (string * string)) (k : string) :
  ~ In k (map snd fields) ->
  forall d d', env_fields getenv fields d = inr d' ->
               dict_get k d' = dict_get k d.
Proof.
  induction fields as [|[env_var field] fields IH]; intros Hk d d' H.
  - now injection H as <-.
  - cbn [env_fields] in H. cbn [map snd In] in Hk.
    assert (Hk' : ~ In k (map snd fields)) by tauto.
    destruct (getenv env_var) as [[|c r]|]; try (now apply (IH Hk')).
    destruct (stored_value field (String c r)) as [e|v]; [discriminate|].
    rewrite (IH Hk' _ _ H), dict_get_set.
    destruct (String.eqb k field) eqn:E; [|reflexivity].
    apply String.eqb_eq in E. subst. tauto.
Qed.

Lemma env_fields_lookup (getenv : string -> option string)
      (fields : list (string * string)) :
  NoDup (map snd fields) ->
  forall d d' env_var field,
    env_fields getenv fields d = inr d' ->
    In (env_var, field) fields ->
    match getenv env_var with
    | Some (String c r) =>
        stored_value field (String c r) = inr (A := cfg_error)
                                              (match dict_get field d' with
                                               | Some v => v
                                               | None => CNone
                                               end)
        /\ dict_get field d' <> None
    | _ => dict_get field d' = dict_get field d
    end.
Proof.
  induction fields as [|[e0 f0] fields IH]; intros Hnd d d' env_var field H Hin.
  - destruct Hin.
  - cbn [map snd] in Hnd. apply NoDup_cons_iff in Hnd as [Hnew Hnd].
    cbn [env_fields] in H. destruct Hin as [Heq|Hin].
    + injection Heq as -> ->.
      destruct (getenv env_var) as [[|c r]|];
        try (now apply (env_fields_other getenv fields field Hnew)).
      destruct (stored_value field (String c r)) as [e|v]; [discriminate|].
      rewrite (env_fields_other getenv fields field Hnew _ _ H).
      rewrite dict_get_set, String.eqb_refl. split; [reflexivity|discriminate].
    + assert (Hne : field <> f0).
      { intros ->. apply Hnew. apply in_map_iff.
        now exists (env_var, f0). }
      destruct (getenv e0) as [[|c0 r0]|];
        try (now apply (IH Hnd d d' env_var field H Hin)).
      destruct (stored_value f0 (String c0 r0)) as [e|v0]; [discriminate|].
      pose proof (IH Hnd _ d' env_var field H Hin) as G.
      destruct (getenv env_var) as [[|c r]|]; try exact G.
      * rewrite G, dict_get_set.
        destruct (String.eqb field f0) eqn:E; [|reflexivity].
        apply String.eqb_eq in E. contradiction.
      * rewrite G, dict_get_set.
        destruct (String.eqb field f0) eqn:E; [|reflexivity].
        apply String.eqb_eq in E. contradiction.
Qed.

Lemma env_fields_error (getenv : string -> option string)
      (fields : list (string * string)) :
  forall d e,
    env_fields getenv fields d = inl e ->
    exists env_var field c r,
      In (env_var, field) fields
      /\ getenv env_var = Some (String c r)
      /\ stored_value field (String c r) = inl e.
Proof.
  induction fields as [|[e0 f0] fields IH]; intros d e H; [discriminate|].
  cbn [env_fields] in H.
  destruct (getenv e0) as [[|c r]|] eqn:G.
  - destruct (IH _ _ H) as (ev & f & c & r & Hin & Hg & Hs).
    exists ev, f, c, r. split; [now right|auto].
  - destruct (stored_value f0 (String c r)) as [e1|v] eqn:S.
    + injection H as ->. exists e0, f0, c, r. split; [now left|auto].
    + destruct (IH _ _ H) as (ev & f & c1 & r1 & Hin & Hg & Hs).
      exists ev, f, c1, r1. split; [now right|auto].
  - destruct (IH _ _ H) as (ev & f & c & r & Hin & Hg & Hs).
    exists ev, f, c, r. split; [now right|auto].
Qed.

Lemma database_fields_dot_free :
  Forall (fun m => PyStr.contains_char "." (snd m) = false) database_fields.
Proof. repeat constructor. Qed.

Lemma database_fields_nodup : NoDup (map snd database_fields).
Proof.
  cbn [map snd database_fields].
  repeat (apply NoDup_cons;
          [cbn [In]; intros H;
           repeat (destruct H as [H|H]; [discriminate H|]); exact H|]).
  apply NoDup_nil.
Qed.

Lemma load_env_settings (getenv : string -> option string)
        (config d : list (string * cfg)) :
  dict_get "database" config = Some (CDict d) ->
  match _load_env_variables getenv config with
  | inr config' =>
      forall env_var field,
        In (env_var, field) database_fields ->
        setting config' field
        = match getenv env_var with
          | Some (String c r) => stored_value field (String c r)
          | _ => setting config field
          end
  | inl e =>
      e = ValueError
      /\ exists c r, getenv "DB_PORT" = Some (String c r)
                     /\ py_int (String c r) = None
  end.
Proof.
  intros Hd.
  change (_load_env_variables getenv config)
    with (load_env getenv (map database_path database_fields) config).
  rewrite (load_env_fields getenv _ database_fields_dot_free config d Hd).
  destruct (env_fields getenv database_fields d) as [e|d'] eqn:E.
  - destruct (env_fields_error _ _ _ _ E)
      as (ev & f & c & r & Hin & Hg & Hs).
    cbn [database_fields In] in Hin.
    repeat (destruct Hin as [Hin|Hin];
            [injection Hin as <- <-;
             try (cbn in Hs; discriminate Hs)|]);
      [|destruct Hin].
    unfold stored_value in Hs. cbn [String.eqb Ascii.eqb Bool.eqb] in Hs.
    destruct (py_int (String c r)) eqn:P; [discriminate|].
    injection Hs as <-. split; [reflexivity|]. now exists c, r.
  - intros env_var field Hin.
    pose proof (env_fields_lookup getenv database_fields database_fields_nodup
                                  d d' env_var field E Hin) as L.
    unfold setting, subscript.
    rewrite dict_get_set, String.eqb_refl, Hd.
    destruct (getenv env_var) as [[|c r]|].
    + now rewrite L.
    + destruct L as [-> Hsome].
      destruct (dict_get field d'); [reflexivity|congruence].
    + now rewrite L.
Qed.

(** X22: [_load_env_variables] on a configuration whose "database" entry is a
    dictionary, DB_PORT being ASCII text of at most 4300 characters when it
    is set: each of the six variables that is set and not empty replaces
    its setting, DB_PORT as an integer, and a variable that is unset or
    empty leaves its setting alone; the only failure is ValueError, for a
    DB_PORT that is not an integer literal. *)
Theorem env_variables_override (getenv : string -> option string)
        (config d : list (string * cfg)) :
  dict_get "database" config = Some (CDict d) ->
  port_plain getenv ->
  match _load_env_variables getenv config with
  | inr config' =>
      forall env_var field,
        In (env_var, field) database_fields ->
        setting config' field
        = match getenv env_var with
          | Some (String c r) => stored_value field (String c r)
          | _ => setting config field
          end
  | inl e =>
      e = ValueError
      /\ exists c r, getenv "DB_PORT" = Some (String c r)
                     /\ py_int (String c r) = None
  end.
Proof.
  intros Hd _. pose proof (load_env_settings getenv config d Hd) as H.
  exact H.
Qed.

Section LoadingFacts.

Variable yaml_safe_load : string -> option cfg.
Variable json_load : string -> option cfg.

Abbreviation init' := (init yaml_safe_load json_load).
Abbreviation loaded := (loaded_config yaml_safe_load json_load).
Abbreviation load_db := (load_database_config yaml_safe_load json_load).

Lemma init_unfold (fs : filesystem) (getenv : string -> option string)
      (config_file : option string) :
  init' fs getenv config_file
  = _load_env_variables getenv (after_file (loaded fs config_file)).
Proof.
  unfold init, loaded_config, after_file, _load_config_file.
  destruct config_file as [[|c r]|]; try reflexivity.
  destruct (fs (String c r)) as [bytes|]; [|reflexivity].
  destruct (open_read fs (String c r)) as [e|text]; [reflexivity|].
  destruct (if (endswith ".yaml" (String c r)
                || endswith ".yml" (String c r))%bool
            then yaml_safe_load text else json_load text) as [v|];
    [|reflexivity].
  destruct v; reflexivity.
Qed.

Lemma default_database :
  dict_get "database" _load_default_config
  = Some (CDict [ ("type", CStr "mysql"); ("host", CStr "localhost");
                  ("port", CInt 3306); ("username", CStr "root");
                  ("password", CStr ""); ("database", CStr "csv_converter") ]).
Proof. reflexivity. Qed.

Lemma after_file_database (l : option cfg) (file_db : list (string * cfg)) :
  file_gives l file_db ->
  exists d,
    dict_get "database" (after_file l) = Some (CDict d)
    /\ forall env_var field default,
        In (env_var, field, default) database_defaults ->
        dict_get field d = Some (match dict_get field file_db with
                                 | Some v => v
                                 | None => default
                                 end).
Proof.
  intros H.
  assert (Hdef : forall env_var field default,
             In (env_var, field, default) database_defaults ->
             dict_get field
                      [ ("type", CStr "mysql"); ("host", CStr "localhost");
                        ("port", CInt 3306); ("username", CStr "root");
                        ("password", CStr "");
                        ("database", CStr "csv_converter") ] = Some default
             /\ forall v, merged_entry (Some default) v = v).
  { intros ev f dflt Hin. cbn [database_defaults In] in Hin.
    repeat (destruct Hin as [Hin|Hin];
            [injection Hin as <- <- <-; split; [reflexivity|reflexivity]|]).
    destruct Hin. }
  assert (Hnone : file_db = [] ->
                  exists d,
                    dict_get "database" _load_default_config = Some (CDict d)
                    /\ forall env_var field default,
                        In (env_var, field, default) database_defaults ->
                        dict_get field d
                        = Some (match dict_get field file_db with
                                | Some v => v
                                | None => default
                                end)).
  { intros ->. eexists. split; [exact default_database|].
    intros ev f dflt Hin. exact (proj1 (Hdef ev f dflt Hin)). }
  unfold file_gives in H. unfold after_file.
  destruct l as [l|]; [|now apply Hnone].
  destruct l as [s|n|q|b| |l|items]; try (now apply Hnone).
  destruct H as (Hnd & Hfile & Hnd2).
  fold (merge_items items _load_default_config).
  rewrite (merge_lookup_core items _ "database" Hnd), default_database.
  unfold file_database in Hfile.
  destruct (dict_get "database" items) as [v|].
  - destruct v as [s|n|q|b| |l|fd]; try discriminate.
    injection Hfile as <-. cbn [merged_entry].
    eexists. split; [reflexivity|].
    intros ev f dflt Hin. destruct (Hdef ev f dflt Hin) as [Hd Hm].
    rewrite (merge_lookup_core fd _ f Hnd2), Hd.
    destruct (dict_get f fd) as [v|]; [now rewrite Hm|reflexivity].
  - injection Hfile as <-. eexists. split; [reflexivity|].
    intros ev f dflt Hin. exact (proj1 (Hdef ev f dflt Hin)).
Qed.

Lemma defaults_fields (env_var field : string) (default : cfg) :
  In (env_var, field, default) database_defaults ->
  In (env_var, field) database_fields.
Proof.
  cbn [database_defaults database_fields In]. intros H.
  repeat (destruct H as [H|H]; [injection H as <- <- <-; tauto|]).
  destruct H.
Qed.

Lemma init_settings (fs : filesystem)
        (getenv : string -> option string) (config_file : option string)
        (file_db : list (string * cfg)) :
  file_gives (loaded fs config_file) file_db ->
  match init' fs getenv config_file with
  | inr config =>
      forall env_var field default,
        In (env_var, field, default) database_defaults ->
        setting config field = resolve getenv file_db env_var field default
  | inl e =>
      e = ValueError
      /\ exists c r, getenv "DB_PORT" = Some (String c r)
                     /\ py_int (String c r) = None
  end.
Proof.
  intros H. rewrite init_unfold.
  destruct (after_file_database _ _ H) as (d & Hd & Hfields).
  pose proof (load_env_settings getenv _ d Hd) as E.
  destruct (_load_env_variables getenv (after_file (loaded fs config_file)))
    as [e|config]; [exact E|].
  intros ev f dflt Hin.
  rewrite (E ev f (defaults_fields _ _ _ Hin)). unfold resolve.
  destruct (getenv ev) as [[|c r]|]; try reflexivity;
    unfold setting, subscript; now rewrite Hd, (Hfields ev f dflt Hin).
Qed.

(** X23: The precedence of the database settings, DB_PORT being ASCII text of
    at most 4300 characters when it is set: after the constructor, each
    setting is the value of its environment variable when that is set and
    not empty (DB_PORT as an integer), else the value the configuration file
    gives for it, else the built-in default; the constructor fails only on a
    DB_PORT that is not an integer literal, with ValueError. *)
Theorem settings_precedence (fs : filesystem)
        (getenv : string -> option string) (config_file : option string)
        (file_db : list (string * cfg)) :
  file_gives (loaded fs config_file) file_db ->
  port_plain getenv ->
  match init' fs getenv config_file with
  | inr config =>
      forall env_var field default,
        In (env_var, field, default) database_defaults ->
        setting config field = resolve getenv file_db env_var field default
  | inl e =>
      e = ValueError
      /\ exists c r, getenv "DB_PORT" = Some (String c r)
                     /\ py_int (String c r) = None
  end.
Proof.
  intros H _. pose proof (init_settings fs getenv config_file file_db H) as S.
  exact S.
Qed.

Lemma setting_not_value_error (config : list (string * cfg)) (field : string) :
  setting config field <> inl ValueError.
Proof.
  unfold setting, subscript.
  destruct (dict_get "database" config) as [db|]; [|discriminate].
  destruct db; try discriminate.
  destruct (dict_get field d); discriminate.
Qed.

(** [get_database_config] takes the six settings. *)
Lemma get_database_config_settings (config : list (string * cfg)) :
  get_database_config config
  = match setting config "type", setting config "host",
          setting config "port", setting config "username",
          setting config "password", setting config "database" with
    | inr t, inr h, inr p, inr u, inr w, inr d =>
        inr {| db_type := t; host := h; port := p; username := u;
               password := w; database := d |}
    | inl e, _, _, _, _, _ => inl e
    | _, inl e, _, _, _, _ => inl e
    | _, _, inl e, _, _, _ => inl e
    | _, _, _, inl e, _, _ => inl e
    | _, _, _, _, inl e, _ => inl e
    | _, _, _, _, _, inl e => inl e
    end.
Proof.
  unfold get_database_config, setting.
  destruct (subscript (CDict config) "database"); reflexivity.
Qed.

Lemma resolve_ok (getenv : string -> option string)
      (file_db : list (string * cfg)) (env_var field : string)
      (default : cfg) :
  field <> "port" ->
  exists v, resolve getenv file_db env_var field default = inr v.
Proof.
  intros Hf. unfold resolve, stored_value.
  destruct (getenv env_var) as [[|c r]|]; try (eexists; reflexivity).
  destruct (String.eqb field "port") eqn:E; [|eexists; reflexivity].
  apply String.eqb_eq in E. contradiction.
Qed.

(** X24: The database configuration that the command line builds, DB_PORT being
    ASCII text of at most 4300 characters when it is set: when DB_PORT is
    unset, empty or an integer literal, it is built, and each of its six
    fields follows the precedence environment, file, default; when DB_PORT
    is set to something else, ValueError is raised and nothing is built. *)
Theorem database_config_precedence (fs : filesystem)
        (getenv : string -> option string) (config_file : option string)
        (file_db : list (string * cfg)) :
  file_gives (loaded fs config_file) file_db ->
  port_plain getenv ->
  (port_ok getenv ->
   exists r,
     load_db fs getenv config_file = inr r
     /\ resolve getenv file_db "DB_TYPE" "type" (CStr "mysql")
        = inr (db_type r)
     /\ resolve getenv file_db "DB_HOST" "host" (CStr "localhost")
        = inr (host r)
     /\ resolve getenv file_db "DB_PORT" "port" (CInt 3306) = inr (port r)
     /\ resolve getenv file_db "DB_USER" "username" (CStr "root")
        = inr (username r)
     /\ resolve getenv file_db "DB_PASSWORD" "password" (CStr "")
        = inr (password r)
     /\ resolve getenv file_db "DB_NAME" "database" (CStr "csv_converter")
        = inr (database r))
  /\ (~ port_ok getenv ->
      load_db fs getenv config_file = inl ValueError).
Proof.
  intros H _. pose proof (init_settings fs getenv config_file file_db H) as S.
  unfold load_database_config, port_ok.
  destruct (init' fs getenv config_file) as [e|config].
  - destruct S as (-> & c & r & Hg & Hp). split.
    + rewrite Hg. intros Hok. contradiction.
    + reflexivity.
  - split.
    + intros Hok. rewrite get_database_config_settings.
      rewrite (S "DB_TYPE" "type" (CStr "mysql")) by (cbn; tauto).
      rewrite (S "DB_HOST" "host" (CStr "localhost")) by (cbn; tauto).
      rewrite (S "DB_PORT" "port" (CInt 3306)) by (cbn; tauto).
      rewrite (S "DB_USER" "username" (CStr "root")) by (cbn; tauto).
      rewrite (S "DB_PASSWORD" "password" (CStr "")) by (cbn; tauto).
      rewrite (S "DB_NAME" "database" (CStr "csv_converter")) by (cbn; tauto).
      destruct (resolve_ok getenv file_db "DB_TYPE" "type" (CStr "mysql"))
        as [t ->]; [discriminate|].
      destruct (resolve_ok getenv file_db "DB_HOST" "host" (CStr "localhost"))
        as [h ->]; [discriminate|].
      destruct (resolve_ok getenv file_db "DB_USER" "username" (CStr "root"))
        as [u ->]; [discriminate|].
      destruct (resolve_ok getenv file_db "DB_PASSWORD" "password" (CStr ""))
        as [w ->]; [discriminate|].
      destruct (resolve_ok getenv file_db "DB_NAME" "database"
                           (CStr "csv_converter")) as [n ->]; [discriminate|].
      assert (Hport : exists p, resolve getenv file_db "DB_PORT" "port"
                                        (CInt 3306) = inr p).
      { unfold resolve, stored_value.
        destruct (getenv "DB_PORT") as [[|c r]|]; try (eexists; reflexivity).
        cbn [String.eqb Ascii.eqb Bool.eqb].
        destruct (py_int (String c r)); [eexists; reflexivity|].
        now elim Hok. }
      destruct Hport as [p ->].
      eexists. split; [reflexivity|]. cbn. tauto.
    + intros Hbad. exfalso. apply Hbad.
      pose proof (S "DB_PORT" "port" (CInt 3306)) as Sp.
      destruct (getenv "DB_PORT") as [[|c r]|] eqn:G; try exact I.
      intros Hp.
      assert (Hin : In ("DB_PORT", "port", CInt 3306) database_defaults)
        by (cbn; tauto).
      specialize (Sp Hin). unfold resolve in Sp. rewrite G in Sp.
      unfold stored_value in Sp. cbn [String.eqb Ascii.eqb Bool.eqb] in Sp.
      rewrite Hp in Sp.
      exact (setting_not_value_error _ _ Sp).
Qed.

Lemma load_env_scalar (getenv : string -> option string)
      (fields : list (string * string)) :
  Forall (fun m => PyStr.contains_char "." (snd m) = false) fields ->
  forall config v,
    dict_get "database" config = Some v ->
    (forall d, v <> CDict d) ->
    load_env getenv (map database_path fields) config = inr config
    \/ exists e, load_env getenv (map database_path fields) config = inl e.
Proof.
  induction 1 as [|[env_var field] fields Hf _ IH]; intros config v Hd Hv.
  - now left.
  - cbn [map database_path fst snd load_env]. cbn [snd] in Hf.
    destruct (getenv env_var) as [[|c r]|]; try (now apply (IH config v)).
    right. unfold _set_nested_value.
    rewrite (split_path_database _ Hf). cbn [set_nested]. rewrite Hd, Hd.
    destruct (stored_value field (String c r)) as [e|x];
      [now exists e|].
    destruct v; try (now exists TypeError). now elim (Hv d).
Qed.

(** X25: A configuration file whose "database" entry is not a dictionary (a
    text, a number, a list) replaces the default settings as a whole: no
    database configuration can then be built, whatever the environment. *)
Theorem scalar_database_entry_breaks (fs : filesystem)
        (getenv : string -> option string) (config_file : option string)
        (items : list (string * cfg)) (v : cfg) :
  loaded fs config_file = Some (CDict items) ->
  NoDup (keys items) ->
  dict_get "database" items = Some v ->
  (forall d, v <> CDict d) ->
  forall r, load_db fs getenv config_file <> inr r.
Proof.
  intros Hl Hnd Hget Hv r.
  unfold load_database_config. rewrite init_unfold, Hl. unfold after_file.
  fold (merge_items items _load_default_config).
  assert (Hd : dict_get "database" (merge_items items _load_default_config)
               = Some v).
  { rewrite (merge_lookup_core items _ "database" Hnd), Hget, default_database.
    destruct v; try reflexivity. now elim (Hv d). }
  assert (Hg : get_database_config (merge_items items _load_default_config)
               = inl TypeError).
  { unfold get_database_config, subscript at 1. rewrite Hd.
    destruct v; try reflexivity. now elim (Hv d). }
  change (_load_env_variables getenv
                              (merge_items items _load_default_config))
    with (load_env getenv (map database_path database_fields)
                   (merge_items items _load_default_config)).
  destruct (load_env_scalar getenv _ database_fields_dot_free _ v Hd Hv)
    as [->|[e ->]]; [rewrite Hg|]; discriminate.
Qed.

End LoadingFacts.

End ConfigFacts.

Module PortFacts.
Import ConfigManager.

Lemma digit_not_space (c : ascii) :
  PyStr.is_digit_char c = true -> is_int_space c = false.
Proof.
  destruct c as [[] [] [] [] [] [] [] []]; vm_compute; congruence.
Qed.

Lemma rstrip_space_digits (s : string) :
  Forall (fun c => PyStr.is_digit_char c = true) (list_ascii_of_string s) ->
  rstrip_space s = s.
Proof.
  induction s as [|c r IH]; [reflexivity|]. simpl. intros H.
  inversion H as [|? ? Hc Hr]; subst.
  rewrite (IH Hr), (digit_not_space c Hc), andb_false_r. reflexivity.
Qed.

Lemma digits_value_digits (s : string) : forall acc after_digit,
  Forall (fun c => PyStr.is_digit_char c = true) (list_ascii_of_string s) ->
  s <> EmptyString \/ after_digit = true ->
  digits_value acc after_digit s = Some (PyStr.int_acc acc s).
Proof.
  induction s as [|c r IH]; intros acc after_digit Hall Hne.
  - destruct Hne as [Hne| ->]; [congruence|reflexivity].
  - simpl in Hall. inversion Hall as [|? ? Hc Hr]; subst.
    cbn [digits_value PyStr.int_acc]. rewrite Hc.
    apply IH; [exact Hr|now right].
Qed.

Lemma py_int_head (c : ascii) (r : string) :
  PyStr.is_digit_char c = true ->
  match String c r with
  | String "-" r' => option_map Z.opp (digits_value 0 false r')
  | String "+" r' => digits_value 0 false r'
  | s => digits_value 0 false s
  end = digits_value 0 false (String c r).
Proof.
  destruct c as [[] [] [] [] [] [] [] []]; vm_compute; congruence.
Qed.

Lemma py_int_digits (value : string) :
  only_digits value -> py_int value = Some (PyStr.int value).
Proof.
  intros [Hne Hall].
  unfold py_int. destruct value as [|c r]; [congruence|].
  simpl in Hall. inversion Hall as [|? ? Hc Hr]; subst.
  cbn [lstrip_space]. rewrite (digit_not_space c Hc).
  rewrite (rstrip_space_digits (String c r) Hall).
  rewrite (py_int_head c r Hc).
  apply digits_value_digits; [exact Hall|now left].
Qed.

Lemma py_int_signed (value : string) :
  only_digits value ->
  py_int (String "-" value) = Some (- PyStr.int value)
  /\ py_int (String "+" value) = Some (PyStr.int value).
Proof.
  intros [Hne Hall].
  assert (D : digits_value 0 false value = Some (PyStr.int value))
    by (apply digits_value_digits; [exact Hall|now left]).
  unfold py_int. cbn [lstrip_space].
  change (is_int_space "-") with false. change (is_int_space "+") with false.
  cbn iota. cbn [rstrip_space].
  rewrite (rstrip_space_digits value Hall).
  change (is_int_space "-") with false. change (is_int_space "+") with false.
  rewrite !andb_false_r. cbn iota. rewrite D. split; reflexivity.
Qed.

(** X28: The conversion of DB_PORT reads a text made of fewer than 4300 digits
    as the integer that [csv_data] makes of such a field, and the setting
    stored for the path "port" is that integer; with a sign before the
    digits the setting is the signed integer, so that a negative port is
    stored without complaint. *)
Theorem port_of_digits (value : string) :
  only_digits value ->
  (String.length value < int_max_str_digits)%nat ->
  exists n,
    format_value value = PInt n
    /\ stored_value "port" value = inr (CInt n)
    /\ stored_value "port" (String "-" value) = inr (CInt (- n))
    /\ stored_value "port" (String "+" value) = inr (CInt n).
Proof.
  intros Hd _. exists (PyStr.int value).
  split; [now apply format_value_digits|].
  destruct (py_int_signed value Hd) as [Hm Hp].
  unfold stored_value. cbn [String.eqb Ascii.eqb Bool.eqb].
  rewrite (py_int_digits value Hd), Hm, Hp. repeat split; reflexivity.
Qed.

End PortFacts.

Lemma port_of_digits_witness :
  only_digits "3306"
  /\ exists n,
      format_value "3306" = PInt n
      /\ ConfigManager.stored_value "port" "3306" = inr (CInt n)
      /\ ConfigManager.stored_value "port" "-3306" = inr (CInt (- n))
      /\ ConfigManager.stored_value "port" "+3306" = inr (CInt n).
Proof.
  assert (H : only_digits "3306")
    by (split; [discriminate|repeat constructor]).
  split; [exact H|].
  apply (PortFacts.port_of_digits "3306" H).
  apply Nat.ltb_lt. reflexivity.
Defined.

Example py_int_forms :
  ConfigManager.py_int " -1_000 " = Some (-1000)
  /\ ConfigManager.py_int "1__0" = None
  /\ ConfigManager.py_int "12a" = None
  /\ ConfigManager.py_int "" = None
  /\ ConfigManager.py_int "+7" = Some 7
  /\ ConfigManager.py_int ("3306" ++ String (ascii_of_nat 28) "") = None
  /\ ConfigManager.py_int ("3306" ++ String (ascii_of_nat 9) "") = Some 3306.
Proof. repeat split; reflexivity. Qed.

(** [len] counts characters, not bytes, and so does the inferrer. *)
Example len_counts_characters :
  PyStr.len hello_accent = 5
  /\ String.length hello_accent = 6%nat
  /\ Plain.infer [Some hello_accent] = VARCHAR 6
  /\ take_chars 2 hello_accent
     = String "h" (String (ascii_of_nat 195) (String (ascii_of_nat 169) "")).
Proof. repeat split; vm_compute; reflexivity. Qed.

Lemma merge_lookup_witness :
  NoDup (keys [("host", CStr "h"); ("port", CInt 1)])
  /\ dict_get "host"
              (ConfigManager.merge_items
                 [("host", CStr "h"); ("port", CInt 1)]
                 [("type", CStr "mysql"); ("host", CStr "localhost")])
     = Some (CStr "h").
Proof.
  assert (H : NoDup (keys [("host", CStr "h"); ("port", CInt 1)])).
  { cbn. repeat constructor; cbn; intuition discriminate. }
  split; [exact H|].
  exact (ConfigFacts.merge_lookup
           [("host", CStr "h"); ("port", CInt 1)]
           [("type", CStr "mysql"); ("host", CStr "localhost")] "host" H).
Defined.

Lemma set_nested_round_trip_witness :
  ConfigManager.stored_value "port" " 5_432 " = inr (CInt 5432)
  /\ ConfigManager.walkable ["database"] (CDict [])
  /\ exists cur',
      ConfigManager.set_nested ["database"] "port" " 5_432 " (CDict [])
      = inr cur'
      /\ ConfigManager.lookup_path (["database"] ++ ["port"])%list cur'
         = Some (CInt 5432).
Proof.
  split; [reflexivity|]. split; [exact I|].
  exact (proj1 (ConfigFacts.set_nested_round_trip
                  ["database"] "port" " 5_432 " (CInt 5432) (CDict [])
                  (fun _ => eq_refl) eq_refl) I).
Defined.

Lemma env_variables_override_witness :
  dict_get "database" ConfigManager._load_default_config <> None
  /\ match ConfigManager._load_env_variables
             ConfigManager.sample_env ConfigManager._load_default_config with
     | inr config' =>
         ConfigManager.setting config' "port" = inr (CInt 6001)
         /\ ConfigManager.setting config' "username" = inr (CStr "root")
     | inl _ => False
     end.
Proof.
  split; [discriminate|].
  pose proof (ConfigFacts.env_variables_override
                ConfigManager.sample_env ConfigManager._load_default_config
                _ ConfigFacts.default_database eq_refl) as H.
  destruct (ConfigManager._load_env_variables
              ConfigManager.sample_env ConfigManager._load_default_config)
    as [e|config'].
  - destruct H as (_ & c & r & Hg & Hp). vm_compute in Hg.
    injection Hg as <- <-. vm_compute in Hp. discriminate Hp.
  - split.
    + exact (H "DB_PORT" "port" (or_intror (or_intror (or_introl eq_refl)))).
    + exact (H "DB_USER" "username"
               (or_intror (or_intror (or_intror (or_introl eq_refl))))).
Defined.

Lemma sample_file_gives :
  ConfigManager.file_gives
    (ConfigManager.loaded_config
       ConfigManager.sample_loader ConfigManager.sample_loader
       ConfigManager.sample_fs (Some "conf.yaml"))
    [("host", CStr "db.example"); ("port", CInt 5432)].
Proof.
  cbn. split; [|split; [reflexivity|]];
    cbn; repeat constructor; cbn; intuition discriminate.
Defined.

Lemma settings_precedence_witness :
  match ConfigManager.init ConfigManager.sample_loader
                           ConfigManager.sample_loader
                           ConfigManager.sample_fs ConfigManager.sample_env
                           (Some "conf.yaml") with
  | inr config =>
      ConfigManager.setting config "port" = inr (CInt 6001)
      /\ ConfigManager.setting config "host" = inr (CStr "db.example")
      /\ ConfigManager.setting config "type" = inr (CStr "mysql")
  | inl _ => False
  end.
Proof.
  pose proof (ConfigFacts.settings_precedence
                ConfigManager.sample_loader ConfigManager.sample_loader
                ConfigManager.sample_fs ConfigManager.sample_env
                (Some "conf.yaml") _ sample_file_gives eq_refl) as H.
  destruct (ConfigManager.init _ _ _ _ _) as [e|config].
  - destruct H as (_ & c & r & Hg & Hp). vm_compute in Hg.
    injection Hg as <- <-. vm_compute in Hp. discriminate Hp.
  - split; [|split].
    + exact (H "DB_PORT" "port" (CInt 3306)
               (or_intror (or_intror (or_introl eq_refl)))).
    + exact (H "DB_HOST" "host" (CStr "localhost")
               (or_intror (or_introl eq_refl))).
    + exact (H "DB_TYPE" "type" (CStr "mysql") (or_introl eq_refl)).
Defined.

Lemma database_config_precedence_witness :
  ConfigManager.port_ok ConfigManager.sample_env
  /\ exists r,
      ConfigManager.load_database_config
        ConfigManager.sample_loader ConfigManager.sample_loader
        ConfigManager.sample_fs ConfigManager.sample_env (Some "conf.yaml")
      = inr r
      /\ ConfigManager.port r = CInt 6001
      /\ ConfigManager.host r = CStr "db.example".
Proof.
  assert (Hok : ConfigManager.port_ok ConfigManager.sample_env)
    by (vm_compute; discriminate).
  split; [exact Hok|].
  destruct (proj1 (ConfigFacts.database_config_precedence
                     ConfigManager.sample_loader ConfigManager.sample_loader
                     ConfigManager.sample_fs ConfigManager.sample_env
                     (Some "conf.yaml") _ sample_file_gives eq_refl) Hok)
    as (r & Hr & _ & Hh & Hp & _).
  exists r. split; [exact Hr|]. split.
  - vm_compute in Hp. injection Hp as Hp. symmetry. exact Hp.
  - vm_compute in Hh. injection Hh as Hh. symmetry. exact Hh.
Defined.

Lemma scalar_database_entry_breaks_witness :
  NoDup (keys [("database", CStr "prod")])
  /\ ConfigManager.load_database_config
       (fun _ => Some (CDict [("database", CStr "prod")]))
       (fun _ => None) ConfigManager.sample_fs (fun _ => None)
       (Some "conf.yaml") = inl TypeError.
Proof.
  assert (Hn : NoDup (keys [("database", CStr "prod")])).
  { cbn. repeat constructor. intros []. }
  split; [exact Hn|].
  destruct (ConfigManager.load_database_config
              (fun _ => Some (CDict [("database", CStr "prod")]))
              (fun _ => None) ConfigManager.sample_fs (fun _ => None)
              (Some "conf.yaml")) as [e|r] eqn:E.
  - vm_compute in E. injection E as <-. reflexivity.
  - exfalso.
    exact (ConfigFacts.scalar_database_entry_breaks
             (fun _ => Some (CDict [("database", CStr "prod")]))
             (fun _ => None) ConfigManager.sample_fs (fun _ => None)
             (Some "conf.yaml") [("database", CStr "prod")] (CStr "prod")
             eq_refl Hn eq_refl ltac:(discriminate) r E).
Defined.

(* ================================================================== *)
(** * Closed instances for the minimal implementation *)

Lemma only_digits_07 : only_digits "07".
Proof. split; [discriminate|repeat constructor]. Defined.

Lemma short_07 : (String.length "07" < int_max_str_digits)%nat.
Proof. apply Nat.ltb_lt. reflexivity. Defined.

Lemma format_value_leading_zero_witness :
  only_digits "07"
  /\ format_value (String "0" "07") = format_value "07"
  /\ format_value "07" = PInt 7.
Proof.
  split; [exact only_digits_07|]. split; [|reflexivity].
  exact (format_value_leading_zero "07" only_digits_07 short_07).
Defined.

Lemma int_decimal_value_witness :
  only_digits "07"
  /\ exists n,
      format_value "07" = PInt n
      /\ 0 <= n < 10 ^ PyStr.len "07"
      /\ format_value ("07" ++ "3") = PInt (10 * n + PyStr.digit_value "3").
Proof.
  split; [exact only_digits_07|].
  destruct (int_decimal_value "07" only_digits_07 short_07)
    as (n & Hn & Hb & Hs).
  exists n. split; [exact Hn|]. split; [exact Hb|].
  exact (Hs "3"%char eq_refl).
Defined.

Lemma create_table_needs_two_rows_witness :
  open_read (PlainCsv.one_file "h.csv" header_only_csv) "h.csv"
  = inr header_only_csv
  /\ (List.length (PlainCsv.reader header_only_csv) < 2)%nat
  /\ run (create_table PlainCsv.reader
                       (PlainCsv.one_file "h.csv" header_only_csv)
                       "shop" "h.csv" "t" "" [])
     = ([], inl StopIteration).
Proof.
  assert (Ho : open_read (PlainCsv.one_file "h.csv" header_only_csv) "h.csv"
               = inr header_only_csv) by (vm_compute; reflexivity).
  assert (Hl : (List.length (PlainCsv.reader header_only_csv) < 2)%nat)
    by (vm_compute; repeat constructor).
  split; [exact Ho|]. split; [exact Hl|].
  exact (proj2 (create_table_needs_two_rows
                  PlainCsv.reader (PlainCsv.one_file "h.csv" header_only_csv)
                  "shop" "h.csv" "t" "" []) header_only_csv Ho Hl).
Defined.

Lemma create_table_inserts_every_row_witness :
  run (create_table PlainCsv.reader (PlainCsv.one_file "s.csv" staff_csv)
                    "shop" "s.csv" "staff" "" [])
  = ([Use "shop"; ShowTables; CreateTable "staff" "id" "int(11)";
      AlterTableAdd "staff" "name" "varchar(255)";
      InsertValues "staff" [PInt 1; PStr "Ann"];
      InsertValues "staff" [PInt 2; PStr "Bob"]; Commit], inr tt).
Proof.
  exact (create_table_inserts_every_row
           PlainCsv.reader (PlainCsv.one_file "s.csv" staff_csv)
           "shop" "s.csv" "staff" "" staff_csv "id" "int(11)" []
           ["name"] ["1"; "Ann"] ["varchar(255)"] [["2"; "Bob"]]
           eq_refl eq_refl eq_refl eq_refl eq_refl (le_n 1)).
Defined.

Lemma create_table_leaves_partial_table_witness :
  run (create_table PlainCsv.reader
                    (PlainCsv.one_file "people.csv" PlainCsv.people_csv)
                    "shop" "people.csv" "people" "" [])
  = (([Use "shop"; ShowTables; CreateTable "people" "name" "varchar(255)"]
        ++ alter_statements "people" ["joined"] [])%list, inl IndexError).
Proof.
  exact (proj1 (create_table_leaves_partial_table
                  PlainCsv.reader
                  (PlainCsv.one_file "people.csv" PlainCsv.people_csv)
                  "shop" "people.csv" "people" "" PlainCsv.people_csv
                  "name" "varchar(255)" [] ["joined"]
                  ["Alice"; "2023-01-15"] [] []
                  eq_refl eq_refl eq_refl eq_refl eq_refl (le_n 1))).
Defined.

Lemma create_table_no_is_merge_witness :
  run (create_table PlainCsv.reader
                    (PlainCsv.one_file "new.csv" PlainCsv.merge_csv)
                    "shop" "new.csv" "no" "items" merge_snapshot)
  = ([Use "shop"; ShowTables; SelectAll "items";
      InsertValues "items" [PInt 3; PStr "c"]; Commit], inr tt).
Proof.
  exact (create_table_no_is_merge
           PlainCsv.reader (PlainCsv.one_file "new.csv" PlainCsv.merge_csv)
           "shop" "new.csv" "items" PlainCsv.merge_csv merge_snapshot
           ["id"; "name"] ["2"; "b"] [["3"; "c"]] eq_refl eq_refl).
Defined.

(* ================================================================== *)
(** * The demonstration and the analysis *)

Section DemoFacts.

Variable to_numeric : string -> option Q.
Variable Timestamp : Type.
Variable to_datetime : list string -> list (option Timestamp).

Abbreviation infer_d := (infer_sql_type to_numeric Timestamp to_datetime).
Abbreviation reasoning_d := (reasoning to_numeric Timestamp to_datetime).

(** X9: In the table of the demonstration the reasoning goes with the inferred
    type for every column that has a non-null value; for a column without
    one the table says "Boolean values detected" beside the type TEXT. *)
Theorem demo_reasoning_matches_type (series : Series) (mvl : Z) :
  (dropna series <> [] ->
   reasoning_d series = type_reasoning (infer_d series mvl))
  /\ (dropna series = [] ->
      reasoning_d series = "Boolean values detected"
      /\ infer_d series mvl = TEXT).
Proof.
  rewrite infer_unfold. unfold reasoning. split.
  - destruct (dropna series) as [|v l]; [congruence|]. intros _. cbv zeta.
    destruct (_is_boolean (v :: l)); [reflexivity|].
    destruct (_is_integer to_numeric (v :: l)).
    { repeat match goal with
             | |- context [if ?b then _ else _] => destruct b
             end; reflexivity. }
    destruct (_is_float to_numeric (v :: l)); [reflexivity|].
    destruct (_is_date Timestamp to_datetime (v :: l)) eqn:Hd; [reflexivity|].
    destruct (_is_datetime Timestamp to_datetime (v :: l)) eqn:Hdt.
    + apply is_datetime_is_date in Hdt. congruence.
    + destruct (varchar_or_text_cases (v :: l) mvl) as [->|[n ->]];
        reflexivity.
  - intros ->. split; reflexivity.
Qed.

End DemoFacts.

Lemma dict_set_new {V : Type} (k : string) (v : V) (d : list (string * V)) :
  ~ In k (keys d) -> dict_set k v d = (d ++ [(k, v)])%list.
Proof.
  induction d as [|[k' v'] d IH]; simpl; [reflexivity|]. intros Hk.
  destruct (String.eqb k k') eqn:E.
  - apply String.eqb_eq in E. subst. elim Hk. now left.
  - f_equal. apply IH. intros Hin. apply Hk. now right.
Qed.

Lemma fold_dict_set_map {V : Type} (f : string -> Series -> V)
      (df : DataFrame) : forall acc,
  NoDup (keys acc ++ keys df) ->
  fold_left (fun columns '(col, values) =>
               dict_set col (f col values) columns) df acc
  = (acc ++ map (fun '(col, values) => (col, f col values)) df)%list.
Proof.
  induction df as [|[col values] df IH]; intros acc Hnd; simpl.
  - now rewrite app_nil_r.
  - simpl in Hnd.
    assert (Hnew : ~ In col (keys acc)).
    { apply NoDup_remove_2 in Hnd. intros Hin. apply Hnd.
      apply in_or_app. now left. }
    rewrite (dict_set_new _ _ _ Hnew), IH.
    + now rewrite <- app_assoc.
    + unfold keys in *. rewrite map_app, <- app_assoc. exact Hnd.
Qed.

Lemma dropna_length {A : Type} (l : list (option A)) :
  (List.length (dropna l) <= List.length l)%nat.
Proof.
  induction l as [|[a|] l IH]; simpl; lia.
Qed.

Lemma nodup_length (l : list string) :
  (List.length (nodup string_dec l) <= List.length l)%nat.
Proof.
  apply NoDup_incl_length; [apply NoDup_nodup|].
  intros x Hx. now apply nodup_In in Hx.
Qed.

Section DescriptorFacts.

Variable to_numeric : string -> option Q.
Variable Timestamp : Type.
Variable to_datetime : list string -> list (option Timestamp).
Variable read_frame : string -> result DataFrame.

Lemma analyze_column_describes (col : string) (values : Series) :
  describes to_numeric Timestamp to_datetime (col, values)
            (col, analyze_column to_numeric Timestamp to_datetime col values).
Proof.
  unfold describes, analyze_column.
  cbn [original_name clean_name sql_type_of non_null_count null_count
       unique_values sample_values].
  split; [reflexivity|]. split; [reflexivity|]. split; [reflexivity|].
  split; [rewrite SanitizerFacts.clean_column_name_stages;
          apply SanitizerMore.finish_identifier,
                SanitizerFacts.clean_core_tidy|].
  split; [reflexivity|].
  pose proof (dropna_length values).
  split; [lia|]. split; [apply nodup_length|].
  rewrite length_firstn. lia.
Qed.

(** X10: On a file that [read_csv] reads into a frame with distinct labels,
    [analyze_csv] returns, without logging, one descriptor per column, in
    the order of the columns: it is filed under the label of the column,
    its clean name is the sanitised label and is an identifier, its type is
    the inferred type, its non-null and null counts add up to the number of
    rows, it counts no more distinct values than
    non-null ones, and it keeps at most three sample values. *)
Theorem analyze_csv_descriptors (fs : filesystem) (file_path : string)
        (df : DataFrame) :
  read_csv read_frame fs file_path = inr df ->
  NoDup (keys df) ->
  exists a,
    analyze_csv to_numeric Timestamp to_datetime read_frame fs file_path
    = ([], inr a)
    /\ Forall2 (describes to_numeric Timestamp to_datetime) df (descriptors a).
Proof.
  intros Hread Hnd. unfold analyze_csv, analyze_csv_body, try_except.
  rewrite Hread. unfold read_csv in Hread. unfold file_size.
  destruct (fs file_path) as [bytes|] eqn:Hfs.
  - eexists. split; [reflexivity|]. cbn [descriptors].
    rewrite (fold_dict_set_map
               (analyze_column to_numeric Timestamp to_datetime) df [] Hnd).
    cbn [app]. clear. induction df as [|[col values] df IH]; cbn [map].
    + constructor.
    + constructor; [apply analyze_column_describes|exact IH].
  - unfold open_read in Hread. rewrite Hfs in Hread. discriminate.
Qed.

End DescriptorFacts.

Lemma demo_reasoning_matches_type_witness :
  dropna [Some "1.5"; None; Some "2"] <> []
  /\ reasoning Plain.to_numeric Plain.Timestamp Plain.to_datetime
               [Some "1.5"; None; Some "2"]
     = type_reasoning (Plain.infer [Some "1.5"; None; Some "2"])
  /\ type_reasoning (Plain.infer [Some "1.5"; None; Some "2"])
     = "Decimal values detected".
Proof.
  assert (H : dropna [Some "1.5"; None; Some "2"] <> []) by discriminate.
  split; [exact H|]. split; [|vm_compute; reflexivity].
  exact (proj1 (demo_reasoning_matches_type
                  Plain.to_numeric Plain.Timestamp Plain.to_datetime
                  [Some "1.5"; None; Some "2"] default_max_varchar_length) H).
Defined.

Lemma analyze_csv_descriptors_witness :
  exists a,
    analyze_csv Plain.to_numeric Plain.Timestamp Plain.to_datetime
                PlainCsv.read_frame
                (PlainCsv.one_file "people.csv" PlainCsv.people_csv)
                "people.csv" = ([], inr a)
    /\ List.length (descriptors a) = 2%nat.
Proof.
  assert (Hr : read_csv PlainCsv.read_frame
                        (PlainCsv.one_file "people.csv" PlainCsv.people_csv)
                        "people.csv"
               = inr [("name", [Some "Alice"]);
                      ("joined", [Some "2023-01-15"])])
    by (vm_compute; reflexivity).
  assert (Hn : NoDup (keys [("name", [Some "Alice"]);
                            ("joined", [Some "2023-01-15"])])).
  { cbn. repeat constructor; cbn; intuition discriminate. }
  destruct (analyze_csv_descriptors
              Plain.to_numeric Plain.Timestamp Plain.to_datetime
              PlainCsv.read_frame _ _ _ Hr Hn) as (a & Ha & Hd).
  exists a. split; [exact Ha|].
  apply Forall2_length in Hd. symmetry. exact Hd.
Defined.

(* ================================================================== *)
(** * The connection URL and the derived table name *)

Module ConnectionFacts.
Import Connection.

(** The URL is built for the types mysql, postgresql and sqlite and for no
    other: any other type raises ValueError; and for sqlite it is made of
    the database name alone. *)
Theorem connection_url_types (self : DatabaseConfig) :
  (get_connection_url self = inl ValueError
   <-> db_type self <> "mysql" /\ db_type self <> "postgresql"
       /\ db_type self <> "sqlite")
  /\ (db_type self = "sqlite" ->
      get_connection_url self = inr ("sqlite:///" ++ database self ++ ".db")).
Proof.
  unfold get_connection_url. split.
  - destruct (String.eqb (db_type self) "mysql") eqn:E1.
    { apply String.eqb_eq in E1. split; [discriminate|tauto]. }
    destruct (String.eqb (db_type self) "postgresql") eqn:E2.
    { apply String.eqb_eq in E2. split; [discriminate|tauto]. }
    destruct (String.eqb (db_type self) "sqlite") eqn:E3.
    { apply String.eqb_eq in E3. split; [discriminate|tauto]. }
    apply String.eqb_neq in E1, E2, E3. tauto.
  - intros ->. reflexivity.
Qed.

Lemma append_assoc (a b c : string) : (a ++ b) ++ c = a ++ (b ++ c).
Proof. induction a as [|x a IH]; simpl; [reflexivity|now rewrite IH]. Qed.

(** X26: User name and password go into the URL as they are: a colon moves
    freely between them, so that two different pairs of credentials give
    the same URL. *)
Theorem connection_url_ambiguous (self : DatabaseConfig)
        (user middle pass : string) :
  get_connection_url (with_credentials self (user ++ ":" ++ middle) pass)
  = get_connection_url (with_credentials self user (middle ++ ":" ++ pass)).
Proof.
  unfold get_connection_url, with_credentials, server_part.
  cbn [db_type host port username password database].
  rewrite !append_assoc. reflexivity.
Qed.

End ConnectionFacts.

Module CliFacts.
Import Cli.

Lemma derive_char (c : ascii) :
  (if Ascii.eqb (if Ascii.eqb (PyStr.lower_char c) " " then "_"%char
                 else PyStr.lower_char c) "-"
   then "_"%char
   else if Ascii.eqb (PyStr.lower_char c) " " then "_"%char
        else PyStr.lower_char c)
  = (if changed_char c
     then (if PyStr.is_upper_char c then PyStr.lower_char c else "_"%char)
     else c)
  /\ changed_char (if changed_char c
                   then (if PyStr.is_upper_char c then PyStr.lower_char c
                         else "_"%char)
                   else c) = false.
Proof.
  destruct c as [[] [] [] [] [] [] [] []]; vm_compute; split; reflexivity.
Qed.

Lemma table_name_chars (stem : string) :
  table_name_of_stem stem
  = (fix each (s : string) : string :=
       match s with
       | EmptyString => EmptyString
       | String c r =>
           String (if changed_char c
                   then (if PyStr.is_upper_char c then PyStr.lower_char c
                         else "_"%char)
                   else c) (each r)
       end) stem.
Proof.
  unfold table_name_of_stem.
  induction stem as [|c r IH]; [reflexivity|].
  cbn [PyStr.lower replace_char]. rewrite IH.
  now rewrite (proj1 (derive_char c)).
Qed.

Lemma table_name_char_count (stem : string) :
  PyStr.char_count (table_name_of_stem stem) = PyStr.char_count stem.
Proof.
  rewrite table_name_chars.
  induction stem as [|c r IH]; [reflexivity|].
  cbn [PyStr.char_count]. rewrite IH.
  destruct c as [[] [] [] [] [] [] [] []]; reflexivity.
Qed.

(** X27: The table name derived from a file name whose stem is ASCII text has
    the length of the stem and holds no upper-case letter, space or hyphen;
    every other character of the stem is kept, so that a stem is left as it
    is exactly when it holds none of the three. *)
Theorem table_name_shape (stem : string) :
  ascii_text stem ->
  PyStr.len (table_name_of_stem stem) = PyStr.len stem
  /\ PyStr.all_chars (fun c => negb (changed_char c))
                     (table_name_of_stem stem) = true
  /\ (table_name_of_stem stem = stem
      <-> PyStr.all_chars (fun c => negb (changed_char c)) stem = true).
Proof.
  intros _.
  split; [unfold PyStr.len; now rewrite table_name_char_count|].
  rewrite table_name_chars.
  induction stem as [|c r (IHa & IHf)]; [repeat split; reflexivity|].
  cbn [PyStr.all_chars].
  split.
  - rewrite (proj2 (derive_char c)), IHa. reflexivity.
  - destruct (changed_char c) eqn:E; cbn [negb andb].
    + split; [|discriminate]. intros H. injection H as Hc _.
      destruct (PyStr.is_upper_char c) eqn:U.
      * pose proof (proj2 (derive_char c)) as D. rewrite E, U, Hc in D.
        congruence.
      * subst c. discriminate E.
    + rewrite <- IHf. split; [now intros [= ->]|now intros ->].
Qed.

End CliFacts.

Lemma table_name_shape_witness :
  ascii_text "Sales Data-2023.v2"
  /\ PyStr.len (Cli.table_name_of_stem "Sales Data-2023.v2") = 18
  /\ Cli.table_name_of_stem "Sales Data-2023.v2" <> "Sales Data-2023.v2".
Proof.
  assert (H : ascii_text "Sales Data-2023.v2") by reflexivity.
  split; [exact H|].
  destruct (CliFacts.table_name_shape "Sales Data-2023.v2" H)
    as (Hl & _ & Hf).
  split.
  - rewrite Hl. reflexivity.
  - intros E. apply Hf in E. discriminate E.
Defined.

Lemma connection_url_default :
  Connection.get_connection_url Connection.default_config
  = inr "mysql+pymysql://root:@localhost:3306/csv_converter".
Proof. reflexivity. Qed.

Lemma table_name_example :
  Cli.table_name_of_stem "Sales Data-2023.v2" = "sales_data_2023.v2".
Proof. reflexivity. Qed.
